(** * tor-history: the snapshot reconciliation engine of [tor-nodes.go]

    A shallow embedding of the parts of [src/tor-nodes.go] that decide how a
    consensus snapshot is reconciled with the store:

    - [recordsMatch], [cleanupRelayStruct], [addNewTorRelayToDB],
      [addNewRelayAddresses], [updateRelayAddressesIfNeeded] and
      [processTorResponse] (the change detector and its writes);
    - [extractNewAndUpdatedRelays] (the delta between two snapshots);
    - the cache refresh decision of [main];
    - [getConsensusDLTimestamp], [getTimeFormats] and
      [matchTimestampToFormats] (the download timestamp);
    - [parseCmdlnArguments] with [parseConfigFile], [fmtDBCfg] and
      [parseNodeFilters], and [init] (the configuration);
    - [main] after [initialize()], over both of its branches;
    - [printNodeInfo], as the list of the lines that it prints.

    Go strings are byte strings ([string]); a slice is [option (list _)]
    because Go tells a nil slice from an empty one; [map[string]string] is a
    [gmap string string] read with the zero value for a missing key.  The
    methods of [g_db] belong to the database layer of the repository, not to
    [tor-nodes.go]: they are the fields of the class [DBBackend], and every
    call the engine makes to them is recorded, in order, with its
    arguments.  A run ends normally, by [panic] or by [log.Fatal]
    ([Outcome]).  The files, the network and the command line are the
    fields of the class [GoOS] and the record [CmdLine].  The messages of
    [ifPrintln] are not modelled, and the engine is modelled without the
    lines that [printNodeInfo] prints on its way. *)

From Stdlib Require Import ZArith Lia List String Ascii Bool DecimalString.
From Stdlib Require Import Floats.PrimFloat.
From stdpp Require Import base gmap strings list.

Open Scope Z_scope.

(** ** Go strings as byte sequences *)

Module GoString.

Definition byte_of_ascii (c : ascii) : Z := Z.of_N (N_of_ascii c).
Definition ascii_of_byte (b : Z) : ascii := ascii_of_N (Z.to_N b).

Definition bytes (s : string) : list Z := map byte_of_ascii (list_ascii_of_string s).
Definition of_bytes (p : list Z) : string := string_of_list_ascii (map ascii_of_byte p).

(** [len(s)] *)
Definition len (s : string) : Z := Z.of_nat (String.length s).

(** The double quote, as a one-byte string. *)
Definition dquote : string := String (ascii_of_nat 34) EmptyString.

Fixpoint join (sep : string) (l : list string) : string :=
  match l with
  | [] => EmptyString
  | [x] => x
  | x :: rest => String.append x (String.append sep (join sep rest))
  end.

Fixpoint drop_while {A : Type} (f : A -> bool) (l : list A) : list A :=
  match l with
  | [] => []
  | x :: rest => if f x then drop_while f rest else l
  end.

(** [fmt.Sprintf] with the verb [%0wd]: sign, then zeros up to width [w],
    then the decimal digits. *)
Definition fmt_0d (w : nat) (z : Z) : string :=
  let digits := NilZero.string_of_uint (N.to_uint (Z.to_N (Z.abs z))) in
  let sign := if z <? 0 then "-"%string else EmptyString in
  String.append sign
    (String.append
       (string_of_list_ascii
          (repeat "0"%char (w - String.length sign - String.length digits)%nat))
       digits).

End GoString.

(** ** unicode/utf8: decoding and encoding of runes

    After Go's [unicode/utf8]: [first] and [acceptRanges] are its tables,
    [DecodeRune] is [DecodeRuneInString] on the bytes of the string and
    [EncodeRune] is what [AppendRune] appends. *)

Module utf8.

Definition RuneError : Z := 0xFFFD.
Definition RuneSelf : Z := 0x80.
Definition MaxRune : Z := 0x10FFFF.

Definition maskx : Z := 0x3F.
Definition mask2 : Z := 0x1F.
Definition mask3 : Z := 0x0F.
Definition mask4 : Z := 0x07.
Definition locb : Z := 0x80.
Definition hicb : Z := 0xBF.

(** Information about the first byte of an encoding: [xx] invalid, [as_]
    ASCII, otherwise the accept range in the high nibble and the size in
    the low one. *)
Definition xx : Z := 0xF1.
Definition as_ : Z := 0xF0.
Definition s1 : Z := 0x02.
Definition s2 : Z := 0x13.
Definition s3 : Z := 0x03.
Definition s4 : Z := 0x23.
Definition s5 : Z := 0x34.
Definition s6 : Z := 0x04.
Definition s7 : Z := 0x44.

Definition first (b : Z) : Z :=
  if b <? 0x80 then as_
  else if b <? 0xC2 then xx
  else if b <? 0xE0 then s1
  else if b =? 0xE0 then s2
  else if b <? 0xED then s3
  else if b =? 0xED then s4
  else if b <? 0xF0 then s3
  else if b =? 0xF0 then s5
  else if b <? 0xF4 then s6
  else if b =? 0xF4 then s7
  else xx.

Definition acceptRanges (i : Z) : Z * Z :=
  if i =? 0 then (locb, hicb)
  else if i =? 1 then (0xA0, hicb)
  else if i =? 2 then (locb, 0x9F)
  else if i =? 3 then (0x90, hicb)
  else if i =? 4 then (locb, 0x8F)
  else (0, 0).

(** [DecodeRuneInString]: the first rune of [p] and its width in bytes.
    For a first byte of size 1 the source returns
    [rune(s[0])&^mask | RuneError&mask] with [mask := rune(x) << 31 >> 31],
    which is all ones exactly when [x] is odd ([xx]). *)
Definition DecodeRune (p : list Z) : Z * nat :=
  match p with
  | [] => (RuneError, 0%nat)
  | p0 :: _ =>
    let x := first p0 in
    if as_ <=? x then ((if Z.odd x then RuneError else p0), 1%nat)
    else
      let sz := Z.land x 7 in
      let '(lo, hi) := acceptRanges (Z.shiftr x 4) in
      if Z.of_nat (length p) <? sz then (RuneError, 1%nat)
      else
        let b1 := nth 1 p 0 in
        if (b1 <? lo) || (hi <? b1) then (RuneError, 1%nat)
        else if sz <=? 2 then
          (Z.lor (Z.shiftl (Z.land p0 mask2) 6) (Z.land b1 maskx), 2%nat)
        else
          let b2 := nth 2 p 0 in
          if (b2 <? locb) || (hicb <? b2) then (RuneError, 1%nat)
          else if sz <=? 3 then
            (Z.lor (Z.lor (Z.shiftl (Z.land p0 mask3) 12)
                          (Z.shiftl (Z.land b1 maskx) 6))
                   (Z.land b2 maskx), 3%nat)
          else
            let b3 := nth 3 p 0 in
            if (b3 <? locb) || (hicb <? b3) then (RuneError, 1%nat)
            else
              (Z.lor (Z.lor (Z.lor (Z.shiftl (Z.land p0 mask4) 18)
                                   (Z.shiftl (Z.land b1 maskx) 12))
                            (Z.shiftl (Z.land b2 maskx) 6))
                     (Z.land b3 maskx), 4%nat)
  end.


(** The runes a [for _, c := range s] loop sees: each decoded rune with the
    bytes it was read from; an invalid byte is read as [RuneError], width 1.
    [skip] counts the bytes of the current rune still to pass over. *)
Fixpoint spans_from (skip : nat) (p : list Z) : list (Z * list Z) :=
  match p with
  | [] => []
  | _ :: rest =>
    match skip with
    | S k => spans_from k rest
    | O => let '(r, w) := DecodeRune p in (r, take w p) :: spans_from (pred w) rest
    end
  end.

Definition spans (p : list Z) : list (Z * list Z) := spans_from 0 p.
Definition runes (p : list Z) : list Z := map fst (spans p).

(** [AppendRune]: the UTF-8 encoding of [r]; a surrogate or a value out of
    range is encoded as [RuneError].  The [uint32] conversion of a negative
    rune is above [MaxRune]. *)
Definition EncodeRune (r : Z) : list Z :=
  let i := r mod 2 ^ 32 in
  let byte (v : Z) := v mod 256 in
  let three (r : Z) :=
    [Z.lor 0xE0 (byte (Z.shiftr r 12));
     Z.lor 0x80 (Z.land (byte (Z.shiftr r 6)) maskx);
     Z.lor 0x80 (Z.land (byte r) maskx)] in
  if i <=? 0x7F then [byte r]
  else if i <=? 0x7FF then
    [Z.lor 0xC0 (byte (Z.shiftr r 6)); Z.lor 0x80 (Z.land (byte r) maskx)]
  else if (MaxRune <? i) || ((0xD800 <=? i) && (i <=? 0xDFFF)) then three RuneError
  else if i <=? 0xFFFF then three r
  else
    [Z.lor 0xF0 (byte (Z.shiftr r 18));
     Z.lor 0x80 (Z.land (byte (Z.shiftr r 12)) maskx);
     Z.lor 0x80 (Z.land (byte (Z.shiftr r 6)) maskx);
     Z.lor 0x80 (Z.land (byte r) maskx)].

End utf8.

(** ** unicode and strings *)

Module unicode.

Definition MaxASCII : Z := 0x7F.
Definition MaxLatin1 : Z := 0xFF.

(** [unicode.IsSpace]: the Latin-1 cases of the source, then the
    [White_Space] table outside Latin-1. *)
Definition IsSpace (r : Z) : bool :=
  if (0 <=? r) && (r <=? MaxLatin1) then
    (r =? 9) || (r =? 10) || (r =? 11) || (r =? 12) || (r =? 13) || (r =? 32)
    || (r =? 0x85) || (r =? 0xA0)
  else
    (r =? 0x1680) || ((0x2000 <=? r) && (r <=? 0x200A)) || (r =? 0x2028)
    || (r =? 0x2029) || (r =? 0x202F) || (r =? 0x205F) || (r =? 0x3000).

(** [unicode.ToLower]; [To_LowerCase] stands for [To(LowerCase, r)], the
    case tables for runes beyond ASCII. *)
Definition ToLower (To_LowerCase : Z -> Z) (r : Z) : Z :=
  if r <=? MaxASCII then
    (if (65 <=? r) && (r <=? 90) then r + (97 - 65) else r)
  else To_LowerCase r.

End unicode.

Module strings.

Import GoString.

(** [strings.Map(mapping, s)]: every rune of [s] is replaced by its image
    and encoded again; a negative image is dropped. *)
Definition Map (mapping : Z -> Z) (s : string) : string :=
  of_bytes (flat_map (fun c => let r := mapping c in
                               if 0 <=? r then utf8.EncodeRune r else [])
                     (utf8.runes (bytes s))).

(** [strings.ToLower(s)]: all letters mapped to their lower case. *)
Definition ToLower (To_LowerCase : Z -> Z) (s : string) : string :=
  Map (unicode.ToLower To_LowerCase) s.

(** [strings.TrimSpace(s)]: [s] without its leading and trailing white
    space, as [unicode.IsSpace] defines it. *)
Definition TrimSpace (s : string) : string :=
  let isSpace (sp : Z * list Z) := unicode.IsSpace (fst sp) in
  let kept := rev (drop_while isSpace (rev (drop_while isSpace (utf8.spans (bytes s))))) in
  of_bytes (flat_map snd kept).

End strings.

(** ** The data model of [tor-nodes.go] *)

(** A Go slice: [None] is the nil slice, [Some []] an empty one. *)
Definition slice (A : Type) : Type := option (list A).

Definition elems {A : Type} (s : slice A) : list A :=
  match s with Some l => l | None => [] end.

Definition slice_len {A : Type} (s : slice A) : Z := Z.of_nat (length (elems s)).

(** What [encoding/json] stores in an [interface{}]: nil for null, bool,
    float64, string, [[]interface{}] and [map[string]interface{}] (its
    entries as a list of keys with their values). *)
#[warnings="-register-all"]
Inductive iface : Type :=
| iface_nil
| iface_bool (b : bool)
| iface_float64 (f : float)
| iface_string (s : string)
| iface_slice (l : list iface)
| iface_map (m : list (string * iface)).

Record TorRelayDetails : Type := mkTorRelayDetails {
  Nickname : string;
  Fingerprint : string;
  Or_addresses : slice string;
  Exit_addresses : slice string;
  Dir_address : string;
  Last_seen : string;
  Last_changed_address_or_port : string;
  First_seen : string;
  Running : bool;
  Hibernating : bool;
  Flags : slice string;
  Country : string;
  Country_name : string;
  Region_name : string;
  City_name : string;
  Latitude : float;
  Longitude : float;
  As : string;
  As_number : string;
  As_name : string;
  Consensus_weight : Z;
  Host_name : string;
  Verified_host_names : slice string;
  Unverified_host_names : slice string;
  Last_restarted : string;
  Bandwidth_rate : Z;
  Bandwidth_burst : Z;
  Observed_bandwidth : Z;
  Advertised_bandwidth : Z;
  Exit_policy : slice string;
  Exit_policy_summary : iface;
  Exit_policy_v6_summary : iface;
  Contact : string;
  Platform : string;
  Version : string;
  Recommended_version : bool;
  Version_status : string;
  Effective_family : slice string;
  Alleged_family : slice string;
  Indirect_family : slice string;
  Consensus_weight_fraction : float;
  Guard_probability : float;
  Middle_probability : float;
  Exit_probability : float;
  Measured : bool;
  Unreachable_or_addresses : slice string
}.

(** [TorResponse]; the engine reads [Relays] only. *)
Record TorResponse : Type := mkTorResponse {
  Response_Version : string;
  Next_major_version_scheduled : string;
  Build_revision : string;
  Relays_published : string;
  Relays_skipped : Z;
  Relays : list TorRelayDetails;
  Relays_truncated : Z;
  Bridges_published : string;
  Bridges_skipped : Z;
  Bridges : slice iface;
  Bridges_truncated : Z
}.

(** The parts of [TorHistoryConfig] the engine reads ([Verbosity], [Quiet],
    [Backup] and [Print] only steer console output and backups). *)
Record DBServerConfig : Type := mkDBServerConfig {
  Enabled : bool;
  Port : string;
  Host : string;
  DBName : string;
  Username : string;
  Password : string;
  ReInitCaches : Z
}.

Record TorConfig : Type := mkTorConfig {
  ConsensusURL : string;
  Filename : string;
  ConsensusDLT : string;
  ConsensusDLT_fmt : string;
  ExtractDLTfromFilename : bool;
  ExtractDLTfromFilename_regex : string
}.

Record FilterConfig : Type := mkFilterConfig {
  Filter_Running : bool;
  Filter_Hibernating : bool;
  matchFlags : slice string
}.

Record TorHistoryConfig : Type := mkTorHistoryConfig {
  DBServer : DBServerConfig;
  Tor : TorConfig;
  Filter : FilterConfig
}.

(** [time.Time], as far as [getConsensusDLTimestamp] reads it. *)
Record time_Time : Type := mk_time {
  Year : Z; Month : Z; Day : Z; Hour : Z; Minute : Z; Second : Z
}.

(** The arguments of [g_db.stmtAddTorRelays.Exec], in order. *)
Record TorRelaysRow : Type := mkTorRelaysRow {
  row_fpid : string;
  row_countryid : string;
  row_regionid : string;
  row_cityid : string;
  row_platformid : string;
  row_versionid : string;
  row_contactid : string;
  row_exitp : string;
  row_exitps : string;
  row_exitps6 : string;
  row_nick : string;
  row_lastChanged : string;
  row_firstSeen : string;
  row_RecordTimeInserted : string;
  row_RecordLastSeen : string;
  row_jsFlags : string;
  row_jsRelay : string
}.

(** ** Library functions taken as given

    The functions of Go's library whose result depends on tables or on the
    clock: the non-ASCII lower-case table of [unicode], the string literal
    and the [interface{}] and struct encoders of [encoding/json] (a result
    that is an error is the empty string, as the callers drop the error),
    [time.Now], [time.Parse] and [regexp] ([None] when [MustCompile]
    panics, otherwise the matches of [FindAllString(filename, -1)]). *)
Class GoLib : Type := {
  unicode_To_LowerCase : Z -> Z;
  json_string : string -> string;
  json_Marshal_iface : iface -> string;
  json_Marshal_TorRelayDetails : TorRelayDetails -> string;
  time_Now : time_Time;
  time_Parse : string -> string -> option time_Time;
  regexp_FindAllString : string -> string -> option (list string)
}.

(** [json.Marshal] of a [[]string]: [null] for the nil slice, otherwise the
    array of the encoded elements. *)
Definition json_Marshal_strings `{GoLib} (s : slice string) : string :=
  match s with
  | None => "null"
  | Some l => String.append "[" (String.append (GoString.join "," (map json_string l)) "]")
  end.

(** ** [reflect.DeepEqual] on relay records *)

Definition slice_DeepEqual (a b : slice string) : bool :=
  match a, b with
  | None, None => true
  | Some l1, Some l2 =>
    (fix all2 (l1 l2 : list string) : bool :=
       match l1, l2 with
       | [], [] => true
       | x :: xs, y :: ys => String.eqb x y && all2 xs ys
       | _, _ => false
       end) l1 l2
  | _, _ => false
  end.

Fixpoint iface_DeepEqual (a b : iface) : bool :=
  match a, b with
  | iface_nil, iface_nil => true
  | iface_bool x, iface_bool y => Bool.eqb x y
  | iface_float64 x, iface_float64 y => PrimFloat.eqb x y
  | iface_string x, iface_string y => String.eqb x y
  | iface_slice l1, iface_slice l2 =>
    (fix all2 (l1 l2 : list iface) : bool :=
       match l1, l2 with
       | [], [] => true
       | x :: xs, y :: ys => iface_DeepEqual x y && all2 xs ys
       | _, _ => false
       end) l1 l2
  | iface_map m1, iface_map m2 =>
    Nat.eqb (length m1) (length m2) &&
    (fix each (m : list (string * iface)) : bool :=
       match m with
       | [] => true
       | (k, v) :: rest =>
         (fix find (m' : list (string * iface)) : bool :=
            match m' with
            | [] => false
            | (k', v') :: rest' => if String.eqb k k' then iface_DeepEqual v v' else find rest'
            end) m2 && each rest
       end) m1
  | _, _ => false
  end.

(** Field by field, as [reflect.DeepEqual] compares two structs of one
    type; floats by [==]. *)
Definition DeepEqual (a b : TorRelayDetails) : bool :=
  String.eqb (Nickname a) (Nickname b) &&
  String.eqb (Fingerprint a) (Fingerprint b) &&
  slice_DeepEqual (Or_addresses a) (Or_addresses b) &&
  slice_DeepEqual (Exit_addresses a) (Exit_addresses b) &&
  String.eqb (Dir_address a) (Dir_address b) &&
  String.eqb (Last_seen a) (Last_seen b) &&
  String.eqb (Last_changed_address_or_port a) (Last_changed_address_or_port b) &&
  String.eqb (First_seen a) (First_seen b) &&
  Bool.eqb (Running a) (Running b) &&
  Bool.eqb (Hibernating a) (Hibernating b) &&
  slice_DeepEqual (Flags a) (Flags b) &&
  String.eqb (Country a) (Country b) &&
  String.eqb (Country_name a) (Country_name b) &&
  String.eqb (Region_name a) (Region_name b) &&
  String.eqb (City_name a) (City_name b) &&
  PrimFloat.eqb (Latitude a) (Latitude b) &&
  PrimFloat.eqb (Longitude a) (Longitude b) &&
  String.eqb (As a) (As b) &&
  String.eqb (As_number a) (As_number b) &&
  String.eqb (As_name a) (As_name b) &&
  Z.eqb (Consensus_weight a) (Consensus_weight b) &&
  String.eqb (Host_name a) (Host_name b) &&
  slice_DeepEqual (Verified_host_names a) (Verified_host_names b) &&
  slice_DeepEqual (Unverified_host_names a) (Unverified_host_names b) &&
  String.eqb (Last_restarted a) (Last_restarted b) &&
  Z.eqb (Bandwidth_rate a) (Bandwidth_rate b) &&
  Z.eqb (Bandwidth_burst a) (Bandwidth_burst b) &&
  Z.eqb (Observed_bandwidth a) (Observed_bandwidth b) &&
  Z.eqb (Advertised_bandwidth a) (Advertised_bandwidth b) &&
  slice_DeepEqual (Exit_policy a) (Exit_policy b) &&
  iface_DeepEqual (Exit_policy_summary a) (Exit_policy_summary b) &&
  iface_DeepEqual (Exit_policy_v6_summary a) (Exit_policy_v6_summary b) &&
  String.eqb (Contact a) (Contact b) &&
  String.eqb (Platform a) (Platform b) &&
  String.eqb (Version a) (Version b) &&
  Bool.eqb (Recommended_version a) (Recommended_version b) &&
  String.eqb (Version_status a) (Version_status b) &&
  slice_DeepEqual (Effective_family a) (Effective_family b) &&
  slice_DeepEqual (Alleged_family a) (Alleged_family b) &&
  slice_DeepEqual (Indirect_family a) (Indirect_family b) &&
  PrimFloat.eqb (Consensus_weight_fraction a) (Consensus_weight_fraction b) &&
  PrimFloat.eqb (Guard_probability a) (Guard_probability b) &&
  PrimFloat.eqb (Middle_probability a) (Middle_probability b) &&
  PrimFloat.eqb (Exit_probability a) (Exit_probability b) &&
  Bool.eqb (Measured a) (Measured b) &&
  slice_DeepEqual (Unreachable_or_addresses a) (Unreachable_or_addresses b).

(** ** The change detector *)

(** [m[k]] on a [map[string]string]: the zero value for a missing key. *)
Definition idx (m : gmap string string) (k : string) : string :=
  default EmptyString (m !! k).

(** [lrd[fp]] on the Latest Relay Data cache: a missing fingerprint gives
    the nil map, which reads like the empty one. *)
Definition lrd_idx (lrd : gmap string (gmap string string)) (fp : string)
  : gmap string string :=
  default ∅ (lrd !! fp).

Section ChangeDetector.

Context {L : GoLib}.

Definition recordsMatch (relay : TorRelayDetails) (lrdfp : gmap string string) : bool :=
  let js_exitp := json_Marshal_strings (Exit_policy relay) in
  let js_exitps := json_Marshal_iface (Exit_policy_summary relay) in
  let js_exitps6 := json_Marshal_iface (Exit_policy_v6_summary relay) in
  if String.eqb (Nickname relay) (idx lrdfp "Nickname") &&
     String.eqb (Country relay) (idx lrdfp "Country") &&
     String.eqb (City_name relay) (idx lrdfp "CityName") &&
     String.eqb (Platform relay) (idx lrdfp "PlatformName") &&
     String.eqb (Version relay) (idx lrdfp "VersionName") &&
     String.eqb (strings.ToLower unicode_To_LowerCase (Contact relay))
                (strings.ToLower unicode_To_LowerCase (idx lrdfp "ContactName")) &&
     String.eqb (Last_changed_address_or_port relay) (idx lrdfp "Last_changed_address_or_port") &&
     String.eqb (First_seen relay) (idx lrdfp "First_seen") &&
     String.eqb js_exitp (idx lrdfp "ExitPolicy") &&
     String.eqb js_exitps (idx lrdfp "ExitPolicySummary") &&
     String.eqb js_exitps6 (idx lrdfp "ExitPolicyV6Summary")
  then true
  else false.

End ChangeDetector.

(** [relay.Contact = c] *)
Definition set_Contact (pr : TorRelayDetails) (c : string) : TorRelayDetails :=
  {| Nickname := Nickname pr;
     Fingerprint := Fingerprint pr;
     Or_addresses := Or_addresses pr;
     Exit_addresses := Exit_addresses pr;
     Dir_address := Dir_address pr;
     Last_seen := Last_seen pr;
     Last_changed_address_or_port := Last_changed_address_or_port pr;
     First_seen := First_seen pr;
     Running := Running pr;
     Hibernating := Hibernating pr;
     Flags := Flags pr;
     Country := Country pr;
     Country_name := Country_name pr;
     Region_name := Region_name pr;
     City_name := City_name pr;
     Latitude := Latitude pr;
     Longitude := Longitude pr;
     As := As pr;
     As_number := As_number pr;
     As_name := As_name pr;
     Consensus_weight := Consensus_weight pr;
     Host_name := Host_name pr;
     Verified_host_names := Verified_host_names pr;
     Unverified_host_names := Unverified_host_names pr;
     Last_restarted := Last_restarted pr;
     Bandwidth_rate := Bandwidth_rate pr;
     Bandwidth_burst := Bandwidth_burst pr;
     Observed_bandwidth := Observed_bandwidth pr;
     Advertised_bandwidth := Advertised_bandwidth pr;
     Exit_policy := Exit_policy pr;
     Exit_policy_summary := Exit_policy_summary pr;
     Exit_policy_v6_summary := Exit_policy_v6_summary pr;
     Contact := c;
     Platform := Platform pr;
     Version := Version pr;
     Recommended_version := Recommended_version pr;
     Version_status := Version_status pr;
     Effective_family := Effective_family pr;
     Alleged_family := Alleged_family pr;
     Indirect_family := Indirect_family pr;
     Consensus_weight_fraction := Consensus_weight_fraction pr;
     Guard_probability := Guard_probability pr;
     Middle_probability := Middle_probability pr;
     Exit_probability := Exit_probability pr;
     Measured := Measured pr;
     Unreachable_or_addresses := Unreachable_or_addresses pr |}.

(** [relay.Contact = strings.TrimSpace(relay.Contact)] *)
Definition trim_Contact (relay : TorRelayDetails) : TorRelayDetails :=
  set_Contact relay (strings.TrimSpace (Contact relay)).

Definition cleanupRelayStruct (pr : TorRelayDetails) : TorRelayDetails :=
  {| Nickname := EmptyString;
     Country := EmptyString;
     Country_name := EmptyString;
     Region_name := EmptyString;
     City_name := EmptyString;
     Platform := EmptyString;
     Version := EmptyString;
     Contact := EmptyString;
     Last_changed_address_or_port := EmptyString;
     First_seen := EmptyString;
     Fingerprint := EmptyString;
     Exit_policy := None;
     Exit_policy_summary := iface_nil;
     Exit_policy_v6_summary := iface_nil;
     Or_addresses := Or_addresses pr;
     Exit_addresses := Exit_addresses pr;
     Dir_address := Dir_address pr;
     Last_seen := Last_seen pr;
     Running := Running pr;
     Hibernating := Hibernating pr;
     Flags := Flags pr;
     Latitude := Latitude pr;
     Longitude := Longitude pr;
     As := As pr;
     As_number := As_number pr;
     As_name := As_name pr;
     Consensus_weight := Consensus_weight pr;
     Host_name := Host_name pr;
     Verified_host_names := Verified_host_names pr;
     Unverified_host_names := Unverified_host_names pr;
     Last_restarted := Last_restarted pr;
     Bandwidth_rate := Bandwidth_rate pr;
     Bandwidth_burst := Bandwidth_burst pr;
     Observed_bandwidth := Observed_bandwidth pr;
     Advertised_bandwidth := Advertised_bandwidth pr;
     Recommended_version := Recommended_version pr;
     Version_status := Version_status pr;
     Effective_family := Effective_family pr;
     Alleged_family := Alleged_family pr;
     Indirect_family := Indirect_family pr;
     Consensus_weight_fraction := Consensus_weight_fraction pr;
     Guard_probability := Guard_probability pr;
     Middle_probability := Middle_probability pr;
     Exit_probability := Exit_probability pr;
     Measured := Measured pr;
     Unreachable_or_addresses := Unreachable_or_addresses pr |}.

Definition allStringsInSetMatch (needles set : slice string) : bool :=
  if slice_len needles =? 0 then true
  else forallb (fun curNeedle => existsb (fun curStr => String.eqb curStr curNeedle) (elems set))
               (elems needles).

(** ** The database handle and the effects of the engine *)

(** A call of a method of [g_db], with its arguments. *)
Inductive DBCall : Type :=
| call_value2id (class text : string)
| call_normalizeCountryID (country country_name : string)
| call_stmtAddTorRelays_Exec (row : TorRelaysRow)
| call_addToIP (role fpid rti rls addr : string)
| call_updateIfNeededRelayAddressRLS (role fpid dlts addr : string)
| call_updateTorRelayRLS (id dlts : string)
| call_initCaches
| call_initCountryNameCache
| call_initializeLatestRelayDataCache (dlts : string)
| call_addToTorQueries (version relays_published bridges_published dlts : string).

(** The type [DB] behind [g_db] with the fields and methods the engine
    uses.  Each method is a transition of the handle; [value2id] and
    [normalizeCountryID] return an id, and [stmtAddTorRelays.Exec] returns
    the error text or the [LastInsertId] of the new row. *)
Class DBBackend : Type := {
  DB : Type;
  initialized : DB -> bool;
  lrd : DB -> gmap string (gmap string string);
  value2id : string -> string -> DB -> string * DB;
  normalizeCountryID : string -> string -> DB -> string * DB;
  stmtAddTorRelays_Exec : TorRelaysRow -> DB -> (string + Z) * DB;
  addToIP : string -> string -> string -> string -> string -> DB -> DB;
  updateIfNeededRelayAddressRLS : string -> string -> string -> string -> DB -> DB;
  updateTorRelayRLS : string -> string -> DB -> DB;
  initCaches : DB -> DB;
  initCountryNameCache : DB -> DB;
  initializeLatestRelayDataCache : string -> DB -> DB;
  addToTorQueries : string -> string -> string -> string -> DB -> DB
}.

(** How a computation ends: normally, by [panic] or by [log.Fatal]. *)
Inductive Outcome (A : Type) : Type :=
| Done (a : A)
| Panic (msg : string)
| Fatal (msg : string).

Arguments Done {A} a.
Arguments Panic {A} msg.
Arguments Fatal {A} msg.

(** ** The batch delta extractor *)

(** The first loop of [extractNewAndUpdatedRelays]: [fp2id[node.Fingerprint] = id]
    for the records of [old] from index [id] on. *)
Fixpoint build_fp2id (old : list TorRelayDetails) (id : nat) (fp2id : gmap string nat)
  : gmap string nat :=
  match old with
  | [] => fp2id
  | node :: rest => build_fp2id rest (S id) (<[Fingerprint node := id]> fp2id)
  end.

(** The second loop, over the records of [new] still to visit; [old[old_id]]
    panics when the index is out of range. *)
Fixpoint extract_loop (old new : list TorRelayDetails) (fp2id : gmap string nat)
    (_result : list TorRelayDetails) : Outcome (list TorRelayDetails) :=
  match new with
  | [] => Done _result
  | n :: rest =>
    match fp2id !! Fingerprint n with
    | Some old_id =>
      match old !! old_id with
      | None => Panic "index out of range"
      | Some o =>
        if DeepEqual n o
        then extract_loop old rest (delete (Fingerprint n) fp2id) _result
        else extract_loop old rest fp2id (_result ++ [n])
      end
    | None => extract_loop old rest fp2id (_result ++ [n])
    end
  end.

Definition extractNewAndUpdatedRelays (old new : list TorRelayDetails)
  : Outcome (list TorRelayDetails) :=
  extract_loop old new (build_fp2id old 0 ∅) [].

Section Engine.

Context {L : GoLib} {B : DBBackend}.

(** The globals of the program and the calls made on [g_db] so far. *)
Record World : Type := mkWorld {
  g_config : TorHistoryConfig;
  g_db : option DB;
  g_consensusDLTS : string;
  db_calls : list DBCall
}.

Definition M (A : Type) : Type := World -> Outcome A * World.

Definition ret {A : Type} (a : A) : M A := fun w => (Done a, w).

Definition bind {A B : Type} (m : M A) (f : A -> M B) : M B :=
  fun w =>
    match m w with
    | (Done a, w') => f a w'
    | (Panic msg, w') => (Panic msg, w')
    | (Fatal msg, w') => (Fatal msg, w')
    end.

Definition panic {A : Type} (msg : string) : M A := fun w => (Panic msg, w).
Definition log_Fatal {A : Type} (msg : string) : M A := fun w => (Fatal msg, w).

Notation "x <- m ;; k" := (bind m (fun x => k))
  (at level 100, m at next level, right associativity).
Notation "m ;;; k" := (bind m (fun _ => k))
  (at level 100, right associativity).

Fixpoint for_each {A : Type} (l : list A) (body : A -> M unit) : M unit :=
  match l with
  | [] => ret tt
  | x :: rest => body x ;;; for_each rest body
  end.

(** The world after the calls [cs], which left the handle as [db']. *)
Definition after_calls (w : World) (db' : DB) (cs : list DBCall) : World :=
  {| g_config := g_config w;
     g_db := Some db';
     g_consensusDLTS := g_consensusDLTS w;
     db_calls := db_calls w ++ cs |}.

(** A method call on [g_db]: it is recorded, then run on the handle.  A
    nil [g_db] panics. *)
Definition db_call {A : Type} (c : DBCall) (method : DB -> A * DB) : M A :=
  fun w =>
    match g_db w with
    | None => (Panic "nil pointer dereference", w)
    | Some db => let '(a, db') := method db in (Done a, after_calls w db' [c])
    end.

Definition db_exec (c : DBCall) (method : DB -> DB) : M unit :=
  db_call c (fun db => (tt, method db)).

(** [g_db.lrd[fp][key]] *)
Definition g_db_lrd (fp key : string) : M string :=
  fun w =>
    match g_db w with
    | None => (Panic "nil pointer dereference", w)
    | Some db => (Done (idx (lrd_idx (lrd db) fp) key), w)
    end.

Definition get_consensusDLTS : M string := fun w => (Done (g_consensusDLTS w), w).

(** [g_db.updateIfNeededRelayAddressRLS] called for one address, with the
    [ID_NodeFingerprints] of the cache entry of [fp] and [g_consensusDLTS]. *)
Definition sync_address (fp role addr : string) : M unit :=
  fpid <- g_db_lrd fp "ID_NodeFingerprints" ;;
  dlts <- get_consensusDLTS ;;
  db_exec (call_updateIfNeededRelayAddressRLS role fpid dlts addr)
          (updateIfNeededRelayAddressRLS role fpid dlts addr).

Definition updateRelayAddressesIfNeeded (relay : TorRelayDetails) : M unit :=
  let fp := Fingerprint relay in
  (if 0 <? slice_len (Or_addresses relay)
   then for_each (elems (Or_addresses relay)) (sync_address fp "Or")
   else ret tt) ;;;
  (if 0 <? slice_len (Exit_addresses relay)
   then for_each (elems (Exit_addresses relay)) (sync_address fp "Ex")
   else ret tt) ;;;
  (if 0 <? GoString.len (Dir_address relay)
   then sync_address fp "Di" (Dir_address relay)
   else ret tt).

(** [g_db.addToIP(role, fpid, g_consensusDLTS, g_consensusDLTS, addr)] *)
Definition add_address (fpid role addr : string) : M unit :=
  dlts <- get_consensusDLTS ;;
  db_exec (call_addToIP role fpid dlts dlts addr) (addToIP role fpid dlts dlts addr).

(** [lastID] is only printed. *)
Definition addNewRelayAddresses (lastID fpid : string)
    (Or_addresses Exit_addresses : slice string) (Dir_address : string) : M unit :=
  (if 0 <? slice_len Or_addresses
   then for_each (elems Or_addresses) (add_address fpid "Or")
   else ret tt) ;;;
  (if 0 <? slice_len Exit_addresses
   then for_each (elems Exit_addresses) (add_address fpid "Ex")
   else ret tt) ;;;
  (if 0 <? GoString.len Dir_address
   then add_address fpid "Di" Dir_address
   else ret tt).

Definition addNewTorRelayToDB (relay : TorRelayDetails) : M unit :=
  fpid <- db_call (call_value2id "fingerprint" (Fingerprint relay))
                  (value2id "fingerprint" (Fingerprint relay)) ;;
  countryid <- db_call (call_normalizeCountryID (Country relay) (Country_name relay))
                       (normalizeCountryID (Country relay) (Country_name relay)) ;;
  regionid <- db_call (call_value2id "region" (Region_name relay))
                      (value2id "region" (Region_name relay)) ;;
  cityid <- db_call (call_value2id "city" (City_name relay))
                    (value2id "city" (City_name relay)) ;;
  platformid <- db_call (call_value2id "platform" (Platform relay))
                        (value2id "platform" (Platform relay)) ;;
  versionid <- db_call (call_value2id "version" (Version relay))
                       (value2id "version" (Version relay)) ;;
  contactid <- db_call (call_value2id "contact" (Contact relay))
                       (value2id "contact" (Contact relay)) ;;
  let js_exitp := json_Marshal_strings (Exit_policy relay) in
  exitp <- db_call (call_value2id "exitp" js_exitp) (value2id "exitp" js_exitp) ;;
  let js_exitps := json_Marshal_iface (Exit_policy_summary relay) in
  exitps <- db_call (call_value2id "exitps" js_exitps) (value2id "exitps" js_exitps) ;;
  let js_exitps6 := json_Marshal_iface (Exit_policy_v6_summary relay) in
  exitps6 <- db_call (call_value2id "exitps6" js_exitps6) (value2id "exitps6" js_exitps6) ;;
  let nick := Nickname relay in
  let lastChanged := Last_changed_address_or_port relay in
  let firstSeen := First_seen relay in
  let relay := cleanupRelayStruct relay in
  let jsFlags := json_Marshal_strings (Flags relay) in
  let jsRelay := json_Marshal_TorRelayDetails relay in
  dlts <- get_consensusDLTS ;;
  let row := mkTorRelaysRow fpid countryid regionid cityid platformid versionid contactid
                            exitp exitps exitps6 nick lastChanged firstSeen dlts dlts
                            jsFlags jsRelay in
  res <- db_call (call_stmtAddTorRelays_Exec row) (stmtAddTorRelays_Exec row) ;;
  match res with
  | inl err => panic (String.append "func main: g_db.stmtAddTorRelays.Exec: " err)
  | inr lastID_int64 =>
    let lastID := GoString.fmt_0d 0 lastID_int64 in
    addNewRelayAddresses lastID fpid (Or_addresses relay) (Exit_addresses relay)
                         (Dir_address relay)
  end.

(** The database backend logic of the loop body of [processTorResponse]
    (the block guarded by [g_db != nil && g_db.initialized]). *)
Definition reconcileRelay (relay : TorRelayDetails) : M unit :=
  let relay := trim_Contact relay in
  let fp := Fingerprint relay in
  fun w =>
    match g_db w with
    | None => (Panic "nil pointer dereference", w)
    | Some db =>
      if recordsMatch relay (lrd_idx (lrd db) fp) then
        let RecordLastSeen := idx (lrd_idx (lrd db) fp) "RecordLastSeen" in
        if String.eqb (g_consensusDLTS w) RecordLastSeen then (Done tt, w)
        else if String.ltb (g_consensusDLTS w) RecordLastSeen then (Done tt, w)
        else
          (updateRelayAddressesIfNeeded relay ;;;
           id <- g_db_lrd fp "id" ;;
           dlts <- get_consensusDLTS ;;
           db_exec (call_updateTorRelayRLS id dlts) (updateTorRelayRLS id dlts)) w
      else addNewTorRelayToDB relay w
    end.

(** One iteration of the loop of [processTorResponse]. *)
Definition processRelay (relay : TorRelayDetails) : M unit :=
  fun w =>
    if negb (allStringsInSetMatch (matchFlags (Filter (g_config w))) (Flags relay))
    then (Done tt, w)
    else
      match g_db w with
      | Some db => if initialized db then reconcileRelay relay w else (Done tt, w)
      | None => (Done tt, w)
      end.

Definition processTorResponse (tor_response : TorResponse) : M unit :=
  for_each (Relays tor_response) processRelay.

(** ** The download timestamp *)

Definition getTimeFormats (cfg : TorHistoryConfig) : list string :=
  if 0 <? GoString.len (ConsensusDLT_fmt (Tor cfg))
  then [ConsensusDLT_fmt (Tor cfg)]
  else ["2006-01-02_15:04:05"; "2006-01-02_15:04"; "20060102150405"; "200601021504";
        "2006-01-02-15-04-05"; "2006-01-02-15-04";
        "2006-01-02T15:04:05Z07:00"; "2006-01-02T15:04:05.999999999Z07:00";
        "Mon Jan _2 15:04:05 2006"; "Mon Jan _2 15:04:05 MST 2006";
        "02 Jan 06 15:04 MST"; "02 Jan 06 15:04 -0700";
        "Monday, 02-Jan-06 15:04:05 MST"; "Mon, 02 Jan 2006 15:04:05 MST";
        "Mon, 02 Jan 2006 15:04:05 -0700"; "Mon Jan 02 15:04:05 -0700 2006"]%string.

(** The inner loop of [matchTimestampToFormats], for one candidate. *)
Fixpoint match_formats (ts : string) (formats : list string) : option time_Time :=
  match formats with
  | [] => None
  | f :: rest =>
    match time_Parse f ts with
    | Some t => Some t
    | None => match_formats ts rest
    end
  end.

Fixpoint matchTimestampToFormats (ts_matches formats : list string) : option time_Time :=
  match ts_matches with
  | [] => None
  | ts :: rest =>
    match match_formats ts formats with
    | Some t => Some t
    | None => matchTimestampToFormats rest formats
    end
  end.

(** The candidates [ts_matches] that [getConsensusDLTimestamp] collects
    when it does not use the system time: the override, replaced by the
    matches in the file name when extraction is on. *)
Definition ts_candidates (cfg : TorHistoryConfig) (filename : string) : Outcome (list string) :=
  let ts_matches :=
    if 0 <? GoString.len (ConsensusDLT (Tor cfg)) then [ConsensusDLT (Tor cfg)] else [] in
  if ExtractDLTfromFilename (Tor cfg) then
    let re :=
      if 0 <? GoString.len (ExtractDLTfromFilename_regex (Tor cfg))
      then ExtractDLTfromFilename_regex (Tor cfg)
      else "[0-9][0-9-_:]+[0-9]"%string in
    match regexp_FindAllString re filename with
    | None => Panic "regexp: Compile"
    | Some found => Done found
    end
  else Done ts_matches.

Definition getConsensusDLTimestamp (filename : string) : M string :=
  fun w =>
    let cfg := g_config w in
    let filename := if String.eqb filename EmptyString then Filename (Tor cfg) else filename in
    let t : Outcome time_Time :=
      if negb (ExtractDLTfromFilename (Tor cfg)) && (GoString.len (ConsensusDLT (Tor cfg)) =? 0)
      then Done time_Now
      else
        match ts_candidates cfg filename with
        | Done ts_matches =>
          match matchTimestampToFormats ts_matches (getTimeFormats cfg) with
          | None => Fatal "Unable to parse timestamp."
          | Some t_res => Done t_res
          end
        | Panic msg => Panic msg
        | Fatal msg => Fatal msg
        end in
    match t with
    | Done t =>
      let str :=
        String.append (GoString.fmt_0d 4 (Year t))
          (String.append (GoString.fmt_0d 2 (Month t))
            (String.append (GoString.fmt_0d 2 (Day t))
              (String.append (GoString.fmt_0d 2 (Hour t))
                (String.append (GoString.fmt_0d 2 (Minute t))
                               (GoString.fmt_0d 2 (Second t)))))) in
      (Done str, w)
    | Panic msg => (Panic msg, w)
    | Fatal msg => (Fatal msg, w)
    end.

(** ** Cache initialisation and the loop of [main] over the files *)

Definition initializeCaches : M unit :=
  fun w =>
    if Enabled (DBServer (g_config w)) then
      (db_exec call_initCaches initCaches ;;;
       db_exec call_initCountryNameCache initCountryNameCache ;;;
       dlts <- get_consensusDLTS ;;
       db_exec (call_initializeLatestRelayDataCache dlts)
               (initializeLatestRelayDataCache dlts)) w
    else (Done tt, w).

(** [main], the cache refresh at file [num] inside the loop (the call of
    [initializeCaches] before the loop is not part of it): [num %
    ReInitCaches] is Go's remainder, which panics on a zero divisor. *)
Definition refreshCaches (num : Z) : M unit :=
  fun w =>
    let K := ReInitCaches (DBServer (g_config w)) in
    if K =? 0 then (Panic "integer divide by zero", w)
    else if Z.rem num K =? 0 then initializeCaches w
    else
      (dlts <- get_consensusDLTS ;;
       db_exec (call_initializeLatestRelayDataCache dlts)
               (initializeLatestRelayDataCache dlts)) w.

Definition set_consensusDLTS (dlts : string) : M unit :=
  fun w => (Done tt, {| g_config := g_config w; g_db := g_db w;
                        g_consensusDLTS := dlts; db_calls := db_calls w |}).

Definition set_Relays (r : TorResponse) (relays : list TorRelayDetails) : TorResponse :=
  {| Response_Version := Response_Version r;
     Next_major_version_scheduled := Next_major_version_scheduled r;
     Build_revision := Build_revision r;
     Relays_published := Relays_published r;
     Relays_skipped := Relays_skipped r;
     Relays := relays;
     Relays_truncated := Relays_truncated r;
     Bridges_published := Bridges_published r;
     Bridges_skipped := Bridges_skipped r;
     Bridges := Bridges r;
     Bridges_truncated := Bridges_truncated r |}.

(** [main], the shortcut after a file is read: the pair of the new
    [previous_tor_response] and of the response to process. *)
Definition main_shortcut (num : Z) (previous_tor_response tor_response : TorResponse)
  : Outcome (TorResponse * TorResponse) :=
  if negb (num =? 0) then
    match extractNewAndUpdatedRelays (Relays previous_tor_response) (Relays tor_response) with
    | Done old_miss => Done (tor_response, set_Relays tor_response old_miss)
    | Panic msg => Panic msg
    | Fatal msg => Fatal msg
    end
  else Done (tor_response, tor_response).

Definition logDataImport (tor_response : TorResponse) : M unit :=
  fun w =>
    match g_db w with
    | Some db =>
      if initialized db then
        (dlts <- get_consensusDLTS ;;
         db_exec (call_addToTorQueries (Response_Version tor_response)
                    (Relays_published tor_response) (Bridges_published tor_response) dlts)
                 (addToTorQueries (Response_Version tor_response)
                    (Relays_published tor_response) (Bridges_published tor_response) dlts)) w
      else (Done tt, w)
    | None => (Done tt, w)
    end.

(** The body of the loop of [main] for file number [num], named [fn];
    [decoded] is what [getConsensus(false, fn)] returns.  The result is the
    new [previous_tor_response]. *)
Definition main_loop_body (num : Z) (fn : string) (decoded previous_tor_response : TorResponse)
  : M TorResponse :=
  dlts <- getConsensusDLTimestamp fn ;;
  set_consensusDLTS dlts ;;;
  refreshCaches num ;;;
  match main_shortcut num previous_tor_response decoded with
  | Done (previous, tor_response) =>
    logDataImport tor_response ;;;
    processTorResponse tor_response ;;;
    ret previous
  | Panic msg => panic msg
  | Fatal msg => log_Fatal msg
  end.

End Engine.

Notation "x <- m ;; k" := (bind m (fun x => k))
  (at level 100, m at next level, right associativity).
Notation "m ;;; k" := (bind m (fun _ => k))
  (at level 100, right associativity).

(** ** Vocabulary of the specification *)

(** The comparable field set of the change detector. *)
Inductive ComparableField : Type :=
| F_Nickname
| F_Country
| F_City
| F_Platform
| F_Version
| F_Contact
| F_Last_changed_address_or_port
| F_First_seen
| F_ExitPolicy
| F_ExitPolicySummary
| F_ExitPolicyV6Summary.

Definition is_insert (c : DBCall) : bool :=
  match c with
  | call_stmtAddTorRelays_Exec _ => true
  | _ => false
  end.

(** The number of entity rows a sequence of calls creates. *)
Definition rows_created (calls : list DBCall) : nat :=
  length (List.filter is_insert calls).

(** The addresses of a relay with their roles, in the order in which the
    address synchronizer visits them. *)
Definition address_targets (relay : TorRelayDetails) : list (string * string) :=
  map (fun a => ("Or"%string, a)) (elems (Or_addresses relay)) ++
  map (fun a => ("Ex"%string, a)) (elems (Exit_addresses relay)) ++
  (if String.eqb (Dir_address relay) EmptyString then []
   else [("Di"%string, Dir_address relay)]).

(** A call of the address synchronizer for [target] at time [dlts]. *)
Definition is_sync_of (dlts : string) (target : string * string) (c : DBCall) : Prop :=
  exists fpid, c = call_updateIfNeededRelayAddressRLS (fst target) fpid dlts (snd target).




(** The record of [previous] that an incoming fingerprint is compared
    with: the last one carrying it. *)
Definition previous_counterpart (previous : list TorRelayDetails) (fp : string)
  : option TorRelayDetails :=
  last (List.filter (fun o => String.eqb (Fingerprint o) fp) previous).

(** The delta of the specification: a record of [current] is forwarded
    when its fingerprint is absent from [previous] or its record is not
    deeply equal to its counterpart there. *)
Definition forwarded (previous : list TorRelayDetails) (n : TorRelayDetails) : bool :=
  match previous_counterpart previous (Fingerprint n) with
  | None => true
  | Some o => negb (DeepEqual n o)
  end.

(** The contract of the cache refresh scheduler. *)
Definition shouldFullyRebuild (i K : Z) : bool := i mod K =? 0.

Section Vocabulary.

Context {L : GoLib} {B : DBBackend}.

(** The value of a comparable field in an incoming record, in the form in
    which it is compared: the contact in lower case, the policies in
    serialized form. *)
Definition relay_value (f : ComparableField) (relay : TorRelayDetails) : string :=
  match f with
  | F_Nickname => Nickname relay
  | F_Country => Country relay
  | F_City => City_name relay
  | F_Platform => Platform relay
  | F_Version => Version relay
  | F_Contact => strings.ToLower unicode_To_LowerCase (Contact relay)
  | F_Last_changed_address_or_port => Last_changed_address_or_port relay
  | F_First_seen => First_seen relay
  | F_ExitPolicy => json_Marshal_strings (Exit_policy relay)
  | F_ExitPolicySummary => json_Marshal_iface (Exit_policy_summary relay)
  | F_ExitPolicyV6Summary => json_Marshal_iface (Exit_policy_v6_summary relay)
  end.

(** The value of a comparable field in a cache entry. *)
Definition cached_value (f : ComparableField) (lrdfp : gmap string string) : string :=
  match f with
  | F_Nickname => idx lrdfp "Nickname"
  | F_Country => idx lrdfp "Country"
  | F_City => idx lrdfp "CityName"
  | F_Platform => idx lrdfp "PlatformName"
  | F_Version => idx lrdfp "VersionName"
  | F_Contact => strings.ToLower unicode_To_LowerCase (idx lrdfp "ContactName")
  | F_Last_changed_address_or_port => idx lrdfp "Last_changed_address_or_port"
  | F_First_seen => idx lrdfp "First_seen"
  | F_ExitPolicy => idx lrdfp "ExitPolicy"
  | F_ExitPolicySummary => idx lrdfp "ExitPolicySummary"
  | F_ExitPolicyV6Summary => idx lrdfp "ExitPolicyV6Summary"
  end.

(** The timestamps that a candidate parses to, format by format. *)
Definition parses_of (formats : list string) (ts : string) : list time_Time :=
  flat_map (fun f => match time_Parse f ts with Some t => [t] | None => [] end) formats.


(** All comparable fields of the record and of the entry agree. *)
Definition all_fields_match (relay : TorRelayDetails) (lrdfp : gmap string string) : Prop :=
  forall f, relay_value f relay = cached_value f lrdfp.

(** A record is reconciled in world [w] when it passes the flag filter and
    the database backend [db] is there and initialised. *)
Definition reconciled_in (w : World) (db : DB) (relay : TorRelayDetails) : Prop :=
  allStringsInSetMatch (matchFlags (Filter (g_config w))) (Flags relay) = true /\
  g_db w = Some db /\
  initialized db = true.


End Vocabulary.

(** ** A small instance for examples

    An instance of the library for plain ASCII data and a database handle
    that keeps the cache and nothing else, to run the engine on the
    scenarios of the specification.  On the values used below the instance
    agrees with Go: [json.Marshal] of a nil interface is [null], a string
    without special characters is encoded between double quotes, and no
    file name without digits matches the default timestamp pattern. *)

Module Sample.

Definition quoted (s : string) : string :=
  String.append GoString.dquote (String.append s GoString.dquote).

Definition marshal_iface (v : iface) : string :=
  match v with
  | iface_nil => "null"
  | iface_bool true => "true"
  | iface_bool false => "false"
  | iface_string s => quoted s
  | _ => EmptyString
  end.

Definition parse (f ts : string) : option time_Time :=
  if String.eqb f "20060102150405" && String.eqb ts "20230101000000"
  then Some (mk_time 2023 1 1 0 0 0)
  else None.

Definition lib : GoLib :=
  {| unicode_To_LowerCase := fun r => r;
     json_string := quoted;
     json_Marshal_iface := marshal_iface;
     json_Marshal_TorRelayDetails := fun _ => "{}"%string;
     time_Now := mk_time 2023 1 1 0 0 0;
     time_Parse := parse;
     regexp_FindAllString := fun _ _ => Some [] |}.

Record MemDB : Type := mkMemDB {
  mem_initialized : bool;
  mem_lrd : gmap string (gmap string string)
}.

Definition backend : DBBackend :=
  {| DB := MemDB;
     initialized := mem_initialized;
     lrd := mem_lrd;
     value2id := fun class text db => (String.append class (String.append ":" text), db);
     normalizeCountryID := fun cc _ db => (String.append "country:" cc, db);
     stmtAddTorRelays_Exec := fun _ db => (inr 1, db);
     addToIP := fun _ _ _ _ _ db => db;
     updateIfNeededRelayAddressRLS := fun _ _ _ _ db => db;
     updateTorRelayRLS := fun _ _ db => db;
     initCaches := fun db => db;
     initCountryNameCache := fun db => db;
     initializeLatestRelayDataCache := fun _ db => db;
     addToTorQueries := fun _ _ _ _ db => db |}.

(** A relay record with the given identity, contact and addresses and the
    zero value in every other field. *)
Definition relay (nick fp country contact : string) (or_addresses : slice string)
  : TorRelayDetails :=
  {| Nickname := nick;
     Fingerprint := fp;
     Or_addresses := or_addresses;
     Exit_addresses := None;
     Dir_address := EmptyString;
     Last_seen := EmptyString;
     Last_changed_address_or_port := EmptyString;
     First_seen := EmptyString;
     Running := false;
     Hibernating := false;
     Flags := None;
     Country := country;
     Country_name := EmptyString;
     Region_name := EmptyString;
     City_name := EmptyString;
     Latitude := 0%float;
     Longitude := 0%float;
     As := EmptyString;
     As_number := EmptyString;
     As_name := EmptyString;
     Consensus_weight := 0;
     Host_name := EmptyString;
     Verified_host_names := None;
     Unverified_host_names := None;
     Last_restarted := EmptyString;
     Bandwidth_rate := 0;
     Bandwidth_burst := 0;
     Observed_bandwidth := 0;
     Advertised_bandwidth := 0;
     Exit_policy := None;
     Exit_policy_summary := iface_nil;
     Exit_policy_v6_summary := iface_nil;
     Contact := contact;
     Platform := EmptyString;
     Version := EmptyString;
     Recommended_version := false;
     Version_status := EmptyString;
     Effective_family := None;
     Alleged_family := None;
     Indirect_family := None;
     Consensus_weight_fraction := 0%float;
     Guard_probability := 0%float;
     Middle_probability := 0%float;
     Exit_probability := 0%float;
     Measured := false;
     Unreachable_or_addresses := None |}.

(** The cache entry of a row with the given nickname, country and contact,
    last seen at [rls], and nil policies. *)
Definition entry (nick country contact rls : string) : gmap string string :=
  <["id" := "1"]> (
  <["ID_NodeFingerprints" := "7"]> (
  <["Nickname" := nick]> (
  <["Country" := country]> (
  <["ContactName" := contact]> (
  <["ExitPolicy" := "null"]> (
  <["ExitPolicySummary" := "null"]> (
  <["ExitPolicyV6Summary" := "null"]> (
  <["RecordLastSeen" := rls]> ∅))))))))%string.

Definition config (K : Z) (tor : TorConfig) : TorHistoryConfig :=
  {| DBServer := mkDBServerConfig true "3306" "localhost" "tor" "tor" EmptyString K;
     Tor := tor;
     Filter := mkFilterConfig false false None |}.

Definition tor_defaults : TorConfig :=
  mkTorConfig EmptyString EmptyString EmptyString EmptyString false EmptyString.

(** A world with the database backend on, the given cache and download
    timestamp, and no call made yet. *)
Definition world (cache : gmap string (gmap string string)) (dlts : string) : @World backend :=
  {| g_config := config 100 tor_defaults;
     g_db := Some (mkMemDB true cache : @DB backend);
     g_consensusDLTS := dlts;
     db_calls := [] |}.

End Sample.

(** The calls with which [addNewTorRelayToDB] resolves the dictionary ids
    of a record, in order. *)
Definition dictionary_calls {L : GoLib} (relay : TorRelayDetails) : list DBCall :=
  [call_value2id "fingerprint" (Fingerprint relay);
   call_normalizeCountryID (Country relay) (Country_name relay);
   call_value2id "region" (Region_name relay);
   call_value2id "city" (City_name relay);
   call_value2id "platform" (Platform relay);
   call_value2id "version" (Version relay);
   call_value2id "contact" (Contact relay);
   call_value2id "exitp" (json_Marshal_strings (Exit_policy relay));
   call_value2id "exitps" (json_Marshal_iface (Exit_policy_summary relay));
   call_value2id "exitps6" (json_Marshal_iface (Exit_policy_v6_summary relay))]%string.

(** The address history inserts for the addresses of a record. *)
Definition address_inserts (fpid dlts : string) (relay : TorRelayDetails) : list DBCall :=
  map (fun t => call_addToIP (fst t) fpid dlts dlts (snd t)) (address_targets relay).

(** ** The form of the download timestamp *)

(** The text that [getConsensusDLTimestamp] makes of a time:
    [fmt.Sprintf("%04d%02d%02d%02d%02d%02d", t.Year(), t.Month(), t.Day(),
    t.Hour(), t.Minute(), t.Second())]. *)
Definition DLTS_of_time (t : time_Time) : string :=
  String.append (GoString.fmt_0d 4 (Year t))
    (String.append (GoString.fmt_0d 2 (Month t))
      (String.append (GoString.fmt_0d 2 (Day t))
        (String.append (GoString.fmt_0d 2 (Hour t))
          (String.append (GoString.fmt_0d 2 (Minute t))
                         (GoString.fmt_0d 2 (Second t)))))).

(** The order of two numbers, then of what follows when they are equal. *)
Definition then_compare (x y : Z) (rest : comparison) : comparison :=
  match x ?= y with
  | Eq => rest
  | c => c
  end.

(** The chronological order of two times, field by field. *)
Definition compare_time (t u : time_Time) : comparison :=
  then_compare (Year t) (Year u)
    (then_compare (Month t) (Month u)
      (then_compare (Day t) (Day u)
        (then_compare (Hour t) (Hour u)
          (then_compare (Minute t) (Minute u) (Second t ?= Second u))))).

(** The fields of a [time.Time] of the years 0 to 9999. *)
Definition four_digit_year (t : time_Time) : Prop :=
  0 <= Year t <= 9999 /\ 1 <= Month t <= 12 /\ 1 <= Day t <= 31 /\
  0 <= Hour t <= 23 /\ 0 <= Minute t <= 59 /\ 0 <= Second t <= 59.

(** The numbers below [n], and the checks of the two-digit and four-digit
    forms that are run on them. *)
Definition below (n : Z) : list Z := map Z.of_nat (seq 0 (Z.to_nat n)).

Definition same_comparison (c d : comparison) : bool :=
  match c, d with
  | Eq, Eq | Lt, Lt | Gt, Gt => true
  | _, _ => false
  end.

Definition two_digits_ok (x y : Z) : bool :=
  Nat.eqb (String.length (GoString.fmt_0d 2 x)) 2 &&
  same_comparison (String.compare (GoString.fmt_0d 2 x) (GoString.fmt_0d 2 y)) (x ?= y).

Definition year_digits_ok (y : Z) : bool :=
  String.eqb (GoString.fmt_0d 4 y)
             (String.append (GoString.fmt_0d 2 (y / 100)) (GoString.fmt_0d 2 (y mod 100))).

(** A call that writes relay data: a dictionary id, a row, an address or
    a last-seen time.  The other calls load a cache or log the import. *)
Definition is_relay_write (c : DBCall) : bool :=
  match c with
  | call_initCaches
  | call_initCountryNameCache
  | call_initializeLatestRelayDataCache _
  | call_addToTorQueries _ _ _ _ => false
  | _ => true
  end.

Section EngineVocabulary.

Context {L : GoLib} {B : DBBackend}.

(** The world with another configuration. *)
Definition with_config (cfg : TorHistoryConfig) (w : World) : World :=
  {| g_config := cfg;
     g_db := g_db w;
     g_consensusDLTS := g_consensusDLTS w;
     db_calls := db_calls w |}.

(** The reload of the latest-state cache alone, as [main] does it between
    two full rebuilds. *)
Definition reloadLatestRelayDataCache : M unit :=
  dlts <- get_consensusDLTS ;;
  db_exec (call_initializeLatestRelayDataCache dlts) (initializeLatestRelayDataCache dlts).

(** A computation that does not read the configuration: under another
    configuration it ends in the same way and leaves the same state. *)
Definition config_blind {A : Type} (m : M A) : Prop :=
  forall (cfg : TorHistoryConfig) (w : World),
    m (with_config cfg w) = (fst (m w), with_config cfg (snd (m w))).

(** A world without database: [g_db] is nil, the backend is not enabled,
    and the refresh interval is 2 or more. *)
Definition offline (w : World) : Prop :=
  g_db w = None /\
  Enabled (DBServer (g_config w)) = false /\
  2 <= ReInitCaches (DBServer (g_config w)).

(** A run that has ended by [panic] or by [log.Fatal]. *)
Definition aborted {A : Type} (r : Outcome A * World) : Prop :=
  exists msg w', r = (Panic msg, w') \/ r = (Fatal msg, w').

(** A computation that adds to the calls on the database only calls with
    the property [P], however it ends. *)
Definition adds_only {A : Type} (P : DBCall -> Prop) (m : M A) : Prop :=
  forall w : World, exists calls,
    db_calls (snd (m w)) = db_calls w ++ calls /\ Forall P calls.

End EngineVocabulary.

(** ** The node filter option *)

(** [strings.Split(s, sep)] for a separator of one byte: the pieces of [s]
    between the separators, one more than there are separators. *)
Fixpoint strings_Split (s : string) (sep : ascii) : list string :=
  match s with
  | EmptyString => [EmptyString]
  | String c rest =>
    if Ascii.eqb c sep then EmptyString :: strings_Split rest sep
    else
      match strings_Split rest sep with
      | piece :: pieces => String c piece :: pieces
      | [] => [String c EmptyString]
      end
  end.

Definition parseNodeFilters (nodeFilter : string) : slice string :=
  if String.eqb nodeFilter EmptyString then None
  else Some (strings_Split nodeFilter ","%char).

(** A piece without a comma. *)
Definition comma_free (piece : string) : Prop :=
  ~ In ","%char (list_ascii_of_string piece).

(** ** The configuration: command line and configuration file *)

(** The line feed, as a one-byte string. *)
Definition line_feed : string := String (ascii_of_nat 10) EmptyString.

Record BackupConfig : Type := mkBackupConfig {
  Backup_Filename : string;
  Backup_Gzip : bool
}.

Record PrintConfig : Type := mkPrintConfig {
  Separator : string;
  Print_Nickname : bool;
  Print_Fingerprint : bool;
  Print_Or_addresses : bool;
  Print_Exit_addresses : bool;
  Print_Dir_address : bool;
  Print_Country : bool;
  Print_AS : bool;
  Print_Hostname : bool;
  Print_Flags : bool;
  IPperLine : bool
}.

(** The whole of the struct [TorHistoryConfig]: [Verbosity] and [Quiet],
    the three parts that the engine reads ([DBServer], [Tor] and [Filter],
    the record [TorHistoryConfig] above), [Backup] and [Print]. *)
Record ProgramConfig : Type := mkProgramConfig {
  Verbosity : Z;
  Quiet : bool;
  Engine : TorHistoryConfig;
  BackupOptions : BackupConfig;
  PrintOptions : PrintConfig
}.

Definition with_Verbosity (v : Z) (cfg : ProgramConfig) : ProgramConfig :=
  mkProgramConfig v (Quiet cfg) (Engine cfg) (BackupOptions cfg) (PrintOptions cfg).

Definition with_Quiet (q : bool) (cfg : ProgramConfig) : ProgramConfig :=
  mkProgramConfig (Verbosity cfg) q (Engine cfg) (BackupOptions cfg) (PrintOptions cfg).

Definition with_Backup (b : BackupConfig) (cfg : ProgramConfig) : ProgramConfig :=
  mkProgramConfig (Verbosity cfg) (Quiet cfg) (Engine cfg) b (PrintOptions cfg).

Definition with_Print (p : PrintConfig) (cfg : ProgramConfig) : ProgramConfig :=
  mkProgramConfig (Verbosity cfg) (Quiet cfg) (Engine cfg) (BackupOptions cfg) p.

Definition with_Tor (t : TorConfig) (cfg : ProgramConfig) : ProgramConfig :=
  mkProgramConfig (Verbosity cfg) (Quiet cfg)
    (mkTorHistoryConfig (DBServer (Engine cfg)) t (Filter (Engine cfg)))
    (BackupOptions cfg) (PrintOptions cfg).

Definition with_DBServer (d : DBServerConfig) (cfg : ProgramConfig) : ProgramConfig :=
  mkProgramConfig (Verbosity cfg) (Quiet cfg)
    (mkTorHistoryConfig d (Tor (Engine cfg)) (Filter (Engine cfg)))
    (BackupOptions cfg) (PrintOptions cfg).

Definition with_Filter (f : FilterConfig) (cfg : ProgramConfig) : ProgramConfig :=
  mkProgramConfig (Verbosity cfg) (Quiet cfg)
    (mkTorHistoryConfig (DBServer (Engine cfg)) (Tor (Engine cfg)) f)
    (BackupOptions cfg) (PrintOptions cfg).

(** The values of the command line flags after [flag.Parse()]. *)
Record CmdLine : Type := mkCmdLine {
  flag_verbosity : Z;
  flag_quiet : bool;
  flag_cfgFilename : string;
  flag_import_file : string;
  flag_backup : string;
  flag_backupGzip : bool;
  flag_reinitCaches : Z;
  flag_consensusDownloadTime : string;
  flag_consensusDownloadTime_fmt : string;
  flag_extractCDLTfromFilename : bool;
  flag_extractCDLTfromFilenameRegEx : string;
  flag_Separator : string;
  flag_Nickname : bool;
  flag_Fingerprint : bool;
  flag_Or_addresses : bool;
  flag_Exit_addresses : bool;
  flag_Dir_address : bool;
  flag_Country : bool;
  flag_AS : bool;
  flag_Hostname : bool;
  flag_Flags : bool;
  flag_IPperLine : bool;
  flag_NodeInfo : bool;
  flag_Running : bool;
  flag_Hibernating : bool;
  flag_NodeFilter : string
}.

(** The values with which the flags are declared; a flag variable holds
    its default until [flag.Parse()] has run. *)
Definition flag_defaults : CmdLine :=
  {| flag_verbosity := 0;
     flag_quiet := false;
     flag_cfgFilename := EmptyString;
     flag_import_file := EmptyString;
     flag_backup := EmptyString;
     flag_backupGzip := false;
     flag_reinitCaches := 100;
     flag_consensusDownloadTime := EmptyString;
     flag_consensusDownloadTime_fmt := EmptyString;
     flag_extractCDLTfromFilename := false;
     flag_extractCDLTfromFilenameRegEx := EmptyString;
     flag_Separator := ",";
     flag_Nickname := false;
     flag_Fingerprint := false;
     flag_Or_addresses := false;
     flag_Exit_addresses := false;
     flag_Dir_address := false;
     flag_Country := false;
     flag_AS := false;
     flag_Hostname := false;
     flag_Flags := false;
     flag_IPperLine := false;
     flag_NodeInfo := false;
     flag_Running := false;
     flag_Hibernating := false;
     flag_NodeFilter := EmptyString |}.

Definition g_consensus_details_URL : string := "https://onionoo.torproject.org/details".

(** What the program takes from its surroundings: the configuration file
    ([os.Open], then [yaml.NewDecoder(f).Decode(cfg)], which returns an
    error text or [cfg] with the settings of the file written into it),
    the files of a pattern ([filepath.Glob], [None] for a malformed
    pattern), and [getConsensus], which downloads or reads a consensus,
    backs it up when asked to and decodes it. *)
Class GoOS : Type := {
  os_File : Type;
  os_Open : string -> option os_File;
  yaml_Decode : os_File -> ProgramConfig -> string + ProgramConfig;
  filepath_Glob : string -> option (list string);
  getConsensus : bool -> string -> Outcome TorResponse
}.

Definition fmtDBCfg (cfg : ProgramConfig) (hidePassword : bool) : string :=
  let pwd := if hidePassword then "<redacted>"%string
             else Password (DBServer (Engine cfg)) in
  "Database configutation:  Host: " +:+ Host (DBServer (Engine cfg)) +:+ line_feed +:+
  "  Port: " +:+ Port (DBServer (Engine cfg)) +:+ line_feed +:+
  "  DB Name: " +:+ DBName (DBServer (Engine cfg)) +:+ line_feed +:+
  "  Username: " +:+ Username (DBServer (Engine cfg)) +:+ line_feed +:+
  "  Password: " +:+ pwd.

Definition parseConfigFile `{GoOS} (cfgFilename : string) (cfg : ProgramConfig)
  : Outcome ProgramConfig :=
  if String.eqb cfgFilename EmptyString then Done cfg
  else
    match os_Open cfgFilename with
    | None => Fatal ("Unable to open configuration file: " +:+ cfgFilename +:+ line_feed)
    | Some f =>
      let cmdLineVerbosity := Verbosity cfg in
      match yaml_Decode f cfg with
      | inl err => Fatal ("YAML Decoder error: " +:+ err +:+ line_feed)
      | inr cfg =>
        Done (if negb (cmdLineVerbosity =? 0) then with_Verbosity cmdLineVerbosity cfg
              else cfg)
      end
    end.

(** The test at the head of [parseCmdlnArguments], on the values that the
    flag variables hold where it stands. *)
Definition import_options_without_file (flags : CmdLine) : bool :=
  (GoString.len (flag_import_file flags) =? 0) &&
  (flag_extractCDLTfromFilename flags
   || (0 <? GoString.len (flag_consensusDownloadTime flags))
   || (0 <? GoString.len (flag_consensusDownloadTime_fmt flags))
   || (0 <? GoString.len (flag_extractCDLTfromFilenameRegEx flags))).

Definition nonempty (s : string) : bool := negb (String.eqb s EmptyString).

(** The end of [parseCmdlnArguments]: the print line options, with the
    shortcut [-node-info], and the filters. *)
Definition parseCmdlnArguments_options (args : CmdLine) (cfg : ProgramConfig)
  : ProgramConfig :=
  let print :=
    mkPrintConfig (flag_Separator args) (flag_Nickname args) (flag_Fingerprint args)
                  (flag_Or_addresses args) (flag_Exit_addresses args)
                  (flag_Dir_address args) (flag_Country args) (flag_AS args)
                  (flag_Hostname args) (flag_Flags args) (flag_IPperLine args) in
  let print :=
    if flag_NodeInfo args
    then mkPrintConfig (Separator print) true true (Print_Or_addresses print) true
                       (Print_Dir_address print) (Print_Country print) (Print_AS print)
                       true (Print_Flags print) (IPperLine print)
    else print in
  let filter :=
    mkFilterConfig (flag_Running args) (flag_Hibernating args)
                   (parseNodeFilters (flag_NodeFilter args)) in
  with_Filter filter (with_Print print cfg).

(** The text with which the test at the head of [parseCmdlnArguments]
    ends the program. *)
Definition incompatible_argument : string :=
  "Incompatible argument. You cannot use -consensus-download-time, -consensus-download-time-format, -extract-consensus-download-time-from-filename or -filename-regex if -import-data-file is not defined.".

(** [parseCmdlnArguments], from [flag.Parse()] to the configuration file:
    verbosity and quiet are taken from the command line, then the file is
    read when one is named. *)
Definition parseCmdlnArguments_file `{GoOS} (args : CmdLine) (cfg : ProgramConfig)
  : Outcome ProgramConfig :=
  let cfg := with_Verbosity (flag_verbosity args) cfg in
  let cfg := with_Quiet (flag_quiet args) cfg in
  if nonempty (flag_cfgFilename args)
  then parseConfigFile (flag_cfgFilename args) cfg
  else Done cfg.

(** [parseCmdlnArguments], after the configuration file: the backup, the
    import and the timestamp settings, the two tests of the settings, and
    at last the options. *)
Definition parseCmdlnArguments_settings (args : CmdLine) (cfg : ProgramConfig)
  : Outcome ProgramConfig :=
  let cfg :=
    if nonempty (flag_backup args)
    then with_Backup (mkBackupConfig (flag_backup args) (flag_backupGzip args)) cfg
    else cfg in
  let tor := Tor (Engine cfg) in
  let tor :=
    if nonempty (flag_import_file args)
    then mkTorConfig (ConsensusURL tor) (flag_import_file args) (ConsensusDLT tor)
                     (ConsensusDLT_fmt tor) (ExtractDLTfromFilename tor)
                     (ExtractDLTfromFilename_regex tor)
    else tor in
  let tor :=
    if String.eqb (ConsensusURL tor) EmptyString
    then mkTorConfig g_consensus_details_URL (Filename tor) (ConsensusDLT tor)
                     (ConsensusDLT_fmt tor) (ExtractDLTfromFilename tor)
                     (ExtractDLTfromFilename_regex tor)
    else tor in
  let tor :=
    mkTorConfig (ConsensusURL tor) (Filename tor)
                (flag_consensusDownloadTime args)
                (flag_consensusDownloadTime_fmt args)
                (flag_extractCDLTfromFilename args)
                (flag_extractCDLTfromFilenameRegEx args) in
  let db := DBServer (Engine cfg) in
  let db := mkDBServerConfig (Enabled db) (Port db) (Host db) (DBName db) (Username db)
                             (Password db) (flag_reinitCaches args) in
  let tor :=
    if 0 <? GoString.len (ExtractDLTfromFilename_regex tor)
    then mkTorConfig (ConsensusURL tor) (Filename tor) (ConsensusDLT tor)
                     (ConsensusDLT_fmt tor) true (ExtractDLTfromFilename_regex tor)
    else tor in
  let cfg := with_DBServer db (with_Tor tor cfg) in
  if ExtractDLTfromFilename tor && (0 <? GoString.len (ConsensusDLT tor)) then
    Fatal "Incompatible flags extract-consensus-download-time-from-filename and consensus-download-time. Remove one of them."
  else if nonempty (Host db) && nonempty (Port db) && nonempty (DBName db)
          && nonempty (Username db) then
    let db := mkDBServerConfig true (Port db) (Host db) (DBName db) (Username db)
                               (Password db) (ReInitCaches db) in
    Done (parseCmdlnArguments_options args (with_DBServer db cfg))
  else if nonempty (Host db) || nonempty (Port db) || nonempty (DBName db)
          || nonempty (Username db) || nonempty (Password db) then
    Fatal ("Incomplete database configuation." +:+ line_feed +:+ fmtDBCfg cfg true
           +:+ line_feed)
  else Done (parseCmdlnArguments_options args cfg).

(** [parseCmdlnArguments(&g_config)]: [args] are the values of the flags
    after [flag.Parse()] and [cfg] is [g_config] before the call.  The
    first test stands before [flag.Parse()], where every flag variable
    still holds its default. *)
Definition parseCmdlnArguments `{GoOS} (args : CmdLine) (cfg : ProgramConfig)
  : Outcome ProgramConfig :=
  if import_options_without_file flag_defaults then Fatal incompatible_argument
  else
    match parseCmdlnArguments_file args cfg with
    | Done cfg => parseCmdlnArguments_settings args cfg
    | Panic msg => Panic msg
    | Fatal msg => Fatal msg
    end.

(** The zero value of [TorHistoryConfig], which [g_config] holds when
    [init] calls [parseCmdlnArguments]. *)
Definition ProgramConfig_zero : ProgramConfig :=
  mkProgramConfig 0 false
    (mkTorHistoryConfig
       (mkDBServerConfig false EmptyString EmptyString EmptyString EmptyString EmptyString 0)
       (mkTorConfig EmptyString EmptyString EmptyString EmptyString false EmptyString)
       (mkFilterConfig false false None))
    (mkBackupConfig EmptyString false)
    (mkPrintConfig EmptyString false false false false false false false false false false).

(** [init] *)
Definition init `{GoOS} (args : CmdLine) : Outcome ProgramConfig :=
  parseCmdlnArguments args ProgramConfig_zero.

(** ** The line printed for a relay *)

(** [strings.Contains(s, substr)] *)
Fixpoint strings_Contains (s substr : string) : bool :=
  String.prefix substr s ||
  match s with
  | EmptyString => false
  | String _ rest => strings_Contains rest substr
  end.

(** [fmt.Sprintf("%v", s)] for a slice of strings. *)
Definition fmt_v_strings (s : slice string) : string :=
  "[" +:+ GoString.join " " (elems s) +:+ "]".

Definition EXPAND_OR : string := "MULTIPLE_OR".
Definition EXPAND_EX : string := "MULTIPLE_EX".

(** The fields that [printNodeInfo] collects in [output]. *)
Definition printNodeInfo_output (print : PrintConfig) (relay : TorRelayDetails)
  : list string :=
  (if Print_Nickname print then [Nickname relay] else []) ++
  (if Print_Fingerprint print then [Fingerprint relay] else []) ++
  (if Print_Or_addresses print then
     if IPperLine print && (1 <? slice_len (Or_addresses relay)) then [EXPAND_OR]
     else elems (Or_addresses relay)
   else []) ++
  (if Print_Exit_addresses print then
     if IPperLine print && (1 <? slice_len (Exit_addresses relay)) then [EXPAND_EX]
     else elems (Exit_addresses relay)
   else []) ++
  (if Print_Dir_address print then [Dir_address relay] else []) ++
  (if Print_Country print then [Country relay] else []) ++
  (if Print_AS print then [As relay] else []) ++
  (if Print_Hostname print then [Host_name relay] else []) ++
  (if Print_Flags print then [fmt_v_strings (Flags relay)] else []).

(** [res]: every field of [output] followed by the separator. *)
Definition printNodeInfo_res (sep : string) (output : list string) : string :=
  fold_left (fun res t => (res +:+ t) +:+ sep) output EmptyString.

(** [printNodeInfo]: the lines that it prints with [fmt.Println], in
    order.  [ReplaceAllString re src repl] stands for
    [regexp.MustCompile(re).ReplaceAllString(src, repl)]. *)
Definition printNodeInfo (ReplaceAllString : string -> string -> string -> string)
    (print : PrintConfig) (relay : TorRelayDetails) : list string :=
  let res := printNodeInfo_res (Separator print) (printNodeInfo_output print relay) in
  if 0 <? GoString.len res then
    if strings_Contains res EXPAND_OR then
      map (fun o => ReplaceAllString EXPAND_OR res o) (elems (Or_addresses relay))
    else if strings_Contains res EXPAND_EX then
      map (fun e => ReplaceAllString EXPAND_EX res e) (elems (Exit_addresses relay))
    else [res]
  else [].

(** ** [main] *)

(** The zero value of [TorResponse]. *)
Definition TorResponse_zero : TorResponse :=
  mkTorResponse EmptyString EmptyString EmptyString EmptyString 0 [] 0 EmptyString 0 None 0.

Section Main.

Context {L : GoLib} {B : DBBackend} {O : GoOS}.

(** [g_config.Tor.ExtractDLTfromFilename = true] *)
Definition set_ExtractDLTfromFilename : M unit :=
  fun w =>
    let cfg := g_config w in
    let tor := Tor cfg in
    (Done tt,
     with_config
       (mkTorHistoryConfig (DBServer cfg)
          (mkTorConfig (ConsensusURL tor) (Filename tor) (ConsensusDLT tor)
                       (ConsensusDLT_fmt tor) true (ExtractDLTfromFilename_regex tor))
          (Filter cfg)) w).

(** The loop of [main] over the files, from file number [num] on.  When
    [getConsensus] fails, the timestamp and the cache refresh of the file
    have run before it. *)
Fixpoint main_loop (num : Z) (filenames : list string) (previous_tor_response : TorResponse)
  : M unit :=
  match filenames with
  | [] => ret tt
  | fn :: rest =>
    match getConsensus false fn with
    | Done decoded =>
      previous <- main_loop_body num fn decoded previous_tor_response ;;
      main_loop (num + 1) rest previous
    | Panic msg =>
      dlts <- getConsensusDLTimestamp fn ;;
      set_consensusDLTS dlts ;;;
      refreshCaches num ;;;
      panic msg
    | Fatal msg =>
      dlts <- getConsensusDLTimestamp fn ;;
      set_consensusDLTS dlts ;;;
      refreshCaches num ;;;
      log_Fatal msg
    end
  end.

(** The checks of [main] for a bulk import, of more than one file. *)
Definition main_bulk_checks (total_files : Z) : M unit :=
  fun w =>
    if 1 <? total_files then
      if nonempty (ConsensusDLT (Tor (g_config w))) then
        (Fatal "Bulk import detected however -consensus-download-time is also specified.", w)
      else if negb (ExtractDLTfromFilename (Tor (g_config w))) then
        set_ExtractDLTfromFilename w
      else (Done tt, w)
    else (Done tt, w).

(** The branch of [main] that imports the files of a pattern. *)
Definition main_import : M unit :=
  fun w =>
    match filepath_Glob (Filename (Tor (g_config w))) with
    | None | Some [] =>
      (Fatal ("Bad filename pattern: " +:+ Filename (Tor (g_config w))), w)
    | Some (first :: others) =>
      let filenames := first :: others in
      (main_bulk_checks (Z.of_nat (length filenames)) ;;;
       dlts <- getConsensusDLTimestamp first ;;
       set_consensusDLTS dlts ;;;
       initializeCaches ;;;
       main_loop 0 filenames TorResponse_zero) w
    end.

(** The branch of [main] that downloads the consensus. *)
Definition main_download : M unit :=
  dlts <- getConsensusDLTimestamp EmptyString ;;
  set_consensusDLTS dlts ;;;
  initializeCaches ;;;
  fun w =>
    match getConsensus true (ConsensusURL (Tor (g_config w))) with
    | Done tor_response =>
      (logDataImport tor_response ;;; processTorResponse tor_response) w
    | Panic msg => (Panic msg, w)
    | Fatal msg => (Fatal msg, w)
    end.

(** [main], once [initialize()] has opened the database handle that the
    world holds; the deferred [cleanup()] only closes it. *)
Definition main : M unit :=
  fun w =>
    if String.eqb (Filename (Tor (g_config w))) EmptyString then main_download w
    else main_import w.

End Main.

(** ** A second instance, for the command line and [main]

    File names that consist of the 14 digits of their timestamp, in which
    Go's default pattern finds these digits and nothing else, two
    configuration files, and a consensus without relays. *)

Module Scenario.

Definition find (re s : string) : option (list string) :=
  if String.eqb s "20230101000000" || String.eqb s "20230102000000"
  then Some [s] else Some [].

Definition parse (f ts : string) : option time_Time :=
  if String.eqb f "20060102150405" then
    if String.eqb ts "20230101000000" then Some (mk_time 2023 1 1 0 0 0)
    else if String.eqb ts "20230102000000" then Some (mk_time 2023 1 2 0 0 0)
    else None
  else None.

Definition lib : GoLib :=
  {| unicode_To_LowerCase := fun r => r;
     json_string := Sample.quoted;
     json_Marshal_iface := Sample.marshal_iface;
     json_Marshal_TorRelayDetails := fun _ => "{}"%string;
     time_Now := mk_time 2023 1 1 0 0 0;
     time_Parse := parse;
     regexp_FindAllString := find |}.

(** [tor.yaml] holds the four database settings and a password,
    [host.yaml] a host name only; no other configuration file is there. *)
Definition decode (f : string) (cfg : ProgramConfig) : string + ProgramConfig :=
  let db := DBServer (Engine cfg) in
  if String.eqb f "tor.yaml" then
    inr (with_DBServer
           (mkDBServerConfig (Enabled db) "3306" "localhost" "tor" "tor" "secret" 7) cfg)
  else
    inr (with_DBServer
           (mkDBServerConfig (Enabled db) (Port db) "localhost" (DBName db) (Username db)
                             (Password db) (ReInitCaches db)) cfg).

Definition os : GoOS :=
  {| os_File := string;
     os_Open := fun fn =>
       if String.eqb fn "tor.yaml" || String.eqb fn "host.yaml" then Some fn else None;
     yaml_Decode := decode;
     filepath_Glob := fun pattern =>
       if String.eqb pattern "2023*" then Some ["20230101000000"; "20230102000000"]%string
       else if String.eqb pattern "20230101000000" then Some ["20230101000000"%string]
       else Some [];
     getConsensus := fun _ _ => Done TorResponse_zero |}.

(** The replacement of the marker in a line that holds the marker, a
    comma and nothing else. *)
Definition replace (re src repl : string) : string :=
  if String.eqb src (re +:+ ",") then repl +:+ "," else src.

(** The configuration of an import of [pattern], with the timestamps
    taken from the file names and the backend as [enabled] says. *)
Definition config (enabled : bool) (pattern : string) : TorHistoryConfig :=
  {| DBServer := mkDBServerConfig enabled "3306" "localhost" "tor" "tor" EmptyString 100;
     Tor := mkTorConfig g_consensus_details_URL pattern EmptyString EmptyString true
                        EmptyString;
     Filter := mkFilterConfig false false None |}.

(** The world after [initialize()] on an enabled backend. *)
Definition online (pattern : string) : @World Sample.backend :=
  {| g_config := config true pattern;
     g_db := Some (Sample.mkMemDB true ∅ : @DB Sample.backend);
     g_consensusDLTS := EmptyString;
     db_calls := [] |}.

(** The world after [initialize()] without backend. *)
Definition print_only (pattern : string) : @World Sample.backend :=
  {| g_config := config false pattern;
     g_db := None;
     g_consensusDLTS := EmptyString;
     db_calls := [] |}.

(** The command line [-import-data-file file -filter Exit,Guard]. *)
Definition import_of (file : string) : CmdLine :=
  {| flag_verbosity := 0;
     flag_quiet := false;
     flag_cfgFilename := EmptyString;
     flag_import_file := file;
     flag_backup := EmptyString;
     flag_backupGzip := false;
     flag_reinitCaches := 100;
     flag_consensusDownloadTime := EmptyString;
     flag_consensusDownloadTime_fmt := EmptyString;
     flag_extractCDLTfromFilename := false;
     flag_extractCDLTfromFilenameRegEx := EmptyString;
     flag_Separator := ",";
     flag_Nickname := false;
     flag_Fingerprint := false;
     flag_Or_addresses := false;
     flag_Exit_addresses := false;
     flag_Dir_address := false;
     flag_Country := false;
     flag_AS := false;
     flag_Hostname := false;
     flag_Flags := false;
     flag_IPperLine := false;
     flag_NodeInfo := false;
     flag_Running := false;
     flag_Hibernating := false;
     flag_NodeFilter := "Exit,Guard" |}.

(** The command line [-config-filename file]. *)
Definition configured_by (file : string) : CmdLine :=
  {| flag_verbosity := 0;
     flag_quiet := false;
     flag_cfgFilename := file;
     flag_import_file := EmptyString;
     flag_backup := EmptyString;
     flag_backupGzip := false;
     flag_reinitCaches := 100;
     flag_consensusDownloadTime := EmptyString;
     flag_consensusDownloadTime_fmt := EmptyString;
     flag_extractCDLTfromFilename := false;
     flag_extractCDLTfromFilenameRegEx := EmptyString;
     flag_Separator := ",";
     flag_Nickname := false;
     flag_Fingerprint := false;
     flag_Or_addresses := false;
     flag_Exit_addresses := false;
     flag_Dir_address := false;
     flag_Country := false;
     flag_AS := false;
     flag_Hostname := false;
     flag_Flags := false;
     flag_IPperLine := false;
     flag_NodeInfo := false;
     flag_Running := false;
     flag_Hibernating := false;
     flag_NodeFilter := EmptyString |}.

(** The command line [-consensus-download-time ts], without import file. *)
Definition downloaded_at (ts : string) : CmdLine :=
  {| flag_verbosity := 0;
     flag_quiet := false;
     flag_cfgFilename := EmptyString;
     flag_import_file := EmptyString;
     flag_backup := EmptyString;
     flag_backupGzip := false;
     flag_reinitCaches := 100;
     flag_consensusDownloadTime := ts;
     flag_consensusDownloadTime_fmt := EmptyString;
     flag_extractCDLTfromFilename := false;
     flag_extractCDLTfromFilenameRegEx := EmptyString;
     flag_Separator := ",";
     flag_Nickname := false;
     flag_Fingerprint := false;
     flag_Or_addresses := false;
     flag_Exit_addresses := false;
     flag_Dir_address := false;
     flag_Country := false;
     flag_AS := false;
     flag_Hostname := false;
     flag_Flags := false;
     flag_IPperLine := false;
     flag_NodeInfo := false;
     flag_Running := false;
     flag_Hibernating := false;
     flag_NodeFilter := EmptyString |}.

End Scenario.

(** * Properties *)

Section Properties.

Context {L : GoLib} {B : DBBackend}.

(** ** Strings *)



Lemma len_pos (s : string) : (0 <? GoString.len s) = negb (String.eqb s EmptyString).
Proof. destruct s; reflexivity. Qed.

Lemma idx_empty (k : string) : idx ∅ k = EmptyString.
Proof. unfold idx. now rewrite lookup_empty. Qed.

(** ** The change detector *)

Lemma recordsMatch_true_iff (relay : TorRelayDetails) (lrdfp : gmap string string) :
  recordsMatch relay lrdfp = true <-> all_fields_match relay lrdfp.
Proof.
  unfold recordsMatch, all_fields_match.
  match goal with |- (if ?c then true else false) = true <-> _ =>
    assert (Hc : (if c then true else false) = c) by (destruct c; reflexivity);
    rewrite Hc; clear Hc end.
  rewrite !andb_true_iff, !String.eqb_eq. split.
  - intros Hall f. destruct f; simpl; tauto.
  - intros Hall.
    pose proof (Hall F_Nickname). pose proof (Hall F_Country). pose proof (Hall F_City).
    pose proof (Hall F_Platform). pose proof (Hall F_Version). pose proof (Hall F_Contact).
    pose proof (Hall F_Last_changed_address_or_port). pose proof (Hall F_First_seen).
    pose proof (Hall F_ExitPolicy). pose proof (Hall F_ExitPolicySummary).
    pose proof (Hall F_ExitPolicyV6Summary). simpl in *. tauto.
Qed.

Lemma recordsMatch_differ (f : ComparableField) (relay : TorRelayDetails)
    (lrdfp : gmap string string) :
  relay_value f relay <> cached_value f lrdfp -> recordsMatch relay lrdfp = false.
Proof.
  intros Hne. destruct (recordsMatch relay lrdfp) eqn:E; [|reflexivity].
  apply recordsMatch_true_iff in E. now specialize (E f).
Qed.

Lemma json_Marshal_strings_nonempty (s : slice string) :
  json_Marshal_strings s <> EmptyString.
Proof. destruct s; simpl; discriminate. Qed.

Lemma recordsMatch_absent (relay : TorRelayDetails) : recordsMatch relay ∅ = false.
Proof.
  apply (recordsMatch_differ F_ExitPolicy). simpl. rewrite idx_empty.
  apply json_Marshal_strings_nonempty.
Qed.

(** ** Running the engine *)

Lemma after_calls_nil (w : World) (db : DB) : g_db w = Some db -> after_calls w db [] = w.
Proof.
  destruct w as [c d t cs]. simpl. intros ->. unfold after_calls. simpl.
  now rewrite app_nil_r.
Qed.

Lemma after_calls_app (w : World) (db1 db2 : DB) (cs1 cs2 : list DBCall) :
  after_calls (after_calls w db1 cs1) db2 cs2 = after_calls w db2 (cs1 ++ cs2).
Proof. unfold after_calls. simpl. now rewrite app_assoc. Qed.

Lemma g_consensusDLTS_after_calls (w : World) (db : DB) (cs : list DBCall) :
  g_consensusDLTS (after_calls w db cs) = g_consensusDLTS w.
Proof. reflexivity. Qed.

Lemma bind_db_call {A C : Type} (c : DBCall) (method : DB -> A * DB) (k : A -> M C)
    (w : World) (db : DB) :
  g_db w = Some db ->
  bind (db_call c method) k w = k (fst (method db)) (after_calls w (snd (method db)) [c]).
Proof. intros Hdb. unfold bind, db_call. rewrite Hdb. now destruct (method db). Qed.

Lemma db_exec_run (c : DBCall) (method : DB -> DB) (w : World) (db : DB) :
  g_db w = Some db -> db_exec c method w = (Done tt, after_calls w (method db) [c]).
Proof. intros Hdb. unfold db_exec, db_call. now rewrite Hdb. Qed.

Lemma guard_for_each (s : slice string) (body : string -> M unit) :
  (if 0 <? slice_len s then for_each (elems s) body else ret tt) = for_each (elems s) body.
Proof. unfold slice_len. destruct (elems s); reflexivity. Qed.

(** A loop whose body makes one call per element makes the calls of its
    elements, in order. *)
Lemma for_each_calls {A : Type} (R : A -> DBCall -> Prop) (dlts : string)
    (body : A -> M unit) (l : list A) :
  (forall x w db, g_db w = Some db -> g_consensusDLTS w = dlts ->
     exists db' c, body x w = (Done tt, after_calls w db' [c]) /\ R x c) ->
  forall w db, g_db w = Some db -> g_consensusDLTS w = dlts ->
    exists db' cs, for_each l body w = (Done tt, after_calls w db' cs) /\ Forall2 R l cs.
Proof.
  intros Hbody. induction l as [|x l IH]; intros w db Hdb Hts.
  - exists db, []. split; [|constructor]. simpl. unfold ret.
    now rewrite (after_calls_nil w db Hdb).
  - destruct (Hbody x w db Hdb Hts) as (db1 & c & Hx & HR).
    destruct (IH (after_calls w db1 [c]) db1 eq_refl Hts) as (db2 & cs & Hl & HRs).
    exists db2, (c :: cs). split; [|now constructor].
    simpl. unfold bind. rewrite Hx, Hl. now rewrite after_calls_app.
Qed.

Lemma sync_address_run (fp role addr : string) (w : World) (db : DB) :
  g_db w = Some db ->
  exists db' c, sync_address fp role addr w = (Done tt, after_calls w db' [c]) /\
                is_sync_of (g_consensusDLTS w) (role, addr) c.
Proof.
  intros Hdb. unfold sync_address, bind, g_db_lrd, get_consensusDLTS. rewrite Hdb.
  rewrite (db_exec_run _ _ w db Hdb). eexists _, _. split; [reflexivity|].
  now eexists.
Qed.

Lemma add_address_run (fpid role addr : string) (w : World) (db : DB) :
  g_db w = Some db ->
  exists db', add_address fpid role addr w =
    (Done tt, after_calls w db'
                [call_addToIP role fpid (g_consensusDLTS w) (g_consensusDLTS w) addr]).
Proof.
  intros Hdb. unfold add_address, bind, get_consensusDLTS.
  rewrite (db_exec_run _ _ w db Hdb). now eexists.
Qed.

Lemma Forall2_eq_map {A C : Type} (f : A -> C) (l : list A) (cs : list C) :
  Forall2 (fun a c => c = f a) l cs -> cs = map f l.
Proof. induction 1; simpl; congruence. Qed.

Lemma dir_target_run (body : string -> M unit) (d : string) (R : string -> DBCall -> Prop)
    (w : World) (db : DB) :
  g_db w = Some db ->
  (exists db' c, body d w = (Done tt, after_calls w db' [c]) /\ R d c) ->
  exists db' cs,
    (if 0 <? GoString.len d then body d else ret tt) w = (Done tt, after_calls w db' cs) /\
    Forall2 R (if String.eqb d EmptyString then [] else [d]) cs.
Proof.
  intros Hdb (db1 & c & Hrun & HR). rewrite len_pos.
  destruct (String.eqb d EmptyString); simpl.
  - exists db, []. split; [|constructor]. unfold ret. now rewrite after_calls_nil.
  - exists db1, [c]. split; [exact Hrun|]. now repeat constructor.
Qed.

Lemma updateRelayAddressesIfNeeded_run (relay : TorRelayDetails) (w : World) (db : DB) :
  g_db w = Some db ->
  exists db' cs,
    updateRelayAddressesIfNeeded relay w = (Done tt, after_calls w db' cs) /\
    Forall2 (is_sync_of (g_consensusDLTS w)) (address_targets relay) cs.
Proof.
  intros Hdb. unfold updateRelayAddressesIfNeeded. rewrite !guard_for_each.
  set (dlts := g_consensusDLTS w). set (fp := Fingerprint relay).
  assert (Hsync : forall role x w' db', g_db w' = Some db' -> g_consensusDLTS w' = dlts ->
            exists db'' c, sync_address fp role x w' = (Done tt, after_calls w' db'' [c]) /\
                           is_sync_of dlts (role, x) c).
  { intros role x w' db' Hd Ht. rewrite <- Ht. now apply sync_address_run with db'. }
  destruct (for_each_calls (fun a c => is_sync_of dlts ("Or"%string, a) c) dlts
              (sync_address fp "Or") (elems (Or_addresses relay)) (Hsync "Or"%string)
              w db Hdb eq_refl) as (db1 & cs1 & H1 & R1).
  destruct (for_each_calls (fun a c => is_sync_of dlts ("Ex"%string, a) c) dlts
              (sync_address fp "Ex") (elems (Exit_addresses relay)) (Hsync "Ex"%string)
              (after_calls w db1 cs1) db1 eq_refl eq_refl) as (db2 & cs2 & H2 & R2).
  destruct (dir_target_run (sync_address fp "Di") (Dir_address relay)
              (fun a c => is_sync_of dlts ("Di"%string, a) c)
              (after_calls (after_calls w db1 cs1) db2 cs2) db2 eq_refl
              (Hsync "Di"%string (Dir_address relay)
                 (after_calls (after_calls w db1 cs1) db2 cs2) db2 eq_refl eq_refl))
    as (db3 & cs3 & H3 & R3).
  exists db3, (cs1 ++ cs2 ++ cs3). split.
  - unfold bind at 1. rewrite H1. unfold bind. rewrite H2, H3.
    now rewrite !after_calls_app.
  - unfold address_targets. apply Forall2_app; [|apply Forall2_app].
    + now apply Forall2_fmap_l.
    + now apply Forall2_fmap_l.
    + destruct (String.eqb (Dir_address relay) EmptyString).
      * inversion R3; subst. constructor.
      * inversion R3 as [|? ? ? ? Hc Hr]; subst. inversion Hr; subst.
        now repeat constructor.
Qed.

Lemma addNewRelayAddresses_run (lastID fpid : string) (relay : TorRelayDetails)
    (w : World) (db : DB) :
  g_db w = Some db ->
  exists db',
    addNewRelayAddresses lastID fpid (Or_addresses relay) (Exit_addresses relay)
                         (Dir_address relay) w
    = (Done tt, after_calls w db' (address_inserts fpid (g_consensusDLTS w) relay)).
Proof.
  intros Hdb. unfold addNewRelayAddresses. rewrite !guard_for_each.
  set (dlts := g_consensusDLTS w).
  pose (ins := fun (role a : string) => call_addToIP role fpid dlts dlts a).
  assert (Hadd : forall role x w' db', g_db w' = Some db' -> g_consensusDLTS w' = dlts ->
            exists db'' c, add_address fpid role x w' = (Done tt, after_calls w' db'' [c]) /\
                           c = ins role x).
  { intros role x w' db' Hd Ht. destruct (add_address_run fpid role x w' db' Hd) as (db'' & Hr).
    exists db'', (ins role x). split; [|reflexivity]. rewrite Hr. unfold ins. now rewrite Ht. }
  destruct (for_each_calls (fun a c => c = ins "Or"%string a) dlts
              (add_address fpid "Or") (elems (Or_addresses relay)) (Hadd "Or"%string)
              w db Hdb eq_refl) as (db1 & cs1 & H1 & R1).
  destruct (for_each_calls (fun a c => c = ins "Ex"%string a) dlts
              (add_address fpid "Ex") (elems (Exit_addresses relay)) (Hadd "Ex"%string)
              (after_calls w db1 cs1) db1 eq_refl eq_refl) as (db2 & cs2 & H2 & R2).
  destruct (dir_target_run (add_address fpid "Di") (Dir_address relay)
              (fun a c => c = ins "Di"%string a)
              (after_calls (after_calls w db1 cs1) db2 cs2) db2 eq_refl
              (Hadd "Di"%string (Dir_address relay)
                 (after_calls (after_calls w db1 cs1) db2 cs2) db2 eq_refl eq_refl))
    as (db3 & cs3 & H3 & R3).
  exists db3. unfold bind at 1. rewrite H1. unfold bind. rewrite H2, H3.
  rewrite !after_calls_app. do 2 f_equal.
  apply Forall2_eq_map in R1, R2, R3. subst cs1 cs2 cs3.
  unfold address_inserts, address_targets. rewrite !map_app, !map_map. simpl.
  f_equal. f_equal. now destruct (String.eqb (Dir_address relay) EmptyString).
Qed.

Lemma address_targets_cleanup (relay : TorRelayDetails) :
  address_targets (cleanupRelayStruct relay) = address_targets relay.
Proof. reflexivity. Qed.

(** What [addNewTorRelayToDB] does on a database handle: the dictionary
    calls, the row insert, and, when the insert succeeds, the address
    inserts. *)
Lemma addNewTorRelayToDB_run (relay : TorRelayDetails) (w : World) (db : DB) :
  g_db w = Some db ->
  exists row db' res post,
    addNewTorRelayToDB relay w
    = (res, after_calls w db' (dictionary_calls relay ++
                               call_stmtAddTorRelays_Exec row :: post)) /\
    row_nick row = Nickname relay /\
    row_lastChanged row = Last_changed_address_or_port relay /\
    row_firstSeen row = First_seen relay /\
    row_RecordTimeInserted row = g_consensusDLTS w /\
    row_RecordLastSeen row = g_consensusDLTS w /\
    row_jsFlags row = json_Marshal_strings (Flags relay) /\
    row_jsRelay row = json_Marshal_TorRelayDetails (cleanupRelayStruct relay) /\
    ((res = Done tt /\ post = address_inserts (row_fpid row) (g_consensusDLTS w) relay) \/
     (exists msg, res = Panic msg /\ post = [])).
Proof.
  intros Hdb. unfold addNewTorRelayToDB.
  rewrite (bind_db_call _ _ _ w db Hdb).
  do 9 (erewrite bind_db_call by reflexivity).
  unfold bind at 1, get_consensusDLTS.
  erewrite bind_db_call by reflexivity.
  rewrite !after_calls_app, !g_consensusDLTS_after_calls. simpl app.
  match goal with |- context [stmtAddTorRelays_Exec ?r ?d] =>
    set (row := r); set (db10 := d) end.
  destruct (stmtAddTorRelays_Exec row db10) as [[err|lastID] db11] eqn:Hexec; cbn [fst snd].
  - exists row, db11, (Panic (String.append "func main: g_db.stmtAddTorRelays.Exec: " err)), [].
    split; [|repeat split; try reflexivity; right; now eexists].
    reflexivity.
  - match goal with |- context [addNewRelayAddresses ?l ?f _ _ _ ?w'] =>
      destruct (addNewRelayAddresses_run l f (cleanupRelayStruct relay) w' db11 eq_refl)
        as (db12 & Hrun) end.
    exists row, db12, (Done tt), (address_inserts (row_fpid row) (g_consensusDLTS w) relay).
    split; [|repeat split; try reflexivity; left; now split].
    etransitivity; [exact Hrun|]. rewrite after_calls_app. reflexivity.
Qed.

Lemma rows_created_app (cs1 cs2 : list DBCall) :
  rows_created (cs1 ++ cs2) = (rows_created cs1 + rows_created cs2)%nat.
Proof. unfold rows_created. now rewrite List.filter_app, length_app. Qed.

Lemma rows_created_address_inserts (fpid dlts : string) (relay : TorRelayDetails) :
  rows_created (address_inserts fpid dlts relay) = 0%nat.
Proof.
  unfold address_inserts, rows_created. induction (address_targets relay); simpl; auto.
Qed.

(** A run of [addNewTorRelayToDB] makes exactly one row insert. *)
Lemma addNewTorRelayToDB_one_row (relay : TorRelayDetails) (w : World) (db : DB) :
  g_db w = Some db ->
  rows_created (db_calls (snd (addNewTorRelayToDB relay w))) = S (rows_created (db_calls w)).
Proof.
  intros Hdb.
  destruct (addNewTorRelayToDB_run relay w db Hdb)
    as (row & db' & res & post & Hrun & _ & _ & _ & _ & _ & _ & _ & Hpost).
  rewrite Hrun. cbn [snd db_calls after_calls]. rewrite !rows_created_app.
  assert (Hp : rows_created post = 0%nat).
  { destruct Hpost as [[_ ->]|(msg & _ & ->)];
      [apply rows_created_address_inserts|reflexivity]. }
  change (rows_created (call_stmtAddTorRelays_Exec row :: post))
    with (S (rows_created post)).
  rewrite Hp. change (rows_created (dictionary_calls relay)) with 0%nat. lia.
Qed.

(** ** The loop body of [processTorResponse] *)

Lemma processRelay_reconciled (relay : TorRelayDetails) (w : World) (db : DB) :
  reconciled_in w db relay -> processRelay relay w = reconcileRelay relay w.
Proof.
  intros (Hflt & Hdb & Hinit). unfold processRelay. now rewrite Hflt, Hdb, Hinit.
Qed.

Lemma reconcileRelay_no_match (relay : TorRelayDetails) (w : World) (db : DB) :
  g_db w = Some db ->
  recordsMatch (trim_Contact relay) (lrd_idx (lrd db) (Fingerprint relay)) = false ->
  reconcileRelay relay w = addNewTorRelayToDB (trim_Contact relay) w.
Proof.
  intros Hdb Hno. unfold reconcileRelay. rewrite Hdb.
  change (Fingerprint (trim_Contact relay)) with (Fingerprint relay). now rewrite Hno.
Qed.

Lemma reconcileRelay_match (relay : TorRelayDetails) (w : World) (db : DB) :
  g_db w = Some db ->
  all_fields_match (trim_Contact relay) (lrd_idx (lrd db) (Fingerprint relay)) ->
  reconcileRelay relay w =
    let RecordLastSeen := idx (lrd_idx (lrd db) (Fingerprint relay)) "RecordLastSeen" in
    if String.eqb (g_consensusDLTS w) RecordLastSeen then (Done tt, w)
    else if String.ltb (g_consensusDLTS w) RecordLastSeen then (Done tt, w)
    else
      (updateRelayAddressesIfNeeded (trim_Contact relay) ;;;
       id <- g_db_lrd (Fingerprint relay) "id" ;;
       dlts <- get_consensusDLTS ;;
       db_exec (call_updateTorRelayRLS id dlts) (updateTorRelayRLS id dlts)) w.
Proof.
  intros Hdb Hall. apply recordsMatch_true_iff in Hall.
  unfold reconcileRelay. rewrite Hdb.
  change (Fingerprint (trim_Contact relay)) with (Fingerprint relay). now rewrite Hall.
Qed.

Lemma lrd_idx_absent (cache : gmap string (gmap string string)) (fp : string) :
  cache !! fp = None -> lrd_idx cache fp = ∅.
Proof. unfold lrd_idx. now intros ->. Qed.

(** ** The claims about the change detector *)


(** C6. NEW on an absent cache entry.  [recordsMatch] returns false on the
    empty entry for every record, whatever its fields (the serialized exit
    policy is never the empty string); so a reconciled record whose
    fingerprint has no entry in the cache takes the insert path and one
    row is created for it. *)
Theorem new_on_absent_cache_entry :
  (forall relay : TorRelayDetails, recordsMatch relay ∅ = false) /\
  (forall (relay : TorRelayDetails) (w : World) (db : DB),
     reconciled_in w db relay ->
     lrd db !! Fingerprint relay = None ->
     recordsMatch (trim_Contact relay) (lrd_idx (lrd db) (Fingerprint relay)) = false /\
     processRelay relay w = addNewTorRelayToDB (trim_Contact relay) w /\
     rows_created (db_calls (snd (processRelay relay w))) = S (rows_created (db_calls w))).
Proof.
  split; [exact recordsMatch_absent|].
  intros relay w db Hrec Habs.
  assert (Hno : recordsMatch (trim_Contact relay) (lrd_idx (lrd db) (Fingerprint relay)) = false).
  { rewrite (lrd_idx_absent _ _ Habs). apply recordsMatch_absent. }
  assert (Hrun : processRelay relay w = addNewTorRelayToDB (trim_Contact relay) w).
  { rewrite (processRelay_reconciled relay w db Hrec).
    destruct Hrec as (_ & Hdb & _). now apply (reconcileRelay_no_match relay w db Hdb). }
  repeat split; [exact Hno|exact Hrun|]. rewrite Hrun.
  destruct Hrec as (_ & Hdb & _). now apply addNewTorRelayToDB_one_row with db.
Qed.






(** C10. The insert keeps the original values.  [addNewTorRelayToDB]
    makes one row insert, between the dictionary calls and the address
    inserts; the row carries the nickname, [Last_changed_address_or_port]
    and [First_seen] of the record it was given and the download timestamp
    as both [RecordTimeInserted] and [RecordLastSeen], while its JSON blob
    is the encoding of the record after [cleanupRelayStruct], in which
    these fields, the other dictionary-backed fields and the fingerprint
    are zero and every other field is as it was. *)
Theorem insert_keeps_original_values (relay : TorRelayDetails) (w : World) (db : DB) :
  g_db w = Some db ->
  (exists (row : TorRelaysRow) (post : list DBCall),
     db_calls (snd (addNewTorRelayToDB relay w))
     = db_calls w ++ dictionary_calls relay ++ call_stmtAddTorRelays_Exec row :: post /\
     rows_created post = 0%nat /\
     row_nick row = Nickname relay /\
     row_lastChanged row = Last_changed_address_or_port relay /\
     row_firstSeen row = First_seen relay /\
     row_RecordTimeInserted row = g_consensusDLTS w /\
     row_RecordLastSeen row = g_consensusDLTS w /\
     row_jsRelay row = json_Marshal_TorRelayDetails (cleanupRelayStruct relay)) /\
  (let c := cleanupRelayStruct relay in
   Nickname c = EmptyString /\ Country c = EmptyString /\ Country_name c = EmptyString /\
   Region_name c = EmptyString /\ City_name c = EmptyString /\ Platform c = EmptyString /\
   Version c = EmptyString /\ Contact c = EmptyString /\
   Last_changed_address_or_port c = EmptyString /\ First_seen c = EmptyString /\
   Fingerprint c = EmptyString /\ Exit_policy c = None /\
   Exit_policy_summary c = iface_nil /\ Exit_policy_v6_summary c = iface_nil) /\
  (let c := cleanupRelayStruct relay in
   Or_addresses c = Or_addresses relay /\ Exit_addresses c = Exit_addresses relay /\
   Dir_address c = Dir_address relay /\ Last_seen c = Last_seen relay /\
   Running c = Running relay /\ Hibernating c = Hibernating relay /\
   Flags c = Flags relay /\ Latitude c = Latitude relay /\ Longitude c = Longitude relay /\
   As c = As relay /\ As_number c = As_number relay /\ As_name c = As_name relay /\
   Consensus_weight c = Consensus_weight relay /\ Host_name c = Host_name relay /\
   Verified_host_names c = Verified_host_names relay /\
   Unverified_host_names c = Unverified_host_names relay /\
   Last_restarted c = Last_restarted relay /\ Bandwidth_rate c = Bandwidth_rate relay /\
   Bandwidth_burst c = Bandwidth_burst relay /\
   Observed_bandwidth c = Observed_bandwidth relay /\
   Advertised_bandwidth c = Advertised_bandwidth relay /\
   Recommended_version c = Recommended_version relay /\
   Version_status c = Version_status relay /\
   Effective_family c = Effective_family relay /\
   Alleged_family c = Alleged_family relay /\ Indirect_family c = Indirect_family relay /\
   Consensus_weight_fraction c = Consensus_weight_fraction relay /\
   Guard_probability c = Guard_probability relay /\
   Middle_probability c = Middle_probability relay /\
   Exit_probability c = Exit_probability relay /\ Measured c = Measured relay /\
   Unreachable_or_addresses c = Unreachable_or_addresses relay).
Proof.
  intros Hdb. split; [|split; cbv zeta; repeat split].
  destruct (addNewTorRelayToDB_run relay w db Hdb)
    as (row & db' & res & post & Hrun & Hn & Hl & Hf & Hti & Hrls & _ & Hjs & Hpost).
  exists row, post. rewrite Hrun. cbn [snd db_calls after_calls].
  repeat split; try assumption.
  destruct Hpost as [[_ ->]|(msg & _ & ->)];
    [apply rows_created_address_inserts|reflexivity].
Qed.

(** ** The cache refresh scheduler *)

Lemma initializeCaches_run (w : World) (db : DB) :
  g_db w = Some db -> Enabled (DBServer (g_config w)) = true ->
  initializeCaches w
  = (Done tt,
     after_calls w
       (initializeLatestRelayDataCache (g_consensusDLTS w)
          (initCountryNameCache (initCaches db)))
       [call_initCaches; call_initCountryNameCache;
        call_initializeLatestRelayDataCache (g_consensusDLTS w)]).
Proof.
  intros Hdb Hen. unfold initializeCaches. rewrite Hen.
  unfold bind, get_consensusDLTS. rewrite (db_exec_run _ _ w db Hdb).
  rewrite (db_exec_run _ _ (after_calls w (initCaches db) [call_initCaches])
                       (initCaches db) eq_refl).
  rewrite after_calls_app.
  rewrite (db_exec_run _ _ (after_calls w (initCountryNameCache (initCaches db)) _)
                       (initCountryNameCache (initCaches db)) eq_refl).
  now rewrite after_calls_app.
Qed.

(** C7. Cache refresh scheduling.  At the 0-based file index [num], with
    the interval [K >= 1] and the database backend on, the refresh step of
    [main] rebuilds all caches ([initCaches], [initCountryNameCache] and
    [initializeLatestRelayDataCache], in this order) exactly when
    [num mod K = 0]; at every other index it makes the single call that
    reloads the latest relay data cache.  With [K = 1] all caches are
    rebuilt at every index. *)
Theorem cache_refresh_schedule (num : Z) (w : World) (db : DB) :
  0 <= num ->
  1 <= ReInitCaches (DBServer (g_config w)) ->
  g_db w = Some db ->
  Enabled (DBServer (g_config w)) = true ->
  let K := ReInitCaches (DBServer (g_config w)) in
  let dlts := g_consensusDLTS w in
  let all_caches :=
    (Done tt,
     after_calls w
       (initializeLatestRelayDataCache dlts (initCountryNameCache (initCaches db)))
       [call_initCaches; call_initCountryNameCache;
        call_initializeLatestRelayDataCache dlts]) in
  let latest_state_only :=
    (Done tt,
     after_calls w (initializeLatestRelayDataCache dlts db)
       [call_initializeLatestRelayDataCache dlts]) in
  refreshCaches num w = (if shouldFullyRebuild num K then all_caches else latest_state_only) /\
  all_caches <> latest_state_only /\
  (K = 1 -> refreshCaches num w = all_caches).
Proof.
  intros Hnum HK Hdb Hen K dlts all_caches latest_state_only.
  assert (Hrun : refreshCaches num w
                 = if shouldFullyRebuild num K then all_caches else latest_state_only).
  { unfold refreshCaches, shouldFullyRebuild. fold K.
    destruct (Z.eqb_spec K 0) as [HK0|_]; [lia|].
    rewrite (Z.rem_mod_nonneg num K) by lia.
    destruct (num mod K =? 0).
    - now apply initializeCaches_run.
    - unfold bind, get_consensusDLTS. now rewrite (db_exec_run _ _ w db Hdb). }
  split; [exact Hrun|split].
  - subst all_caches latest_state_only. intros Heq.
    apply (f_equal (fun r => length (db_calls (snd r)))) in Heq.
    cbn [snd db_calls after_calls] in Heq. rewrite !length_app in Heq. simpl in Heq. lia.
  - intros HK1. rewrite Hrun. unfold shouldFullyRebuild. rewrite HK1.
    now rewrite Z.mod_1_r.
Qed.

(** ** The download timestamp *)

Lemma match_formats_none (ts : string) (formats : list string) :
  (forall f, In f formats -> time_Parse f ts = None) -> match_formats ts formats = None.
Proof.
  induction formats as [|f fs IH]; intros Hall; simpl; [reflexivity|].
  rewrite (Hall f) by now left. apply IH. intros g Hg. apply Hall. now right.
Qed.

Lemma matchTimestampToFormats_none (ts_matches formats : list string) :
  (forall ts f, In ts ts_matches -> In f formats -> time_Parse f ts = None) ->
  matchTimestampToFormats ts_matches formats = None.
Proof.
  induction ts_matches as [|ts rest IH]; intros Hall; simpl; [reflexivity|].
  rewrite match_formats_none by (intros f Hf; apply Hall; [now left|exact Hf]).
  apply IH. intros ts' f Hts Hf. apply Hall; [now right|exact Hf].
Qed.

Lemma match_formats_head (ts : string) (formats : list string) :
  match_formats ts formats = head (parses_of formats ts).
Proof.
  unfold parses_of. induction formats as [|f fs IH]; simpl; [reflexivity|].
  destruct (time_Parse f ts); [reflexivity|exact IH].
Qed.

(** C8. Fatal on timestamp parse failure.  [matchTimestampToFormats]
    returns the parse of the first pair of a candidate and a format that
    parses, candidates before formats.  When a download-time override or
    the extraction from the file name is in effect and no candidate parses
    under any of the configured formats, [getConsensusDLTimestamp] ends in
    [log.Fatalln]: no timestamp is returned.  When the pattern for the
    file name does not compile it panics before any parse. *)
Theorem timestamp_parse_failure_is_fatal :
  (forall ts_matches formats : list string,
     matchTimestampToFormats ts_matches formats
     = head (flat_map (parses_of formats) ts_matches)) /\
  (forall (filename : string) (w : World) (ts_matches : list string),
     let cfg := g_config w in
     let fn := if String.eqb filename EmptyString then Filename (Tor cfg) else filename in
     ExtractDLTfromFilename (Tor cfg) = true \/ ConsensusDLT (Tor cfg) <> EmptyString ->
     ts_candidates cfg fn = Done ts_matches ->
     (forall ts f, In ts ts_matches -> In f (getTimeFormats cfg) -> time_Parse f ts = None) ->
     getConsensusDLTimestamp filename w = (Fatal "Unable to parse timestamp.", w)) /\
  (forall (filename : string) (w : World) (msg : string),
     let cfg := g_config w in
     let fn := if String.eqb filename EmptyString then Filename (Tor cfg) else filename in
     ExtractDLTfromFilename (Tor cfg) = true \/ ConsensusDLT (Tor cfg) <> EmptyString ->
     ts_candidates cfg fn = Panic msg ->
     getConsensusDLTimestamp filename w = (Panic msg, w)).
Proof.
  assert (Hsys : forall cfg : TorHistoryConfig,
            ExtractDLTfromFilename (Tor cfg) = true \/ ConsensusDLT (Tor cfg) <> EmptyString ->
            negb (ExtractDLTfromFilename (Tor cfg)) &&
            (GoString.len (ConsensusDLT (Tor cfg)) =? 0) = false).
  { intros cfg [-> | Hne]; [reflexivity|].
    apply andb_false_iff. right. destruct (ConsensusDLT (Tor cfg)); [congruence|reflexivity]. }
  split; [|split].
  - intros ts_matches formats. induction ts_matches as [|ts rest IH]; simpl; [reflexivity|].
    rewrite match_formats_head, IH.
    now destruct (parses_of formats ts).
  - intros filename w ts_matches cfg fn Heff Hcand Hnone.
    unfold getConsensusDLTimestamp. fold cfg. fold fn.
    rewrite (Hsys cfg Heff), Hcand. now rewrite (matchTimestampToFormats_none _ _ Hnone).
  - intros filename w msg cfg fn Heff Hcand.
    unfold getConsensusDLTimestamp. fold cfg. fold fn.
    now rewrite (Hsys cfg Heff), Hcand.
Qed.

(** ** Letter case *)













(** ** The batch delta extractor *)

Lemma previous_counterpart_cons (o : TorRelayDetails) (rest : list TorRelayDetails)
    (fp : string) :
  previous_counterpart (o :: rest) fp
  = match previous_counterpart rest fp with
    | Some o' => Some o'
    | None => if String.eqb (Fingerprint o) fp then Some o else None
    end.
Proof.
  unfold previous_counterpart. simpl.
  destruct (String.eqb (Fingerprint o) fp); [|now destruct (last _)].
  now rewrite last_cons.
Qed.

(** The index map built from [old] sends a fingerprint to the index of its
    counterpart, the last record that carries it. *)
Lemma build_fp2id_lookup (old : list TorRelayDetails) :
  forall (k : nat) (m : gmap string nat) (fp : string),
    match previous_counterpart old fp with
    | None => build_fp2id old k m !! fp = m !! fp
    | Some o => exists i, build_fp2id old k m !! fp = Some (k + i)%nat /\ old !! i = Some o
    end.
Proof.
  induction old as [|o rest IH]; intros k m fp; [reflexivity|].
  rewrite previous_counterpart_cons. cbn [build_fp2id].
  specialize (IH (S k) (<[Fingerprint o := k]> m) fp).
  destruct (previous_counterpart rest fp) as [o'|].
  - destruct IH as (i & Hi & Ho). exists (S i). split; [|exact Ho].
    rewrite Hi. f_equal. lia.
  - rewrite IH. destruct (String.eqb_spec (Fingerprint o) fp) as [->|Hne].
    + exists 0%nat. split; [|reflexivity]. rewrite lookup_insert_eq. f_equal. lia.
    + now rewrite lookup_insert_ne.
Qed.

Lemma extract_loop_spec (old : list TorRelayDetails) :
  forall (new : list TorRelayDetails) (m : gmap string nat) (res : list TorRelayDetails),
    NoDup (map Fingerprint new) ->
    (forall n, In n new -> m !! Fingerprint n = build_fp2id old 0 ∅ !! Fingerprint n) ->
    extract_loop old new m res = Done (res ++ List.filter (forwarded old) new).
Proof.
  induction new as [|n rest IH]; intros m res Hnd Hm.
  - simpl. now rewrite app_nil_r.
  - apply NoDup_cons in Hnd as [Hnotin Hnd].
    assert (Hrest : forall n', In n' rest ->
              m !! Fingerprint n' = build_fp2id old 0 ∅ !! Fingerprint n').
    { intros n' Hin. apply Hm. now right. }
    cbn [extract_loop List.filter]. rewrite (Hm n) by now left.
    pose proof (build_fp2id_lookup old 0 ∅ (Fingerprint n)) as Hlook.
    unfold forwarded at 1.
    destruct (previous_counterpart old (Fingerprint n)) as [o|].
    + destruct Hlook as (i & Hi & Ho). rewrite Hi. change (0 + i)%nat with i.
      rewrite Ho. destruct (DeepEqual n o); cbn [negb].
      * apply IH; [exact Hnd|]. intros n' Hin.
        rewrite lookup_delete_ne; [now apply Hrest|].
        intros Heq. apply Hnotin. rewrite Heq.
        apply list_elem_of_In. now apply in_map.
      * rewrite (IH m (res ++ [n]) Hnd Hrest). now rewrite <- app_assoc.
    + rewrite Hlook, lookup_empty.
      rewrite (IH m (res ++ [n]) Hnd Hrest). now rewrite <- app_assoc.
Qed.

Lemma previous_counterpart_None (old : list TorRelayDetails) (fp : string) :
  previous_counterpart old fp = None <-> ~ In fp (map Fingerprint old).
Proof.
  induction old as [|o rest IH]; [simpl; tauto|].
  rewrite previous_counterpart_cons. simpl.
  destruct (previous_counterpart rest fp) as [o'|].
  - split; [discriminate|]. intros Hn. exfalso.
    assert (Hin : ~ In fp (map Fingerprint rest)) by tauto.
    apply IH in Hin. discriminate.
  - destruct (String.eqb_spec (Fingerprint o) fp) as [->|Hne].
    + split; [discriminate|tauto].
    + split; [|reflexivity]. intros _ [Heq|Hin]; [contradiction|].
      now apply (proj1 IH eq_refl).
Qed.

(** Without any assumption on the arrays the loop returns, never indexes
    [old] out of range, forwards every record that the specification
    forwards, and returns records of [new] only. *)
Lemma extract_loop_sound (old : list TorRelayDetails) :
  forall (new : list TorRelayDetails) (m : gmap string nat) (res : list TorRelayDetails),
    (forall fp i, m !! fp = Some i -> build_fp2id old 0 ∅ !! fp = Some i) ->
    exists out,
      extract_loop old new m res = Done out /\
      (forall n, In n res -> In n out) /\
      (forall n, In n new -> forwarded old n = true -> In n out) /\
      (forall n, In n out -> In n res \/ In n new).
Proof.
  induction new as [|n rest IH]; intros m res Hm.
  - exists res. simpl. repeat split; auto. intros n [].
  - assert (Hkeep : exists out,
              extract_loop old rest m (res ++ [n]) = Done out /\
              (forall n', In n' res -> In n' out) /\
              (forall n', In n' (n :: rest) -> forwarded old n' = true -> In n' out) /\
              (forall n', In n' out -> In n' res \/ In n' (n :: rest))).
    { destruct (IH m (res ++ [n]) Hm) as (out & Hrun & Hres & Hfwd & Hback).
      exists out. split; [exact Hrun|]. repeat split.
      - intros n' Hin. apply Hres, in_or_app. now left.
      - intros n' [<-|Hin] Hf; [apply Hres, in_or_app; right; now left|now apply Hfwd].
      - intros n' Hin. destruct (Hback n' Hin) as [Hr|Hr]; [|right; now right].
        apply in_app_or in Hr as [Hr|[<-|[]]]; [now left|right; now left]. }
    cbn [extract_loop].
    destruct (m !! Fingerprint n) as [i|] eqn:Hlook; [|exact Hkeep].
    pose proof (build_fp2id_lookup old 0 ∅ (Fingerprint n)) as Hbuild.
    rewrite (Hm _ _ Hlook) in Hbuild.
    destruct (previous_counterpart old (Fingerprint n)) as [o|] eqn:Hprev;
      [|rewrite lookup_empty in Hbuild; discriminate].
    destruct Hbuild as (i' & Hi' & Ho). injection Hi' as ->. cbn [Nat.add] in Ho.
    rewrite Ho. destruct (DeepEqual n o) eqn:Hdeep; [|exact Hkeep].
    destruct (IH (delete (Fingerprint n) m) res) as (out & Hrun & Hres & Hfwd & Hback).
    { intros fp j Hj. apply lookup_delete_Some in Hj as [_ Hj]. now apply Hm. }
    exists out. split; [exact Hrun|]. repeat split.
    + exact Hres.
    + intros n' [<-|Hin] Hf; [|now apply Hfwd].
      unfold forwarded in Hf. rewrite Hprev, Hdeep in Hf. discriminate.
    + intros n' Hin. destruct (Hback n' Hin) as [Hr|Hr]; [now left|right; now right].
Qed.

(** C2 (amended). Soundness and exactness of the delta extractor.  For
    every pair of snapshot arrays [extractNewAndUpdatedRelays previous
    current] returns records of [current], among them every record whose
    fingerprint is absent from [previous] or whose record is not deeply
    equal to its counterpart, the last record of [previous] with that
    fingerprint.  When no fingerprint occurs twice in [current] the result
    is exactly these records, in their order; and for every file after the
    first, [main] processes this delta and keeps the whole response as the
    next [previous]. *)
Theorem delta_extractor_exact (previous current : list TorRelayDetails) :
  (exists result,
     extractNewAndUpdatedRelays previous current = Done result /\
     (forall n, In n current -> forwarded previous n = true -> In n result) /\
     (forall n, In n result -> In n current)) /\
  (forall n : TorRelayDetails,
     forwarded previous n = true <->
     (~ In (Fingerprint n) (map Fingerprint previous) \/
      exists o, previous_counterpart previous (Fingerprint n) = Some o /\
                DeepEqual n o = false)) /\
  (NoDup (map Fingerprint current) ->
   extractNewAndUpdatedRelays previous current
   = Done (List.filter (forwarded previous) current) /\
   forall (num : Z) (previous_tor_response tor_response : TorResponse),
     num <> 0 ->
     Relays previous_tor_response = previous ->
     Relays tor_response = current ->
     main_shortcut num previous_tor_response tor_response
     = Done (tor_response,
             set_Relays tor_response (List.filter (forwarded previous) current))).
Proof.
  split; [|split].
  - unfold extractNewAndUpdatedRelays.
    destruct (extract_loop_sound previous current (build_fp2id previous 0 ∅) [])
      as (out & Hrun & _ & Hfwd & Hback); [auto|].
    exists out. repeat split; [exact Hrun|exact Hfwd|].
    intros n Hin. now destruct (Hback n Hin) as [[]|Hc].
  - intros n. unfold forwarded.
    pose proof (previous_counterpart_None previous (Fingerprint n)) as Hnone.
    destruct (previous_counterpart previous (Fingerprint n)) as [o|].
    + rewrite negb_true_iff. split.
      * intros Hd. right. now exists o.
      * intros [Habs|(o' & Ho' & Hd)]; [|congruence].
        apply Hnone in Habs. discriminate.
    + split; [intros _; left; now apply Hnone|reflexivity].
  - intros Hnd.
    assert (Hrun : extractNewAndUpdatedRelays previous current
                   = Done (List.filter (forwarded previous) current)).
    { unfold extractNewAndUpdatedRelays.
      now rewrite (extract_loop_spec previous current _ [] Hnd (fun _ _ => eq_refl)). }
    split; [exact Hrun|].
    intros num prev resp Hnum Hprev Hcur. unfold main_shortcut.
    destruct (Z.eqb_spec num 0) as [|_]; [contradiction|]. cbn [negb].
    now rewrite Hprev, Hcur, Hrun.
Qed.

(** ** Further properties of the loop body *)

(** X1. The change detector is exact: [recordsMatch] returns true exactly
    when all eleven comparable fields of the record and of the cache entry
    agree. *)
Theorem records_match_iff_fields_agree (relay : TorRelayDetails)
    (lrdfp : gmap string string) :
  recordsMatch relay lrdfp = true <-> all_fields_match relay lrdfp.
Proof. apply recordsMatch_true_iff. Qed.

(** X2. A record that fails the flag filter, or that is processed without
    an initialised database handle, makes no call on the database. *)
Theorem skipped_records_make_no_call (relay : TorRelayDetails) (w : World) :
  allStringsInSetMatch (matchFlags (Filter (g_config w))) (Flags relay) = false \/
  g_db w = None \/
  (exists db, g_db w = Some db /\ initialized db = false) ->
  processRelay relay w = (Done tt, w).
Proof.
  intros Hskip. unfold processRelay.
  destruct (allStringsInSetMatch _ _); [|reflexivity]. cbn [negb].
  destruct Hskip as [Hflt|[Hnil|(db & Hdb & Hinit)]]; [discriminate|now rewrite Hnil|].
  now rewrite Hdb, Hinit.
Qed.


(** X3. The flag filter: [allStringsInSetMatch] returns true exactly when
    every needle occurs in the set. *)
Theorem allStringsInSetMatch_iff (needles set : slice string) :
  allStringsInSetMatch needles set = true <->
  forall n, In n (elems needles) -> In n (elems set).
Proof.
  unfold allStringsInSetMatch, slice_len.
  destruct (elems needles) as [|x l] eqn:El.
  - simpl. split; [intros _ n []|reflexivity].
  - change (Z.of_nat (length (x :: l)) =? 0) with false. cbv iota.
    rewrite forallb_forall. split.
    + intros Hall n Hin. apply Hall in Hin. apply existsb_exists in Hin as (y & Hy & Heq).
      apply String.eqb_eq in Heq. now subst.
    + intros Hall n Hin. apply existsb_exists. exists n. split; [now apply Hall|].
      apply String.eqb_refl.
Qed.

End Properties.

(** * Further properties of the engine *)

Section EngineProperties.

Context {L : GoLib} {B : DBBackend}.

(** ** The cache refresh at the edges *)

Lemma rem_zero_abs (num K : Z) :
  0 <= num -> K <> 0 -> (Z.rem num K =? 0) = shouldFullyRebuild num (Z.abs K).
Proof.
  intros Hnum HK. unfold shouldFullyRebuild.
  rewrite <- (Z.rem_abs_r num K HK), Z.rem_mod_nonneg by lia. reflexivity.
Qed.

(** X5. The refresh interval at its edges.  With [ReInitCaches = 0] the
    remainder [num % ReInitCaches] panics, before any call on the database;
    a negative interval schedules the full rebuilds as its absolute value
    does. *)
Theorem refresh_interval_zero_or_negative (num : Z) (w : World) :
  0 <= num ->
  (ReInitCaches (DBServer (g_config w)) = 0 ->
   refreshCaches num w = (Panic "integer divide by zero", w)) /\
  (ReInitCaches (DBServer (g_config w)) <> 0 ->
   refreshCaches num w
   = if shouldFullyRebuild num (Z.abs (ReInitCaches (DBServer (g_config w))))
     then initializeCaches w
     else reloadLatestRelayDataCache w).
Proof.
  intros Hnum. unfold refreshCaches. split; intros HK.
  - now rewrite HK.
  - rewrite (proj2 (Z.eqb_neq _ _) HK), (rem_zero_abs num _ Hnum HK). reflexivity.
Qed.

Lemma refreshCaches_offline (num : Z) (w w' : World) :
  0 <= num ->
  1 <= ReInitCaches (DBServer (g_config w)) ->
  g_config w' = g_config w ->
  g_db w' = None ->
  Enabled (DBServer (g_config w)) = false ->
  refreshCaches num w'
  = if shouldFullyRebuild num (ReInitCaches (DBServer (g_config w)))
    then (Done tt, w') else (Panic "nil pointer dereference", w').
Proof.
  intros Hnum HK Hcfg Hdb' Hoff. unfold refreshCaches. rewrite Hcfg.
  rewrite (proj2 (Z.eqb_neq _ _)) by lia.
  rewrite rem_zero_abs by lia. rewrite Z.abs_eq by lia.
  destruct (shouldFullyRebuild num _).
  - unfold initializeCaches. now rewrite Hcfg, Hoff.
  - unfold bind, get_consensusDLTS, db_exec, db_call. now rewrite Hdb'.
Qed.

(** X6. Without a database handle ([g_db] nil, the backend not enabled) the
    cache refresh does nothing at the file numbers of a full rebuild and
    ends in a nil pointer panic at every other one; the loop body of
    [main] then panics before it reads the file, once the timestamp of the
    file is found. *)
Theorem refresh_without_database (num : Z) (w : World) :
  0 <= num ->
  1 <= ReInitCaches (DBServer (g_config w)) ->
  g_db w = None ->
  Enabled (DBServer (g_config w)) = false ->
  refreshCaches num w
  = (if shouldFullyRebuild num (ReInitCaches (DBServer (g_config w)))
     then (Done tt, w)
     else (Panic "nil pointer dereference", w)) /\
  (forall (fn dlts : string) (decoded previous_tor_response : TorResponse),
     shouldFullyRebuild num (ReInitCaches (DBServer (g_config w))) = false ->
     getConsensusDLTimestamp fn w = (Done dlts, w) ->
     main_loop_body num fn decoded previous_tor_response w
     = (Panic "nil pointer dereference",
        {| g_config := g_config w; g_db := None;
           g_consensusDLTS := dlts; db_calls := db_calls w |})).
Proof.
  intros Hnum HK Hdb Hoff.
  assert (Hrun : forall w', g_config w' = g_config w -> g_db w' = None ->
            refreshCaches num w'
            = if shouldFullyRebuild num (ReInitCaches (DBServer (g_config w)))
              then (Done tt, w') else (Panic "nil pointer dereference", w')).
  { intros w' Hcfg Hdb'. now apply refreshCaches_offline. }
  split; [now apply Hrun|].
  intros fn dlts decoded previous Hnot Hts.
  unfold main_loop_body. unfold bind at 1. rewrite Hts.
  unfold bind at 1. cbn [set_consensusDLTS]. unfold bind at 1.
  rewrite Hrun; [|reflexivity|exact Hdb]. rewrite Hnot, Hdb. reflexivity.
Qed.

(** ** The delta extractor at the edges *)

Lemma extract_loop_no_index (old : list TorRelayDetails) :
  forall new res : list TorRelayDetails, extract_loop old new ∅ res = Done (res ++ new).
Proof.
  induction new as [|n rest IH]; intros res; cbn [extract_loop].
  - now rewrite app_nil_r.
  - rewrite lookup_empty, IH, <- app_assoc. reflexivity.
Qed.

Lemma previous_counterpart_self (l : list TorRelayDetails) :
  NoDup (map Fingerprint l) ->
  forall n, In n l -> previous_counterpart l (Fingerprint n) = Some n.
Proof.
  induction l as [|a rest IH]; intros Hnd n Hin; [destruct Hin|].
  cbn [map] in Hnd. apply NoDup_cons in Hnd as [Hnotin Hnd].
  rewrite previous_counterpart_cons. destruct Hin as [<-|Hin].
  - assert (Hnone : previous_counterpart rest (Fingerprint a) = None).
    { apply previous_counterpart_None. intros Hin. apply Hnotin.
      now apply list_elem_of_In. }
    now rewrite Hnone, String.eqb_refl.
  - now rewrite (IH Hnd n Hin).
Qed.

Lemma filter_nothing {A : Type} (f : A -> bool) (l : list A) :
  (forall x, In x l -> f x = false) -> List.filter f l = [].
Proof.
  induction l as [|a rest IH]; intros Hf; [reflexivity|].
  cbn [List.filter]. rewrite (Hf a) by now left.
  apply IH. intros x Hin. apply Hf. now right.
Qed.

Lemma extract_same_snapshot (snapshot : list TorRelayDetails) :
  NoDup (map Fingerprint snapshot) ->
  (forall n, In n snapshot -> DeepEqual n n = true) ->
  extractNewAndUpdatedRelays snapshot snapshot = Done [].
Proof.
  intros Hnd Hrefl. unfold extractNewAndUpdatedRelays.
  rewrite (extract_loop_spec snapshot snapshot _ [] Hnd) by reflexivity.
  rewrite filter_nothing; [reflexivity|].
  intros n Hin. unfold forwarded.
  now rewrite (previous_counterpart_self snapshot Hnd n Hin), (Hrefl n Hin).
Qed.

(** X7. The delta at the edges.  Against an empty previous snapshot every
    record is forwarded, repeated ones included; an empty current snapshot
    gives an empty delta; and a snapshot compared with itself gives an
    empty delta when no fingerprint occurs twice in it and every record is
    deeply equal to itself (no NaN among its numbers). *)
Theorem delta_at_the_edges (snapshot : list TorRelayDetails) :
  extractNewAndUpdatedRelays [] snapshot = Done snapshot /\
  extractNewAndUpdatedRelays snapshot [] = Done [] /\
  (NoDup (map Fingerprint snapshot) ->
   (forall n, In n snapshot -> DeepEqual n n = true) ->
   extractNewAndUpdatedRelays snapshot snapshot = Done []).
Proof.
  split; [|split].
  - unfold extractNewAndUpdatedRelays. cbn [build_fp2id].
    now rewrite extract_loop_no_index.
  - reflexivity.
  - apply extract_same_snapshot.
Qed.

Lemma extract_loop_sublist (old : list TorRelayDetails) :
  forall (new : list TorRelayDetails) (m : gmap string nat) (res : list TorRelayDetails),
    (forall fp i, m !! fp = Some i -> build_fp2id old 0 ∅ !! fp = Some i) ->
    exists out, extract_loop old new m res = Done (res ++ out) /\ out `sublist_of` new.
Proof.
  induction new as [|n rest IH]; intros m res Hm.
  - exists []. split; [now rewrite app_nil_r|constructor].
  - assert (Hkeep : exists out,
              extract_loop old rest m (res ++ [n]) = Done (res ++ out) /\
              out `sublist_of` n :: rest).
    { destruct (IH m (res ++ [n]) Hm) as (out & Hrun & Hsub).
      exists (n :: out). split; [now rewrite Hrun, <- app_assoc|now constructor]. }
    cbn [extract_loop].
    destruct (m !! Fingerprint n) as [i|] eqn:Hlook; [|exact Hkeep].
    pose proof (build_fp2id_lookup old 0 ∅ (Fingerprint n)) as Hbuild.
    rewrite (Hm _ _ Hlook) in Hbuild.
    destruct (previous_counterpart old (Fingerprint n)) as [o|] eqn:Hprev;
      [|rewrite lookup_empty in Hbuild; discriminate].
    destruct Hbuild as (i' & Hi' & Ho). injection Hi' as ->. cbn [Nat.add] in Ho.
    rewrite Ho. destruct (DeepEqual n o); [|exact Hkeep].
    destruct (IH (delete (Fingerprint n) m) res) as (out & Hrun & Hsub).
    { intros fp j Hj. apply lookup_delete_Some in Hj as [_ Hj]. now apply Hm. }
    exists out. split; [exact Hrun|now constructor].
Qed.

(** X8. Whatever the two snapshots, [extractNewAndUpdatedRelays] returns
    (it never indexes [old] out of range), and its result is a sublist of
    the current snapshot: records of it, in their order, none repeated
    more often than there, none altered; so it is never longer. *)
Theorem delta_is_a_sublist (previous current : list TorRelayDetails) :
  exists result,
    extractNewAndUpdatedRelays previous current = Done result /\
    result `sublist_of` current /\
    (length result <= length current)%nat.
Proof.
  destruct (extract_loop_sublist previous current (build_fp2id previous 0 ∅) [])
    as (out & Hrun & Hsub); [auto|].
  exists out. split; [exact Hrun|]. split; [exact Hsub|now apply sublist_length].
Qed.

(** ** The download timestamp *)

Lemma append_assoc (a b c : string) :
  String.append (String.append a b) c = String.append a (String.append b c).
Proof.
  induction a as [|x a IH]; [reflexivity|].
  change (String x (String.append (String.append a b) c)
          = String x (String.append a (String.append b c))).
  now rewrite IH.
Qed.

Lemma length_append (a b : string) :
  String.length (String.append a b) = (String.length a + String.length b)%nat.
Proof.
  induction a as [|x a IH]; [reflexivity|].
  change (S (String.length (String.append a b)) = S (String.length a + String.length b)).
  now rewrite IH.
Qed.

(** Strings of equal length in front decide the order of two
    concatenations, unless they are equal. *)
Lemma compare_append (a a' b b' : string) :
  String.length a = String.length a' ->
  String.compare (String.append a b) (String.append a' b')
  = match String.compare a a' with
    | Eq => String.compare b b'
    | c => c
    end.
Proof.
  revert a'. induction a as [|x a IH]; intros [|x' a'] Hlen; try discriminate.
  - reflexivity.
  - change (match Ascii.compare x x' with
            | Eq => String.compare (String.append a b) (String.append a' b')
            | ne => ne
            end
            = match (match Ascii.compare x x' with
                     | Eq => String.compare a a'
                     | ne => ne
                     end) with
              | Eq => String.compare b b'
              | c => c
              end).
    destruct (Ascii.compare x x'); try reflexivity.
    apply IH. now injection Hlen.
Qed.

Lemma below_spec (f : Z -> bool) (n : Z) :
  forallb f (below n) = true -> forall x, 0 <= x < n -> f x = true.
Proof.
  intros Hall x Hx. rewrite forallb_forall in Hall. apply Hall.
  rewrite <- (Z2Nat.id x) by lia. unfold below. apply in_map, in_seq. lia.
Qed.

Lemma same_comparison_eq (c d : comparison) : same_comparison c d = true -> c = d.
Proof. now destruct c, d. Qed.

Lemma two_digits (x y : Z) :
  0 <= x < 100 -> 0 <= y < 100 ->
  String.length (GoString.fmt_0d 2 x) = 2%nat /\
  String.compare (GoString.fmt_0d 2 x) (GoString.fmt_0d 2 y) = (x ?= y).
Proof.
  intros Hx Hy.
  assert (Hall : forallb (fun x => forallb (two_digits_ok x) (below 100)) (below 100) = true)
    by (vm_compute; reflexivity).
  pose proof (below_spec _ 100 (below_spec _ 100 Hall x Hx) y Hy) as Hok.
  unfold two_digits_ok in Hok. apply andb_prop in Hok as [Hlen Hcmp].
  split; [now apply Nat.eqb_eq|now apply same_comparison_eq].
Qed.

Lemma year_digits (y : Z) :
  0 <= y < 10000 ->
  GoString.fmt_0d 4 y
  = String.append (GoString.fmt_0d 2 (y / 100)) (GoString.fmt_0d 2 (y mod 100)).
Proof.
  intros Hy.
  assert (Hall : forallb year_digits_ok (below 10000) = true) by (vm_compute; reflexivity).
  apply String.eqb_eq. exact (below_spec _ 10000 Hall y Hy).
Qed.

Lemma then_compare_hundreds (y y' : Z) (rest : comparison) :
  then_compare (y / 100) (y' / 100) (then_compare (y mod 100) (y' mod 100) rest)
  = then_compare y y' rest.
Proof.
  unfold then_compare.
  pose proof (Z.div_mod y 100 ltac:(lia)) as Hy.
  pose proof (Z.div_mod y' 100 ltac:(lia)) as Hy'.
  pose proof (Z.mod_pos_bound y 100 ltac:(lia)) as Hr.
  pose proof (Z.mod_pos_bound y' 100 ltac:(lia)) as Hr'.
  destruct (Z.compare_spec (y / 100) (y' / 100)) as [Hq|Hq|Hq].
  - destruct (Z.compare_spec (y mod 100) (y' mod 100)) as [Hm|Hm|Hm].
    + replace (y ?= y') with Eq; [reflexivity|]. symmetry. apply Z.compare_eq_iff. lia.
    + replace (y ?= y') with Lt; [reflexivity|]. symmetry. apply Z.compare_lt_iff. lia.
    + replace (y ?= y') with Gt; [reflexivity|]. symmetry. apply Z.compare_gt_iff. lia.
  - replace (y ?= y') with Lt; [reflexivity|]. symmetry. apply Z.compare_lt_iff. lia.
  - replace (y ?= y') with Gt; [reflexivity|]. symmetry. apply Z.compare_gt_iff. lia.
Qed.

Lemma compare_two_digits (x y : Z) (b b' : string) :
  0 <= x < 100 -> 0 <= y < 100 ->
  String.compare (String.append (GoString.fmt_0d 2 x) b) (String.append (GoString.fmt_0d 2 y) b')
  = then_compare x y (String.compare b b').
Proof.
  intros Hx Hy.
  destruct (two_digits x y Hx Hy) as [Hlx Hc]. destruct (two_digits y y Hy Hy) as [Hly _].
  rewrite compare_append by congruence. rewrite Hc. reflexivity.
Qed.

Lemma compare_time_Eq (t u : time_Time) : compare_time t u = Eq -> t = u.
Proof.
  destruct t as [Y Mo D H Mi S], u as [Y' Mo' D' H' Mi' S'].
  unfold compare_time, then_compare. cbn [Year Month Day Hour Minute Second].
  destruct (Z.compare_spec Y Y'); try discriminate.
  destruct (Z.compare_spec Mo Mo'); try discriminate.
  destruct (Z.compare_spec D D'); try discriminate.
  destruct (Z.compare_spec H H'); try discriminate.
  destruct (Z.compare_spec Mi Mi'); try discriminate.
  destruct (Z.compare_spec S S'); try discriminate.
  intros _. congruence.
Qed.

Lemma compare_same (s : string) : String.compare s s = Eq.
Proof.
  pose proof (String.compare_antisym s s) as Ha. now destruct (String.compare s s).
Qed.

(** Go's order on two download timestamps is the order of the times. *)
Lemma DLTS_of_time_compare (t u : time_Time) :
  four_digit_year t -> four_digit_year u ->
  String.compare (DLTS_of_time t) (DLTS_of_time u) = compare_time t u.
Proof.
  intros (HY & HMo & HD & HH & HMi & HS) (HY' & HMo' & HD' & HH' & HMi' & HS').
  unfold DLTS_of_time, compare_time.
  rewrite !year_digits by lia. rewrite !append_assoc.
  assert (Hq : 0 <= Year t / 100 < 100)
    by (split; [apply Z.div_pos; lia|apply Z.div_lt_upper_bound; lia]).
  assert (Hq' : 0 <= Year u / 100 < 100)
    by (split; [apply Z.div_pos; lia|apply Z.div_lt_upper_bound; lia]).
  pose proof (Z.mod_pos_bound (Year t) 100 ltac:(lia)) as Hr.
  pose proof (Z.mod_pos_bound (Year u) 100 ltac:(lia)) as Hr'.
  rewrite !compare_two_digits by lia.
  rewrite then_compare_hundreds.
  destruct (two_digits (Second t) (Second u)) as [_ ->]; [lia|lia|]. reflexivity.
Qed.


(** X10. The order of download timestamps.  For times of the years 0 to
    9999 the text [YYYYMMDDhhmmss] has 14 characters, and Go's string order
    and equality on two such texts, which [processTorResponse] uses to
    compare [g_consensusDLTS] with [RecordLastSeen], are the chronological
    order and the equality of the times. *)
Theorem download_timestamp_order (t u : time_Time) :
  four_digit_year t -> four_digit_year u ->
  String.length (DLTS_of_time t) = 14%nat /\
  String.compare (DLTS_of_time t) (DLTS_of_time u) = compare_time t u /\
  (String.ltb (DLTS_of_time t) (DLTS_of_time u) = true <-> compare_time t u = Lt) /\
  (String.eqb (DLTS_of_time t) (DLTS_of_time u) = true <-> t = u).
Proof.
  intros Ht Hu. pose proof (DLTS_of_time_compare t u Ht Hu) as Hcmp.
  destruct Ht as (HY & HMo & HD & HH & HMi & HS).
  split; [|split; [exact Hcmp|split]].
  - unfold DLTS_of_time. rewrite year_digits by lia. rewrite !length_append.
    assert (Hq : 0 <= Year t / 100 < 100)
      by (split; [apply Z.div_pos; lia|apply Z.div_lt_upper_bound; lia]).
    pose proof (Z.mod_pos_bound (Year t) 100 ltac:(lia)) as Hr.
    rewrite (proj1 (two_digits (Year t / 100) 0 Hq ltac:(lia))).
    rewrite (proj1 (two_digits (Year t mod 100) 0 Hr ltac:(lia))).
    rewrite (proj1 (two_digits (Month t) 0 ltac:(lia) ltac:(lia))).
    rewrite (proj1 (two_digits (Day t) 0 ltac:(lia) ltac:(lia))).
    rewrite (proj1 (two_digits (Hour t) 0 ltac:(lia) ltac:(lia))).
    rewrite (proj1 (two_digits (Minute t) 0 ltac:(lia) ltac:(lia))).
    rewrite (proj1 (two_digits (Second t) 0 ltac:(lia) ltac:(lia))).
    reflexivity.
  - unfold String.ltb. rewrite Hcmp. destruct (compare_time t u); split; congruence.
  - split.
    + intros Heq. apply String.eqb_eq in Heq. apply compare_time_Eq.
      now rewrite <- Hcmp, Heq, compare_same.
    + intros ->. apply String.eqb_refl.
Qed.

Lemma matchTimestampToFormats_head (ts_matches formats : list string) :
  matchTimestampToFormats ts_matches formats
  = head (flat_map (parses_of formats) ts_matches).
Proof.
  induction ts_matches as [|ts rest IH]; simpl; [reflexivity|].
  rewrite match_formats_head, IH. now destruct (parses_of formats ts).
Qed.

(** X9. The download timestamp that is found.  With neither the override
    nor the extraction from the file name in effect it is the system time;
    otherwise it is the first successful parse, candidate by candidate and
    format by format; in both cases in the form [YYYYMMDDhhmmss], and the
    globals are left as they are. *)
Theorem download_timestamp_found (filename : string) (w : World) :
  let cfg := g_config w in
  let fn := if String.eqb filename EmptyString then Filename (Tor cfg) else filename in
  (ExtractDLTfromFilename (Tor cfg) = false ->
   ConsensusDLT (Tor cfg) = EmptyString ->
   getConsensusDLTimestamp filename w = (Done (DLTS_of_time time_Now), w)) /\
  (forall (ts_matches : list string) (t : time_Time),
     ExtractDLTfromFilename (Tor cfg) = true \/ ConsensusDLT (Tor cfg) <> EmptyString ->
     ts_candidates cfg fn = Done ts_matches ->
     head (flat_map (parses_of (getTimeFormats cfg)) ts_matches) = Some t ->
     getConsensusDLTimestamp filename w = (Done (DLTS_of_time t), w)) /\
  (forall (dlts : string) (w' : World),
     getConsensusDLTimestamp filename w = (Done dlts, w') ->
     w' = w /\ exists t, dlts = DLTS_of_time t).
Proof.
  intros cfg fn. split; [|split].
  - intros Hoff Hnone. unfold getConsensusDLTimestamp. fold cfg.
    now rewrite Hoff, Hnone.
  - intros ts_matches t Heff Hcand Hhead.
    unfold getConsensusDLTimestamp. fold cfg. fold fn.
    assert (Hsys : negb (ExtractDLTfromFilename (Tor cfg)) &&
                   (GoString.len (ConsensusDLT (Tor cfg)) =? 0) = false).
    { destruct Heff as [-> | Hne]; [reflexivity|].
      apply andb_false_iff. right.
      destruct (ConsensusDLT (Tor cfg)); [congruence|reflexivity]. }
    rewrite Hsys, Hcand, matchTimestampToFormats_head, Hhead. reflexivity.
  - intros dlts w'. unfold getConsensusDLTimestamp. fold cfg. fold fn.
    destruct (negb (ExtractDLTfromFilename (Tor cfg)) &&
              (GoString.len (ConsensusDLT (Tor cfg)) =? 0)).
    + intros [= <- <-]. split; [reflexivity|now exists time_Now].
    + destruct (ts_candidates cfg fn) as [ts|msg|msg]; try discriminate.
      destruct (matchTimestampToFormats ts (getTimeFormats cfg)) as [t|]; try discriminate.
      intros [= <- <-]. split; [reflexivity|now exists t].
Qed.

(** ** Insert and update *)

Lemma rows_created_syncs (dlts : string) (targets : list (string * string))
    (cs : list DBCall) :
  Forall2 (is_sync_of dlts) targets cs -> rows_created cs = 0%nat.
Proof.
  induction 1 as [|t c ts cs [fpid ->] _ IH]; [reflexivity|exact IH].
Qed.

(** The update path of [processTorResponse]: the address synchronizer,
    then [updateTorRelayRLS]. *)
Lemma update_path_run (relay : TorRelayDetails) (fp : string) (w : World) (db : DB) :
  g_db w = Some db ->
  exists (db1 : DB) (syncs : list DBCall),
    let dlts := g_consensusDLTS w in
    let id := idx (lrd_idx (lrd db1) fp) "id" in
    (updateRelayAddressesIfNeeded relay ;;;
     id <- g_db_lrd fp "id" ;;
     dlts <- get_consensusDLTS ;;
     db_exec (call_updateTorRelayRLS id dlts) (updateTorRelayRLS id dlts)) w
    = (Done tt, after_calls w (updateTorRelayRLS id dlts db1)
                  (syncs ++ [call_updateTorRelayRLS id dlts])) /\
    Forall2 (is_sync_of dlts) (address_targets relay) syncs.
Proof.
  intros Hdb.
  destruct (updateRelayAddressesIfNeeded_run relay w db Hdb) as (db1 & syncs & Hrun & Hsyncs).
  exists db1, syncs. cbv zeta. split; [|exact Hsyncs].
  unfold bind at 1. rewrite Hrun. unfold bind, g_db_lrd, get_consensusDLTS.
  cbn [g_db after_calls]. fold (after_calls w db1 syncs).
  rewrite (db_exec_run _ _ (after_calls w db1 syncs) db1 eq_refl).
  now rewrite after_calls_app.
Qed.

(** X11. The insert path in full.  On a database handle
    [addNewTorRelayToDB] resolves the ten dictionary ids, inserts the row,
    and then either returns after one [addToIP] per OR address, per Exit
    address and for a non-empty Dir address, each under the fingerprint id
    of the row and with the download timestamp as both of its times, or
    panics without any call after the failed insert.  It never ends in
    [log.Fatal]. *)
Theorem insert_then_addresses (relay : TorRelayDetails) (w : World) (db : DB) :
  g_db w = Some db ->
  exists (row : TorRelaysRow) (db' : DB) (post : list DBCall),
    snd (addNewTorRelayToDB relay w)
    = after_calls w db' (dictionary_calls relay ++ call_stmtAddTorRelays_Exec row :: post) /\
    ((fst (addNewTorRelayToDB relay w) = Done tt /\
      post = map (fun t => call_addToIP (fst t) (row_fpid row) (g_consensusDLTS w)
                                        (g_consensusDLTS w) (snd t))
                 (address_targets relay)) \/
     (exists msg, fst (addNewTorRelayToDB relay w) = Panic msg /\ post = [])).
Proof.
  intros Hdb.
  destruct (addNewTorRelayToDB_run relay w db Hdb)
    as (row & db' & res & post & Hrun & _ & _ & _ & _ & _ & _ & _ & Hpost).
  exists row, db', post. rewrite Hrun. split; [reflexivity|].
  destruct Hpost as [[-> ->]|(msg & -> & ->)]; [left; now split|right; now exists msg].
Qed.

(** X12. A row for a reconciled record exactly when the detector says so:
    [processTorResponse] inserts one row for a record whose comparison with
    its cache entry fails, and none for a record that matches it, whatever
    the two timestamps and whatever else differs between the record and
    the store (addresses, flags, bandwidth, region and country name are
    not compared). *)
Theorem row_created_iff_records_differ (relay : TorRelayDetails) (w : World) (db : DB) :
  reconciled_in w db relay ->
  rows_created (db_calls (snd (processRelay relay w)))
  = (rows_created (db_calls w) +
     (if recordsMatch (trim_Contact relay) (lrd_idx (lrd db) (Fingerprint relay))
      then 0 else 1))%nat.
Proof.
  intros Hrec. rewrite (processRelay_reconciled relay w db Hrec).
  destruct Hrec as (_ & Hdb & _).
  destruct (recordsMatch (trim_Contact relay) (lrd_idx (lrd db) (Fingerprint relay)))
    eqn:Hmatch.
  - rewrite (reconcileRelay_match relay w db Hdb) by now apply recordsMatch_true_iff.
    cbv zeta.
    destruct (String.eqb _ _); [cbn [snd]; lia|].
    destruct (String.ltb _ _); [cbn [snd]; lia|].
    destruct (update_path_run (trim_Contact relay) (Fingerprint relay) w db Hdb)
      as (db1 & syncs & Hrun & Hsyncs).
    cbv zeta in Hrun. rewrite Hrun. cbn [snd db_calls after_calls].
    rewrite !rows_created_app, (rows_created_syncs _ _ _ Hsyncs). cbn. lia.
  - rewrite (reconcileRelay_no_match relay w db Hdb Hmatch).
    rewrite (addNewTorRelayToDB_one_row _ w db Hdb). lia.
Qed.


(** What one iteration of the loop leaves behind, in any world. *)
Lemma processRelay_frame (relay : TorRelayDetails) (w : World) :
  exists calls,
    db_calls (snd (processRelay relay w)) = db_calls w ++ calls /\
    (rows_created calls <= 1)%nat /\
    g_config (snd (processRelay relay w)) = g_config w /\
    g_consensusDLTS (snd (processRelay relay w)) = g_consensusDLTS w.
Proof.
  assert (Hskip : exists calls,
            db_calls w = db_calls w ++ calls /\ (rows_created calls <= 1)%nat /\
            g_config w = g_config w /\ g_consensusDLTS w = g_consensusDLTS w).
  { exists []. rewrite app_nil_r. repeat split. cbn. lia. }
  unfold processRelay.
  destruct (negb _); [exact Hskip|].
  destruct (g_db w) as [db|] eqn:Hdb; [|exact Hskip].
  destruct (initialized db); [|exact Hskip].
  destruct (recordsMatch (trim_Contact relay) (lrd_idx (lrd db) (Fingerprint relay)))
    eqn:Hmatch.
  - rewrite (reconcileRelay_match relay w db Hdb) by now apply recordsMatch_true_iff.
    cbv zeta.
    destruct (String.eqb _ _); [exact Hskip|].
    destruct (String.ltb _ _); [exact Hskip|].
    destruct (update_path_run (trim_Contact relay) (Fingerprint relay) w db Hdb)
      as (db1 & syncs & Hrun & Hsyncs).
    cbv zeta in Hrun. rewrite Hrun. eexists. split; [reflexivity|].
    rewrite rows_created_app, (rows_created_syncs _ _ _ Hsyncs). cbn. repeat split. lia.
  - rewrite (reconcileRelay_no_match relay w db Hdb Hmatch).
    destruct (addNewTorRelayToDB_run (trim_Contact relay) w db Hdb)
      as (row & db' & res & post & Hrun & _ & _ & _ & _ & _ & _ & _ & Hpost).
    rewrite Hrun. eexists. split; [reflexivity|].
    assert (Hp : rows_created post = 0%nat).
    { destruct Hpost as [[_ ->]|(msg & _ & ->)];
        [apply rows_created_address_inserts|reflexivity]. }
    rewrite rows_created_app.
    change (rows_created (call_stmtAddTorRelays_Exec row :: post)) with (S (rows_created post)).
    rewrite Hp. change (rows_created (dictionary_calls (trim_Contact relay))) with 0%nat.
    repeat split. lia.
Qed.

(** X13. What [processTorResponse] leaves behind, in any state and however
    it ends: the calls made before are still there, the calls it adds hold
    at most one row insert per record of the response, and the
    configuration and the download timestamp are untouched. *)
Theorem at_most_one_row_per_record (tor_response : TorResponse) (w : World) :
  exists calls,
    db_calls (snd (processTorResponse tor_response w)) = db_calls w ++ calls /\
    (rows_created calls <= length (Relays tor_response))%nat /\
    g_config (snd (processTorResponse tor_response w)) = g_config w /\
    g_consensusDLTS (snd (processTorResponse tor_response w)) = g_consensusDLTS w.
Proof.
  unfold processTorResponse. revert w.
  induction (Relays tor_response) as [|relay rest IH]; intros w.
  - exists []. cbn. rewrite app_nil_r. repeat split. lia.
  - cbn [for_each]. unfold bind.
    destruct (processRelay_frame relay w) as (c1 & Hc1 & Hr1 & Hcfg1 & Hts1).
    destruct (processRelay relay w) as [[[]|msg|msg] w1]; cbn [snd] in *.
    + destruct (IH w1) as (c2 & Hc2 & Hr2 & Hcfg2 & Hts2).
      exists (c1 ++ c2). rewrite Hc2, Hc1, <- app_assoc, rows_created_app, Hcfg2, Hts2.
      repeat split; try assumption. cbn [length]. lia.
    + exists c1. repeat split; try assumption. cbn [length]. lia.
    + exists c1. repeat split; try assumption. cbn [length]. lia.
Qed.

(** ** The configuration that the engine reads *)

Lemma config_blind_ret {A : Type} (a : A) : config_blind (ret a).
Proof. now intros cfg w. Qed.

Lemma config_blind_bind {A C : Type} (m : M A) (k : A -> M C) :
  config_blind m -> (forall a, config_blind (k a)) -> config_blind (bind m k).
Proof.
  intros Hm Hk cfg w. unfold bind. rewrite (Hm cfg w).
  destruct (m w) as [[a|msg|msg] w1]; cbn [fst snd]; [apply Hk|reflexivity|reflexivity].
Qed.

Lemma config_blind_db_call {A : Type} (c : DBCall) (method : DB -> A * DB) :
  config_blind (db_call c method).
Proof.
  intros cfg w. unfold db_call. cbn [with_config g_db].
  destruct (g_db w) as [db|]; [|reflexivity]. now destruct (method db).
Qed.

Lemma config_blind_g_db_lrd (fp key : string) : config_blind (g_db_lrd fp key).
Proof. intros cfg w. unfold g_db_lrd. cbn [with_config g_db]. now destruct (g_db w). Qed.

Lemma config_blind_get_consensusDLTS : config_blind get_consensusDLTS.
Proof. now intros cfg w. Qed.

Lemma config_blind_for_each {A : Type} (l : list A) (body : A -> M unit) :
  (forall x, config_blind (body x)) -> config_blind (for_each l body).
Proof.
  intros Hbody. induction l as [|x rest IH]; [apply config_blind_ret|].
  cbn [for_each]. apply config_blind_bind; [apply Hbody|intros _; exact IH].
Qed.

Lemma config_blind_if {A : Type} (b : bool) (m1 m2 : M A) :
  config_blind m1 -> config_blind m2 -> config_blind (if b then m1 else m2).
Proof. now destruct b. Qed.

Ltac blind :=
  repeat first
    [ apply config_blind_bind; [|intros ?]
    | apply config_blind_for_each; intros ?
    | apply config_blind_if
    | apply config_blind_ret
    | apply config_blind_db_call
    | apply config_blind_g_db_lrd
    | apply config_blind_get_consensusDLTS ].

Lemma config_blind_updateRelayAddressesIfNeeded (relay : TorRelayDetails) :
  config_blind (updateRelayAddressesIfNeeded relay).
Proof. unfold updateRelayAddressesIfNeeded, sync_address, db_exec. blind. Qed.

Lemma config_blind_addNewTorRelayToDB (relay : TorRelayDetails) :
  config_blind (addNewTorRelayToDB relay).
Proof.
  unfold addNewTorRelayToDB. blind.
  match goal with |- config_blind (match ?r with _ => _ end) => destruct r end.
  - now intros cfg w.
  - unfold addNewRelayAddresses, add_address, db_exec. blind.
Qed.

Lemma config_blind_reconcileRelay (relay : TorRelayDetails) :
  config_blind (reconcileRelay relay).
Proof.
  intros cfg w. unfold reconcileRelay. cbn [with_config g_db g_consensusDLTS].
  destruct (g_db w) as [db|]; [|reflexivity].
  destruct (recordsMatch _ _).
  - destruct (String.eqb _ _); [reflexivity|]. destruct (String.ltb _ _); [reflexivity|].
    assert (Hb : config_blind
              (updateRelayAddressesIfNeeded (trim_Contact relay) ;;;
               id <- g_db_lrd (Fingerprint (trim_Contact relay)) "id" ;;
               dlts <- get_consensusDLTS ;;
               db_exec (call_updateTorRelayRLS id dlts) (updateTorRelayRLS id dlts))).
    { apply config_blind_bind; [apply config_blind_updateRelayAddressesIfNeeded|intros _].
      unfold db_exec. blind. }
    apply Hb.
  - apply config_blind_addNewTorRelayToDB.
Qed.

(** X14. The configuration that [processTorResponse] reads.  Its outcome
    and its calls on the database depend on the configuration through the
    flag filter [Filter.matchFlags] alone: under any other configuration
    with the same filter the run is the same.  In particular
    [Filter.Running] and [Filter.Hibernating], set by the options [-run]
    and [-hib], do not select anything. *)
Theorem processing_reads_only_the_flag_filter (tor_response : TorResponse)
    (cfg : TorHistoryConfig) (w : World) :
  matchFlags (Filter cfg) = matchFlags (Filter (g_config w)) ->
  processTorResponse tor_response (with_config cfg w)
  = (fst (processTorResponse tor_response w),
     with_config cfg (snd (processTorResponse tor_response w))).
Proof.
  intros Hflt. unfold processTorResponse. revert w Hflt.
  induction (Relays tor_response) as [|relay rest IH]; intros w Hflt; [reflexivity|].
  cbn [for_each]. unfold bind.
  assert (Hone : processRelay relay (with_config cfg w)
                 = (fst (processRelay relay w), with_config cfg (snd (processRelay relay w)))).
  { unfold processRelay. cbn [with_config g_config g_db]. rewrite Hflt.
    destruct (negb _); [reflexivity|].
    destruct (g_db w) as [db|]; [|reflexivity].
    destruct (initialized db); [|reflexivity].
    apply config_blind_reconcileRelay. }
  rewrite Hone.
  destruct (processRelay_frame relay w) as (_ & _ & _ & Hcfg & _).
  destruct (processRelay relay w) as [[[]|msg|msg] w1]; cbn [fst snd] in *;
    [|reflexivity|reflexivity].
  apply IH. now rewrite Hcfg.
Qed.

(** ** Calls that a computation adds *)

Lemma adds_only_ret {A : Type} (P : DBCall -> Prop) (a : A) : adds_only P (ret a).
Proof. intros w. exists []. cbn. now rewrite app_nil_r. Qed.

Lemma adds_only_state {A : Type} (P : DBCall -> Prop) (m : M A) :
  (forall w, db_calls (snd (m w)) = db_calls w) -> adds_only P m.
Proof. intros Hm w. exists []. now rewrite Hm, app_nil_r. Qed.

Lemma adds_only_bind {A C : Type} (P : DBCall -> Prop) (m : M A) (k : A -> M C) :
  adds_only P m -> (forall a, adds_only P (k a)) -> adds_only P (bind m k).
Proof.
  intros Hm Hk w. unfold bind. destruct (Hm w) as (c1 & Hc1 & HP1).
  destruct (m w) as [[a|msg|msg] w1]; cbn [snd] in *; [|now exists c1|now exists c1].
  destruct (Hk a w1) as (c2 & Hc2 & HP2). exists (c1 ++ c2).
  rewrite Hc2, Hc1, <- app_assoc. split; [reflexivity|now apply Forall_app].
Qed.

Lemma adds_only_db_call {A : Type} (P : DBCall -> Prop) (c : DBCall)
    (method : DB -> A * DB) :
  P c -> adds_only P (db_call c method).
Proof.
  intros Hc w. unfold db_call. destruct (g_db w) as [db|].
  - destruct (method db) as [a db']. exists [c]. split; [reflexivity|now constructor].
  - exists []. cbn. now rewrite app_nil_r.
Qed.

Lemma adds_only_if {A : Type} (P : DBCall -> Prop) (b : bool) (m1 m2 : M A) :
  adds_only P m1 -> adds_only P m2 -> adds_only P (if b then m1 else m2).
Proof. now destruct b. Qed.

Lemma getConsensusDLTimestamp_state (filename : string) (w : World) :
  snd (getConsensusDLTimestamp filename w) = w.
Proof.
  unfold getConsensusDLTimestamp.
  destruct (negb _ && _); [reflexivity|].
  destruct (ts_candidates _ _); try reflexivity.
  now destruct (matchTimestampToFormats _ _).
Qed.

Lemma adds_only_initializeCaches (P : DBCall -> Prop) :
  P call_initCaches -> P call_initCountryNameCache ->
  (forall dlts, P (call_initializeLatestRelayDataCache dlts)) ->
  adds_only P initializeCaches.
Proof.
  intros H1 H2 H3 w. unfold initializeCaches.
  destruct (Enabled _).
  - revert w. change (adds_only P
      (db_exec call_initCaches initCaches ;;;
       db_exec call_initCountryNameCache initCountryNameCache ;;;
       dlts <- get_consensusDLTS ;;
       db_exec (call_initializeLatestRelayDataCache dlts)
               (initializeLatestRelayDataCache dlts))).
    unfold db_exec.
    repeat (apply adds_only_bind; [|intros ?]);
      try (now apply adds_only_db_call); try (now apply adds_only_state).
  - exists []. cbn. now rewrite app_nil_r.
Qed.

Lemma adds_only_refreshCaches (P : DBCall -> Prop) (num : Z) :
  P call_initCaches -> P call_initCountryNameCache ->
  (forall dlts, P (call_initializeLatestRelayDataCache dlts)) ->
  adds_only P (refreshCaches num).
Proof.
  intros H1 H2 H3 w. unfold refreshCaches. cbv zeta.
  destruct (_ =? 0); [exists []; cbn; now rewrite app_nil_r|].
  destruct (_ =? 0); [now apply adds_only_initializeCaches|].
  revert w. change (adds_only P reloadLatestRelayDataCache).
  unfold reloadLatestRelayDataCache, db_exec.
  apply adds_only_bind; [now apply adds_only_state|intros dlts].
  now apply adds_only_db_call.
Qed.

Lemma adds_only_logDataImport (P : DBCall -> Prop) (tor_response : TorResponse) :
  (forall v r b dlts, P (call_addToTorQueries v r b dlts)) ->
  adds_only P (logDataImport tor_response).
Proof.
  intros HP w. unfold logDataImport.
  destruct (g_db w) as [db|] eqn:Hdb; [|exists []; cbn; now rewrite app_nil_r].
  destruct (initialized db); [|exists []; cbn; now rewrite app_nil_r].
  unfold bind, get_consensusDLTS, db_exec, db_call. rewrite Hdb.
  exists [call_addToTorQueries (Response_Version tor_response) (Relays_published tor_response)
            (Bridges_published tor_response) (g_consensusDLTS w)].
  split; [reflexivity|]. constructor; [apply HP|constructor].
Qed.

Lemma returns_bind {A C : Type} (Q : C -> Prop) (m : M A) (k : A -> M C) :
  (forall a w r w', k a w = (Done r, w') -> Q r) ->
  forall w r w', bind m k w = (Done r, w') -> Q r.
Proof.
  intros Hk w r w'. unfold bind.
  destruct (m w) as [[a|msg|msg] w1]; [apply Hk|discriminate|discriminate].
Qed.

(** X16. A file that repeats the one before it.  In the loop of [main], a
    file after the first whose relays are those of the previous file (no
    fingerprint twice, every record deeply equal to itself) writes no
    relay data: whatever the state, the loop body adds only cache loads
    and the log of the import to the calls on the database, and when it
    returns the file is the next previous one. *)
Theorem repeated_file_writes_no_relay (num : Z) (fn : string)
    (decoded previous_tor_response : TorResponse) (w : World) :
  num <> 0 ->
  Relays decoded = Relays previous_tor_response ->
  NoDup (map Fingerprint (Relays decoded)) ->
  (forall n, In n (Relays decoded) -> DeepEqual n n = true) ->
  (exists calls,
     db_calls (snd (main_loop_body num fn decoded previous_tor_response w))
     = db_calls w ++ calls /\
     Forall (fun c => is_relay_write c = false) calls) /\
  (forall r w',
     main_loop_body num fn decoded previous_tor_response w = (Done r, w') -> r = decoded).
Proof.
  intros Hnum Hsame Hnd Hrefl.
  assert (Hshort : main_shortcut num previous_tor_response decoded
                   = Done (decoded, set_Relays decoded [])).
  { unfold main_shortcut. rewrite (proj2 (Z.eqb_neq _ _) Hnum). cbn [negb].
    now rewrite <- Hsame, (extract_same_snapshot _ Hnd Hrefl). }
  unfold main_loop_body. rewrite Hshort. split.
  - revert w.
    change (adds_only (fun c => is_relay_write c = false)
      (dlts <- getConsensusDLTimestamp fn ;;
       set_consensusDLTS dlts ;;;
       refreshCaches num ;;;
       logDataImport (set_Relays decoded []) ;;;
       processTorResponse (set_Relays decoded []) ;;;
       ret decoded)).
    apply adds_only_bind;
      [apply adds_only_state; intros w; now rewrite getConsensusDLTimestamp_state|intros dlts].
    apply adds_only_bind; [now apply adds_only_state|intros _].
    apply adds_only_bind; [now apply adds_only_refreshCaches|intros _].
    apply adds_only_bind; [now apply adds_only_logDataImport|intros _].
    apply adds_only_bind; [apply adds_only_ret|intros _; apply adds_only_ret].
  - revert w.
    apply returns_bind; intros dlts. apply returns_bind; intros _.
    apply returns_bind; intros _. apply returns_bind; intros _.
    apply returns_bind; intros _. intros w r w' [= <- _]. reflexivity.
Qed.

End EngineProperties.

(** * The node filter, the configuration and [main] *)

Section ProgramProperties.

Context {L : GoLib} {B : DBBackend} {O : GoOS}.

(** ** The node filter option *)

Lemma append_cons (c : ascii) (x y : string) : String c x +:+ y = String c (x +:+ y).
Proof. reflexivity. Qed.

Lemma strings_Split_nonempty (s : string) (sep : ascii) : strings_Split s sep <> [].
Proof.
  destruct s as [|c rest]; cbn [strings_Split]; [discriminate|].
  destruct (Ascii.eqb c sep); [discriminate|].
  destruct (strings_Split rest sep); discriminate.
Qed.

Lemma join_strings_Split (s : string) (sep : ascii) :
  GoString.join (String sep EmptyString) (strings_Split s sep) = s.
Proof.
  induction s as [|c rest IH]; [reflexivity|].
  cbn [strings_Split].
  pose proof (strings_Split_nonempty rest sep) as Hne.
  destruct (Ascii.eqb_spec c sep) as [->|Hc].
  - destruct (strings_Split rest sep) as [|p ps]; [congruence|].
    change (GoString.join (String sep EmptyString) (EmptyString :: p :: ps))
      with (String sep (GoString.join (String sep EmptyString) (p :: ps))).
    now rewrite IH.
  - destruct (strings_Split rest sep) as [|p [|q qs]]; [congruence| |].
    + cbn [GoString.join] in *. now rewrite IH.
    + change (GoString.join (String sep EmptyString) (String c p :: q :: qs))
        with (String c (GoString.join (String sep EmptyString) (p :: q :: qs))).
      now rewrite IH.
Qed.

Lemma strings_Split_free (s : string) (sep : ascii) :
  Forall (fun piece => ~ In sep (list_ascii_of_string piece)) (strings_Split s sep).
Proof.
  induction s as [|c rest IH]; cbn [strings_Split].
  - constructor; [intros []|constructor].
  - destruct (Ascii.eqb_spec c sep) as [->|Hc].
    + constructor; [intros []|exact IH].
    + destruct (strings_Split rest sep) as [|p ps].
      * constructor; [|constructor]. intros [Heq|[]]. now apply Hc.
      * inversion IH as [|p' ps' Hp Hps]; subst. constructor; [|exact Hps].
        intros [Heq|Hin]; [now apply Hc|now apply Hp].
Qed.

Lemma strings_Split_whole (x : string) (sep : ascii) :
  ~ In sep (list_ascii_of_string x) -> strings_Split x sep = [x].
Proof.
  induction x as [|c x IH]; intros Hfree; [reflexivity|].
  cbn [strings_Split]. destruct (Ascii.eqb_spec c sep) as [->|Hc].
  - exfalso. apply Hfree. now left.
  - rewrite IH; [reflexivity|]. intros Hin. apply Hfree. now right.
Qed.

Lemma strings_Split_piece (x rest : string) (sep : ascii) :
  ~ In sep (list_ascii_of_string x) ->
  strings_Split (x +:+ String sep rest) sep = x :: strings_Split rest sep.
Proof.
  induction x as [|c x IH]; intros Hfree.
  - change (EmptyString +:+ String sep rest) with (String sep rest).
    cbn [strings_Split]. now rewrite Ascii.eqb_refl.
  - rewrite append_cons. cbn [strings_Split].
    destruct (Ascii.eqb_spec c sep) as [->|Hc].
    + exfalso. apply Hfree. now left.
    + rewrite IH; [reflexivity|]. intros Hin. apply Hfree. now right.
Qed.

Lemma strings_Split_join (pieces : list string) (sep : ascii) :
  pieces <> [] ->
  Forall (fun piece => ~ In sep (list_ascii_of_string piece)) pieces ->
  strings_Split (GoString.join (String sep EmptyString) pieces) sep = pieces.
Proof.
  induction pieces as [|p [|q qs] IH]; intros Hne Hfree; [congruence| |].
  - apply strings_Split_whole. now inversion Hfree.
  - change (GoString.join (String sep EmptyString) (p :: q :: qs))
      with (p +:+ String sep (GoString.join (String sep EmptyString) (q :: qs))).
    inversion Hfree as [|p' l' Hp Hrest]; subst.
    rewrite strings_Split_piece by exact Hp. rewrite IH; [reflexivity|discriminate|exact Hrest].
Qed.

Lemma allStringsInSetMatch_In (needles set : slice string) :
  allStringsInSetMatch needles set = true <->
  forall n, In n (elems needles) -> In n (elems set).
Proof.
  unfold allStringsInSetMatch, slice_len.
  destruct (elems needles) as [|x l] eqn:El.
  - simpl. split; [intros _ n []|reflexivity].
  - change (Z.of_nat (length (x :: l)) =? 0) with false. cbv iota.
    rewrite forallb_forall. split.
    + intros Hall n Hin. apply Hall in Hin. apply existsb_exists in Hin as (y & Hy & Heq).
      apply String.eqb_eq in Heq. now subst.
    + intros Hall n Hin. apply existsb_exists. exists n. split; [now apply Hall|].
      apply String.eqb_refl.
Qed.

(** X15. The option [-filter].  An empty filter text gives the nil filter,
    which every record passes.  Any other text is cut at its commas: the
    pieces, joined by commas, give the text back, none holds a comma, and
    a record passes exactly when every piece is one of its flags.  The
    pieces are taken as they stand, blanks and empty pieces included: the
    filter made from a list of pieces without commas is that list. *)
Theorem node_filter_option (nodeFilter : string) (flags : slice string) :
  (nodeFilter = EmptyString ->
   parseNodeFilters nodeFilter = None /\
   allStringsInSetMatch (parseNodeFilters nodeFilter) flags = true) /\
  (nodeFilter <> EmptyString ->
   exists pieces,
     parseNodeFilters nodeFilter = Some pieces /\
     GoString.join "," pieces = nodeFilter /\
     Forall comma_free pieces /\
     (allStringsInSetMatch (parseNodeFilters nodeFilter) flags = true <->
      forall piece, In piece pieces -> In piece (elems flags))) /\
  (forall pieces : list string,
     Forall comma_free pieces ->
     GoString.join "," pieces <> EmptyString ->
     parseNodeFilters (GoString.join "," pieces) = Some pieces).
Proof.
  split; [|split].
  - intros ->. split; reflexivity.
  - intros Hne. exists (strings_Split nodeFilter ","%char).
    assert (Hparse : parseNodeFilters nodeFilter = Some (strings_Split nodeFilter ","%char)).
    { unfold parseNodeFilters. now rewrite (proj2 (String.eqb_neq _ _) Hne). }
    split; [exact Hparse|]. split; [apply join_strings_Split|].
    split; [apply strings_Split_free|].
    rewrite Hparse. apply allStringsInSetMatch_In.
  - intros pieces Hfree Hne. unfold parseNodeFilters.
    rewrite (proj2 (String.eqb_neq _ _) Hne). f_equal.
    apply strings_Split_join; [|exact Hfree]. intros ->. now apply Hne.
Qed.

(** ** The command line *)

Lemma head_test_on_defaults : import_options_without_file flag_defaults = false.
Proof. reflexivity. Qed.

Lemma nonempty_true (s : string) : nonempty s = true <-> s <> EmptyString.
Proof.
  unfold nonempty. destruct (String.eqb_spec s EmptyString) as [->|Hne]; cbn; split;
    congruence.
Qed.

Lemma nonempty_false (s : string) : nonempty s = false <-> s = EmptyString.
Proof.
  unfold nonempty. destruct (String.eqb_spec s EmptyString) as [->|Hne]; cbn; split;
    congruence.
Qed.

Lemma len_pos_nonempty (s : string) : (0 <? GoString.len s) = nonempty s.
Proof. now destruct s. Qed.

(** The file stage keeps a verbosity given on the command line. *)
Lemma parseCmdlnArguments_file_Verbosity (args : CmdLine) (cfg cfg1 : ProgramConfig) :
  parseCmdlnArguments_file args cfg = Done cfg1 ->
  flag_verbosity args <> 0 -> Verbosity cfg1 = flag_verbosity args.
Proof.
  unfold parseCmdlnArguments_file, parseConfigFile. cbv zeta. intros Hrun Hv.
  destruct (nonempty (flag_cfgFilename args)); [|now injection Hrun as <-].
  destruct (String.eqb _ _); [now injection Hrun as <-|].
  destruct (os_Open _) as [f|]; [|discriminate].
  destruct (yaml_Decode f _) as [err|cfg2]; [discriminate|].
  cbn [Verbosity with_Quiet with_Verbosity] in Hrun.
  rewrite (proj2 (Z.eqb_neq _ _) Hv) in Hrun. now injection Hrun as <-.
Qed.

Ltac settle H :=
  unfold parseCmdlnArguments_settings in H; cbv zeta in H;
  rewrite ?len_pos_nonempty in H;
  repeat match type of H with
         | context [if ?b then _ else _] =>
           lazymatch b with
           | context [if _ then _ else _] => fail
           | _ => let E := fresh "E" in
                  destruct b eqn:E;
                  cbn [ExtractDLTfromFilename ConsensusDLT ExtractDLTfromFilename_regex
                       andb orb] in H
           end
         end.

(** X17. The settings that the command line decides.  In a configuration
    that [parseCmdlnArguments] accepts, the timestamp override, its format
    and the file name pattern are those of the command line, extraction is
    on exactly when its flag or a pattern is given and never together with
    an override, the refresh interval is that of [-reinit-caches-every],
    the consensus address is not empty, an import file, a backup file and
    a non-zero verbosity given on the command line are kept, and the
    filters are those of the command line; whatever the configuration
    file holds for these settings is overwritten. *)
Theorem command_line_decides (args : CmdLine) (cfg cfg' : ProgramConfig) :
  parseCmdlnArguments args cfg = Done cfg' ->
  let tor := Tor (Engine cfg') in
  ConsensusDLT tor = flag_consensusDownloadTime args /\
  ConsensusDLT_fmt tor = flag_consensusDownloadTime_fmt args /\
  ExtractDLTfromFilename_regex tor = flag_extractCDLTfromFilenameRegEx args /\
  ExtractDLTfromFilename tor
  = flag_extractCDLTfromFilename args || nonempty (flag_extractCDLTfromFilenameRegEx args) /\
  ExtractDLTfromFilename tor && nonempty (ConsensusDLT tor) = false /\
  ConsensusURL tor <> EmptyString /\
  (flag_import_file args <> EmptyString -> Filename tor = flag_import_file args) /\
  ReInitCaches (DBServer (Engine cfg')) = flag_reinitCaches args /\
  (flag_verbosity args <> 0 -> Verbosity cfg' = flag_verbosity args) /\
  (flag_backup args <> EmptyString ->
   BackupOptions cfg' = mkBackupConfig (flag_backup args) (flag_backupGzip args)) /\
  Filter (Engine cfg')
  = mkFilterConfig (flag_Running args) (flag_Hibernating args)
                   (parseNodeFilters (flag_NodeFilter args)).
Proof.
  intros Hrun. unfold parseCmdlnArguments in Hrun.
  rewrite head_test_on_defaults in Hrun.
  destruct (parseCmdlnArguments_file args cfg) as [cfg1|msg|msg] eqn:Hfile; try discriminate.
  pose proof (parseCmdlnArguments_file_Verbosity args cfg cfg1 Hfile) as Hverb.
  settle Hrun; try discriminate; injection Hrun as <-; cbn;
    repeat split; try reflexivity; try assumption; try discriminate;
    try (symmetry; apply orb_true_r); try (symmetry; apply orb_false_r);
    try (apply String.eqb_neq; assumption);
    intros Hne; exfalso;
    match goal with
    | Hempty : nonempty ?s = false |- _ => apply nonempty_false in Hempty; congruence
    end.
Qed.


(** X18. The database settings of an accepted configuration are complete
    or absent.  When [parseCmdlnArguments] returns, host, port, database
    name and user name are all set and the backend is enabled, or all of
    them and the password are empty; settings that are there in part end
    the program with a text that shows [<redacted>] in place of the
    password; and from the zero configuration without a configuration
    file the backend stays off, as no flag sets it. *)
Theorem database_settings_all_or_nothing (args : CmdLine) (cfg : ProgramConfig) :
  (forall cfg', parseCmdlnArguments args cfg = Done cfg' ->
     let db := DBServer (Engine cfg') in
     (Host db <> EmptyString /\ Port db <> EmptyString /\ DBName db <> EmptyString /\
      Username db <> EmptyString /\ Enabled db = true) \/
     (Host db = EmptyString /\ Port db = EmptyString /\ DBName db = EmptyString /\
      Username db = EmptyString /\ Password db = EmptyString)) /\
  (forall cfg1, parseCmdlnArguments_file args cfg = Done cfg1 ->
     let db := DBServer (Engine cfg1) in
     (flag_extractCDLTfromFilename args || nonempty (flag_extractCDLTfromFilenameRegEx args))
     && nonempty (flag_consensusDownloadTime args) = false ->
     nonempty (Host db) && nonempty (Port db) && nonempty (DBName db)
     && nonempty (Username db) = false ->
     nonempty (Host db) || nonempty (Port db) || nonempty (DBName db)
     || nonempty (Username db) || nonempty (Password db) = true ->
     parseCmdlnArguments args cfg
     = Fatal ("Incomplete database configuation." +:+ line_feed +:+
              "Database configutation:  Host: " +:+ Host db +:+ line_feed +:+
              "  Port: " +:+ Port db +:+ line_feed +:+
              "  DB Name: " +:+ DBName db +:+ line_feed +:+
              "  Username: " +:+ Username db +:+ line_feed +:+
              "  Password: <redacted>" +:+ line_feed)) /\
  (forall cfg', flag_cfgFilename args = EmptyString ->
     init args = Done cfg' -> Enabled (DBServer (Engine cfg')) = false).
Proof.
  split; [|split].
  - intros cfg' Hrun. unfold parseCmdlnArguments in Hrun.
    rewrite head_test_on_defaults in Hrun.
    destruct (parseCmdlnArguments_file args cfg) as [cfg1|msg|msg]; try discriminate.
    unfold parseCmdlnArguments_settings in Hrun. cbv zeta in Hrun.
    cbn [DBServer Engine with_Backup Host Port DBName Username Password] in Hrun.
    assert (Hdb : DBServer (Engine (if nonempty (flag_backup args)
                    then with_Backup (mkBackupConfig (flag_backup args) (flag_backupGzip args))
                                     cfg1
                    else cfg1)) = DBServer (Engine cfg1))
      by now destruct (nonempty (flag_backup args)).
    rewrite !Hdb in Hrun.
    destruct (_ && (0 <? _)); [discriminate|].
    destruct (nonempty (Host (DBServer (Engine cfg1)))) eqn:EH;
      destruct (nonempty (Port (DBServer (Engine cfg1)))) eqn:EP;
      destruct (nonempty (DBName (DBServer (Engine cfg1)))) eqn:EN;
      destruct (nonempty (Username (DBServer (Engine cfg1)))) eqn:EU;
      destruct (nonempty (Password (DBServer (Engine cfg1)))) eqn:EW;
      cbn [andb orb] in Hrun; try discriminate; injection Hrun as <-; cbn;
      rewrite ?nonempty_true, ?nonempty_false in *; tauto.
  - intros cfg1 Hfile db Hflags Hpart Hsome. unfold parseCmdlnArguments.
    rewrite head_test_on_defaults, Hfile.
    unfold parseCmdlnArguments_settings, fmtDBCfg. cbv zeta. rewrite !len_pos_nonempty.
    subst db. destruct cfg1 as [v q [dbs tor flt] bk pr].
    cbn [Engine DBServer] in Hpart, Hsome.
    destruct (nonempty (flag_backup args));
      cbn [with_Backup with_DBServer with_Tor Engine DBServer Tor Host Port DBName Username
           Password Enabled ReInitCaches ExtractDLTfromFilename_regex ConsensusDLT];
      (destruct (nonempty (flag_extractCDLTfromFilenameRegEx args));
       cbn [ExtractDLTfromFilename ConsensusDLT andb];
       rewrite ?orb_true_r, ?orb_false_r in Hflags; cbn [andb] in Hflags;
       rewrite Hflags, Hpart, Hsome; f_equal; rewrite !append_assoc; reflexivity).
  - intros cfg' Hnofile Hrun. unfold init, parseCmdlnArguments in Hrun.
    rewrite head_test_on_defaults in Hrun.
    unfold parseCmdlnArguments_file in Hrun. cbv zeta in Hrun.
    rewrite (proj2 (nonempty_false _) Hnofile) in Hrun.
    unfold parseCmdlnArguments_settings in Hrun. cbv zeta in Hrun.
    destruct (nonempty (flag_backup args)); cbn in Hrun;
      (destruct (_ && _); [discriminate|]); injection Hrun as <-; reflexivity.
Qed.

(** X19. The test at the head of [parseCmdlnArguments] does not reject
    anything.  It reads the flag variables before [flag.Parse()] has
    filled them, so the program never ends with its text; and a command
    line with [-consensus-download-time] and a format but without
    [-import-data-file] is accepted: the configuration keeps the override
    and names no file, so that [main] downloads the consensus. *)
Theorem import_options_test_never_fails (args : CmdLine) (cfg : ProgramConfig) :
  (forall msg, parseCmdlnArguments args cfg = Fatal msg -> msg <> incompatible_argument) /\
  (flag_import_file args = EmptyString ->
   flag_cfgFilename args = EmptyString ->
   flag_extractCDLTfromFilename args = false ->
   flag_extractCDLTfromFilenameRegEx args = EmptyString ->
   exists cfg',
     init args = Done cfg' /\
     Filename (Tor (Engine cfg')) = EmptyString /\
     ConsensusDLT (Tor (Engine cfg')) = flag_consensusDownloadTime args /\
     ConsensusDLT_fmt (Tor (Engine cfg')) = flag_consensusDownloadTime_fmt args /\
     ExtractDLTfromFilename (Tor (Engine cfg')) = false).
Proof.
  split.
  - intros msg Hrun ->. unfold parseCmdlnArguments in Hrun.
    rewrite head_test_on_defaults in Hrun.
    destruct (parseCmdlnArguments_file args cfg) as [cfg1|msg|msg] eqn:Hfile;
      try discriminate.
    + settle Hrun; discriminate.
    + injection Hrun as ->.
      unfold parseCmdlnArguments_file, parseConfigFile in Hfile. cbv zeta in Hfile.
      destruct (nonempty _); [|discriminate].
      destruct (String.eqb _ _); [discriminate|].
      destruct (os_Open _) as [f|].
      * destruct (yaml_Decode f _); [|discriminate].
        injection Hfile as Hfile. unfold incompatible_argument in Hfile.
        cbv [String.append] in Hfile. discriminate.
      * injection Hfile as Hfile. unfold incompatible_argument in Hfile.
        cbv [String.append] in Hfile. discriminate.
  - intros Himport Hnofile Hextract Hregex. unfold init, parseCmdlnArguments.
    rewrite head_test_on_defaults. unfold parseCmdlnArguments_file. cbv zeta.
    rewrite (proj2 (nonempty_false _) Hnofile).
    unfold parseCmdlnArguments_settings. cbv zeta.
    rewrite (proj2 (nonempty_false _) Himport), Hextract, Hregex.
    destruct (nonempty (flag_backup args)); cbn; eexists; repeat split.
Qed.

(** ** [main] *)

Lemma processTorResponse_no_database (tor_response : TorResponse) (w : World) :
  g_db w = None -> processTorResponse tor_response w = (Done tt, w).
Proof.
  intros Hdb. unfold processTorResponse.
  induction (Relays tor_response) as [|relay rest IH]; [reflexivity|].
  cbn [for_each]. unfold bind at 1, processRelay at 1. rewrite Hdb.
  now destruct (negb _).
Qed.

Lemma getConsensusDLTimestamp_run (fn : string) (w : World) :
  getConsensusDLTimestamp fn w = (fst (getConsensusDLTimestamp fn w), w).
Proof.
  rewrite <- (getConsensusDLTimestamp_state fn w) at 3. now destruct (getConsensusDLTimestamp fn w).
Qed.

(** The timestamp of a file depends on the configuration only. *)
Lemma getConsensusDLTimestamp_config (fn : string) (w w' : World) :
  g_config w' = g_config w ->
  fst (getConsensusDLTimestamp fn w') = fst (getConsensusDLTimestamp fn w).
Proof.
  intros Hcfg. unfold getConsensusDLTimestamp. rewrite Hcfg.
  destruct (negb _ && _); [reflexivity|].
  destruct (ts_candidates _ _); try reflexivity.
  now destruct (matchTimestampToFormats _ _).
Qed.

(** The first file of an import without database: its records make no
    call and the state only takes the timestamp of the file. *)
Lemma main_loop_body_offline_first (fn : string) (decoded previous : TorResponse)
    (w : World) :
  offline w ->
  main_loop_body 0 fn decoded previous w
  = match fst (getConsensusDLTimestamp fn w) with
    | Done dlts => (Done decoded, snd (set_consensusDLTS dlts w))
    | Panic msg => (Panic msg, w)
    | Fatal msg => (Fatal msg, w)
    end.
Proof.
  intros (Hdb & Hoff & HK). unfold main_loop_body. unfold bind at 1.
  rewrite (getConsensusDLTimestamp_run fn w).
  destruct (fst (getConsensusDLTimestamp fn w)) as [dlts|msg|msg]; try reflexivity.
  unfold bind at 1. cbn [set_consensusDLTS]. unfold bind at 1.
  rewrite (refreshCaches_offline 0 w); [|lia|lia|reflexivity|first [exact Hdb|reflexivity]|exact Hoff].
  change (shouldFullyRebuild 0 _) with true. cbv iota.
  cbn [main_shortcut Z.eqb negb]. unfold bind at 1, logDataImport at 1.
  cbn [g_db]. rewrite Hdb. unfold bind at 1.
  rewrite processTorResponse_no_database by reflexivity.
  cbn [fst snd set_consensusDLTS]. unfold ret. now rewrite Hdb.
Qed.

Lemma aborted_Panic {A : Type} (msg : string) (w : World) :
  aborted (Panic msg : Outcome A, w).
Proof. exists msg, w. now left. Qed.

Lemma aborted_Fatal {A : Type} (msg : string) (w : World) :
  aborted (Fatal msg : Outcome A, w).
Proof. exists msg, w. now right. Qed.

(** Every later file of an import without database ends the run. *)
Lemma main_loop_offline_later (num : Z) (fn : string) (rest : list string)
    (previous : TorResponse) (w : World) :
  offline w ->
  shouldFullyRebuild num (ReInitCaches (DBServer (g_config w))) = false ->
  0 <= num ->
  aborted (main_loop num (fn :: rest) previous w).
Proof.
  intros (Hdb & Hoff & HK) Hnot Hnum.
  assert (Hhead : forall (A : Type) (k : unit -> M A),
            aborted ((dlts <- getConsensusDLTimestamp fn ;;
                      set_consensusDLTS dlts ;;;
                      refreshCaches num ;;;
                      k tt) w)).
  { intros A k. unfold bind at 1. rewrite (getConsensusDLTimestamp_run fn w).
    destruct (fst (getConsensusDLTimestamp fn w)) as [dlts|msg|msg];
      [|apply aborted_Panic|apply aborted_Fatal].
    unfold bind at 1. cbn [set_consensusDLTS]. unfold bind at 1.
    rewrite (refreshCaches_offline num w);
      [|lia|lia|reflexivity|first [exact Hdb|reflexivity]|exact Hoff].
    rewrite Hnot. apply aborted_Panic. }
  cbn [main_loop]. destruct (getConsensus false fn) as [decoded|msg|msg].
  - unfold bind at 1. unfold main_loop_body.
    destruct (Hhead TorResponse
                (fun _ => match main_shortcut num previous decoded with
                          | Done (previous0, tor_response) =>
                            logDataImport tor_response ;;;
                            processTorResponse tor_response ;;;
                            ret previous0
                          | Panic msg => panic msg
                          | Fatal msg => log_Fatal msg
                          end)) as (msg & w' & [Hrun|Hrun]);
      rewrite Hrun; [apply aborted_Panic|apply aborted_Fatal].
  - apply (Hhead unit (fun _ => panic msg)).
  - apply (Hhead unit (fun _ => log_Fatal msg)).
Qed.

(** X20. What [main] refuses before it touches the database.  With a file
    name pattern that is malformed or matches no file, and with several
    files together with [-consensus-download-time], the program ends by
    [log.Fatal] and the state is as it was: no call on the database. *)
Theorem import_is_refused (w : World) :
  Filename (Tor (g_config w)) <> EmptyString ->
  (filepath_Glob (Filename (Tor (g_config w))) = None \/
   filepath_Glob (Filename (Tor (g_config w))) = Some [] ->
   main w = (Fatal ("Bad filename pattern: " +:+ Filename (Tor (g_config w))), w)) /\
  (forall first second others,
     filepath_Glob (Filename (Tor (g_config w))) = Some (first :: second :: others) ->
     ConsensusDLT (Tor (g_config w)) <> EmptyString ->
     main w
     = (Fatal "Bulk import detected however -consensus-download-time is also specified.",
        w)).
Proof.
  intros Hfile. unfold main, main_import.
  rewrite (proj2 (String.eqb_neq _ _) Hfile). split.
  - now intros [-> | ->].
  - intros first second others -> Hdlt. unfold bind at 1, main_bulk_checks.
    change (1 <? Z.of_nat (length (first :: second :: others)))
      with (1 <? Z.of_nat (S (S (length others)))).
    rewrite (proj2 (Z.ltb_lt _ _)) by lia.
    now rewrite (proj2 (nonempty_true _) Hdlt).
Qed.

(** X21. A bulk import takes its timestamps from the file names.  With
    several files and no override, [main] runs as it does when
    [-extract-consensus-download-time-from-filename] is given: the
    extraction is switched on before the first timestamp is taken. *)
Theorem bulk_import_extracts_timestamps (w : World) (first second : string)
    (others : list string) :
  Filename (Tor (g_config w)) <> EmptyString ->
  filepath_Glob (Filename (Tor (g_config w))) = Some (first :: second :: others) ->
  ConsensusDLT (Tor (g_config w)) = EmptyString ->
  main w = main (snd (set_ExtractDLTfromFilename w)) /\
  ExtractDLTfromFilename (Tor (g_config (snd (set_ExtractDLTfromFilename w)))) = true.
Proof.
  intros Hfile Hglob Hdlt. split; [|reflexivity].
  unfold main, main_import. cbn [set_ExtractDLTfromFilename snd with_config g_config Tor Filename].
  rewrite (proj2 (String.eqb_neq _ _) Hfile), Hglob.
  unfold bind at 1 3, main_bulk_checks.
  change (1 <? Z.of_nat (length (first :: second :: others)))
    with (1 <? Z.of_nat (S (S (length others)))).
  rewrite (proj2 (Z.ltb_lt _ _)) by lia.
  cbn [with_config g_config Tor ConsensusDLT ExtractDLTfromFilename negb].
  rewrite Hdlt. cbn [nonempty String.eqb negb].
  destruct w as [[dbs [url file dlt fmt extract regex] flt] db dlts calls].
  cbn in Hdlt |- *. subst dlt. now destruct extract.
Qed.

(** X22. A bulk import without database does not get past its second
    file.  When the backend is off ([g_db] nil) and the refresh interval
    is at least 2, an import of two files or more never returns: the run
    ends by [panic] or [log.Fatal], at the latest in the cache refresh of
    the second file, which calls a method of the nil handle. *)
Theorem bulk_import_without_database_fails (w : World) (first second : string)
    (others : list string) :
  Filename (Tor (g_config w)) <> EmptyString ->
  filepath_Glob (Filename (Tor (g_config w))) = Some (first :: second :: others) ->
  offline w ->
  aborted (main w).
Proof.
  intros Hfile Hglob Hoff. unfold main, main_import.
  rewrite (proj2 (String.eqb_neq _ _) Hfile), Hglob.
  unfold bind at 1.
  assert (Hchecks : (exists msg,
             main_bulk_checks (Z.of_nat (length (first :: second :: others))) w
             = (Fatal msg, w)) \/
           (exists w1,
             main_bulk_checks (Z.of_nat (length (first :: second :: others))) w
             = (Done tt, w1) /\ offline w1)).
  { unfold main_bulk_checks. destruct (1 <? _); [|right; now exists w].
    destruct (nonempty _); [left; now eexists|].
    destruct (negb _); [|right; now exists w].
    right. eexists. split; [reflexivity|]. exact Hoff. }
  destruct Hchecks as [(msg & ->)|(w1 & -> & Hoff1)]; [apply aborted_Fatal|].
  clear w Hfile Hglob Hoff. rename w1 into w. pose proof Hoff1 as (Hdb & Hoff & HK).
  unfold bind at 1. rewrite (getConsensusDLTimestamp_run first w).
  destruct (fst (getConsensusDLTimestamp first w)) as [dlts|msg|msg];
    [|apply aborted_Panic|apply aborted_Fatal].
  unfold bind at 1. cbn [set_consensusDLTS]. unfold bind at 1.
  unfold initializeCaches at 1. cbn [g_config]. rewrite Hoff.
  set (w2 := {| g_config := g_config w; g_db := g_db w;
                g_consensusDLTS := dlts; db_calls := db_calls w |}).
  assert (Hoff2 : offline w2) by exact Hoff1.
  assert (Hhead : forall (A : Type) (k : unit -> M A),
            (forall w', aborted (k tt w')) ->
            aborted ((dlts <- getConsensusDLTimestamp first ;;
                      set_consensusDLTS dlts ;;;
                      refreshCaches 0 ;;;
                      k tt) w2)).
  { intros A k Hk. unfold bind at 1. rewrite (getConsensusDLTimestamp_run first w2).
    destruct (fst (getConsensusDLTimestamp first w2)) as [dlts2|msg2|msg2];
      [|apply aborted_Panic|apply aborted_Fatal].
    unfold bind at 1. cbn [set_consensusDLTS]. unfold bind at 1.
    rewrite (refreshCaches_offline 0 w);
      [|lia|lia|reflexivity|first [exact Hdb|reflexivity]|exact Hoff].
    change (shouldFullyRebuild 0 _) with true. cbv iota. apply Hk. }
  cbn [main_loop]. destruct (getConsensus false first) as [decoded|msg|msg].
  - unfold bind at 1. rewrite (main_loop_body_offline_first _ _ _ w2 Hoff2).
    destruct (fst (getConsensusDLTimestamp first w2)) as [dlts2|msg|msg];
      [|apply aborted_Panic|apply aborted_Fatal].
    apply main_loop_offline_later; [exact Hoff1| |lia].
    unfold shouldFullyRebuild, w2. cbn [snd set_consensusDLTS g_config].
    change (0 + 1) with 1. rewrite Z.mod_small by lia. reflexivity.
  - apply (Hhead unit (fun _ => panic msg)). intros w'. apply aborted_Panic.
  - apply (Hhead unit (fun _ => log_Fatal msg)). intros w'. apply aborted_Fatal.
Qed.

Lemma bind_assoc {A C D : Type} (m : M A) (f : A -> M C) (g : C -> M D) (w : World) :
  bind (bind m f) g w = bind m (fun a => bind (f a) g) w.
Proof. unfold bind. now destruct (m w) as [[a|msg|msg] w1]. Qed.

Lemma adds_only_processTorResponse (tor_response : TorResponse) :
  adds_only (fun _ => True) (processTorResponse tor_response).
Proof.
  unfold processTorResponse.
  induction (Relays tor_response) as [|relay rest IH]; [apply adds_only_ret|].
  cbn [for_each]. apply adds_only_bind; [|intros _; exact IH].
  intros w. destruct (processRelay_frame relay w) as (calls & Hcalls & _).
  exists calls. split; [exact Hcalls|]. now apply Forall_forall.
Qed.

Lemma adds_only_main_loop_body (num : Z) (fn : string) (decoded previous : TorResponse) :
  adds_only (fun _ => True) (main_loop_body num fn decoded previous).
Proof.
  unfold main_loop_body.
  apply adds_only_bind;
    [apply adds_only_state; intros w; now rewrite getConsensusDLTimestamp_state|intros dlts].
  apply adds_only_bind; [now apply adds_only_state|intros _].
  apply adds_only_bind; [now apply adds_only_refreshCaches|intros _].
  destruct (main_shortcut num previous decoded) as [[p r]|msg|msg];
    [|now apply adds_only_state|now apply adds_only_state].
  apply adds_only_bind; [now apply adds_only_logDataImport|intros _].
  apply adds_only_bind; [apply adds_only_processTorResponse|intros _; apply adds_only_ret].
Qed.

Lemma adds_only_main_loop (filenames : list string) :
  forall (num : Z) (previous : TorResponse),
    adds_only (fun _ => True) (main_loop num filenames previous).
Proof.
  induction filenames as [|fn rest IH]; intros num previous; [apply adds_only_ret|].
  cbn [main_loop]. destruct (getConsensus false fn) as [decoded|msg|msg].
  - apply adds_only_bind; [apply adds_only_main_loop_body|intros p; apply IH].
  - apply adds_only_bind;
      [apply adds_only_state; intros w; now rewrite getConsensusDLTimestamp_state|intros dlts].
    apply adds_only_bind; [now apply adds_only_state|intros _].
    apply adds_only_bind; [now apply adds_only_refreshCaches|intros _].
    now apply adds_only_state.
  - apply adds_only_bind;
      [apply adds_only_state; intros w; now rewrite getConsensusDLTimestamp_state|intros dlts].
    apply adds_only_bind; [now apply adds_only_state|intros _].
    apply adds_only_bind; [now apply adds_only_refreshCaches|intros _].
    now apply adds_only_state.
Qed.

(** The head of the loop body for file number 0 on an enabled backend:
    the timestamp, then a load of all the caches. *)
Lemma first_file_head {A : Type} (k : unit -> M A) (fn dlts : string) (w : World) (db : DB) :
  g_db w = Some db ->
  Enabled (DBServer (g_config w)) = true ->
  ReInitCaches (DBServer (g_config w)) <> 0 ->
  fst (getConsensusDLTimestamp fn w) = Done dlts ->
  adds_only (fun _ => True) (k tt) ->
  exists tail,
    db_calls (snd ((dlts <- getConsensusDLTimestamp fn ;;
                    set_consensusDLTS dlts ;;;
                    refreshCaches 0 ;;;
                    k tt) w))
    = db_calls w ++ [call_initCaches; call_initCountryNameCache;
                     call_initializeLatestRelayDataCache dlts] ++ tail.
Proof.
  intros Hdb Hon HK Hts Hk.
  unfold bind at 1. rewrite (getConsensusDLTimestamp_run fn w), Hts.
  unfold bind at 1. cbn [set_consensusDLTS]. unfold bind at 1.
  unfold refreshCaches at 1. cbn [g_config].
  rewrite (proj2 (Z.eqb_neq _ _) HK). change (Z.rem 0 _ =? 0) with true. cbv iota.
  erewrite initializeCaches_run; [|exact Hdb|exact Hon].
  cbn [g_consensusDLTS].
  match goal with |- context [k tt ?w'] => destruct (Hk w') as (tail & Htail & _) end.
  exists tail. rewrite Htail. cbn [db_calls after_calls]. now rewrite <- app_assoc.
Qed.

(** X23. The caches are loaded twice for the first file.  On an enabled
    backend, with the timestamps taken from the file names, an import
    starts with the load of all three caches for the timestamp of the
    first file, made before the loop, and at once repeats it as the
    refresh of file number 0, before that file is read. *)
Theorem first_file_loads_caches_twice (w : World) (db : DB) (first : string)
    (others : list string) (dlts : string) :
  Filename (Tor (g_config w)) <> EmptyString ->
  filepath_Glob (Filename (Tor (g_config w))) = Some (first :: others) ->
  ExtractDLTfromFilename (Tor (g_config w)) = true ->
  ConsensusDLT (Tor (g_config w)) = EmptyString ->
  g_db w = Some db ->
  Enabled (DBServer (g_config w)) = true ->
  ReInitCaches (DBServer (g_config w)) <> 0 ->
  fst (getConsensusDLTimestamp first w) = Done dlts ->
  exists tail,
    db_calls (snd (main w))
    = db_calls w ++
      [call_initCaches; call_initCountryNameCache; call_initializeLatestRelayDataCache dlts;
       call_initCaches; call_initCountryNameCache; call_initializeLatestRelayDataCache dlts]
      ++ tail.
Proof.
  intros Hfile Hglob Hextract Hdlt Hdb Hon HK Hts. unfold main, main_import.
  rewrite (proj2 (String.eqb_neq _ _) Hfile), Hglob.
  unfold bind at 1.
  assert (Hchecks : main_bulk_checks (Z.of_nat (length (first :: others))) w = (Done tt, w)).
  { unfold main_bulk_checks. rewrite Hdlt, Hextract. now destruct (1 <? _). }
  rewrite Hchecks.
  unfold bind at 1. rewrite (getConsensusDLTimestamp_run first w), Hts.
  unfold bind at 1. cbn [set_consensusDLTS]. unfold bind at 1.
  erewrite initializeCaches_run; [|exact Hdb|exact Hon].
  cbn [g_consensusDLTS].
  match goal with |- context [main_loop 0 _ _ ?w'] => set (w2 := w') end.
  assert (Hts2 : fst (getConsensusDLTimestamp first w2) = Done dlts)
    by (rewrite <- Hts; now apply getConsensusDLTimestamp_config).
  assert (Hhead : exists tail,
            db_calls (snd (main_loop 0 (first :: others) TorResponse_zero w2))
            = db_calls w2 ++ [call_initCaches; call_initCountryNameCache;
                              call_initializeLatestRelayDataCache dlts] ++ tail).
  { cbn [main_loop]. destruct (getConsensus false first) as [decoded|msg|msg].
    - unfold main_loop_body. rewrite bind_assoc.
      pose (K := fun _ : unit =>
                   p <- match main_shortcut 0 TorResponse_zero decoded with
                        | Done (previous, tor_response) =>
                          logDataImport tor_response ;;;
                          processTorResponse tor_response ;;;
                          ret previous
                        | Panic msg => panic msg
                        | Fatal msg => log_Fatal msg
                        end ;;
                   main_loop (0 + 1) others p).
      match goal with
      | |- context [bind (getConsensusDLTimestamp first) ?f w2] =>
        replace (bind (getConsensusDLTimestamp first) f w2)
          with ((dlts <- getConsensusDLTimestamp first ;;
                 set_consensusDLTS dlts ;;;
                 refreshCaches 0 ;;;
                 K tt) w2)
      end.
      + eapply (first_file_head K); [reflexivity|exact Hon|exact HK|exact Hts2|].
        unfold K.
        apply adds_only_bind; [|intros p; apply adds_only_main_loop].
        cbn [main_shortcut Z.eqb negb].
        apply adds_only_bind; [now apply adds_only_logDataImport|intros _].
        apply adds_only_bind; [apply adds_only_processTorResponse|intros _; apply adds_only_ret].
      + unfold K, bind. destruct (getConsensusDLTimestamp first w2) as [[d|m|m] w3];
          try reflexivity.
        cbn [set_consensusDLTS]. now destruct (refreshCaches 0 _) as [[[]|m|m] w4].
    - eapply (first_file_head (fun _ => panic msg));
        [reflexivity|exact Hon|exact HK|exact Hts2|now apply adds_only_state].
    - eapply (first_file_head (fun _ => log_Fatal msg));
        [reflexivity|exact Hon|exact HK|exact Hts2|now apply adds_only_state]. }
  destruct Hhead as (tail & Htail). exists tail. rewrite Htail.
  unfold w2. cbn [db_calls after_calls]. now rewrite <- !app_assoc.
Qed.

End ProgramProperties.

(** * The line printed for a relay *)

Lemma append_empty (s : string) : s +:+ EmptyString = s.
Proof. induction s as [|c s IH]; [reflexivity|]. rewrite append_cons. now f_equal. Qed.

Lemma prefix_append (m rest : string) : String.prefix m (m +:+ rest) = true.
Proof.
  induction m as [|c m IH]; [now destruct rest|].
  rewrite append_cons. cbn [String.prefix]. now destruct (ascii_dec c c).
Qed.

Lemma strings_Contains_here (m rest : string) : strings_Contains (m +:+ rest) m = true.
Proof.
  destruct (m +:+ rest) eqn:E; cbn [strings_Contains]; rewrite <- E, prefix_append;
    reflexivity.
Qed.

Lemma strings_Contains_after (a s m : string) :
  strings_Contains s m = true -> strings_Contains (a +:+ s) m = true.
Proof.
  intros Hs. induction a as [|c a IH]; [exact Hs|].
  rewrite append_cons. cbn [strings_Contains]. rewrite IH. apply orb_true_r.
Qed.

Lemma prefix_longer (m s rest : string) :
  String.prefix m s = true -> String.prefix m (s +:+ rest) = true.
Proof.
  revert s. induction m as [|c m IH]; intros s Hp; [now destruct (s +:+ rest)|].
  destruct s as [|d s]; [discriminate|]. rewrite append_cons.
  cbn [String.prefix] in *. destruct (ascii_dec c d); [now apply IH|discriminate].
Qed.

Lemma strings_Contains_before (s rest m : string) :
  strings_Contains s m = true -> strings_Contains (s +:+ rest) m = true.
Proof.
  induction s as [|c s IH]; intros Hs.
  - cbn [strings_Contains] in Hs. rewrite orb_false_r in Hs.
    destruct m as [|d m]; [|discriminate].
    change (EmptyString +:+ rest) with rest. now destruct rest.
  - rewrite append_cons. cbn [strings_Contains] in *.
    apply orb_true_iff in Hs as [Hp|Hs].
    + rewrite <- append_cons, (prefix_longer _ _ rest Hp). reflexivity.
    + rewrite (IH Hs). apply orb_true_r.
Qed.

Lemma printNodeInfo_res_grows (sep m : string) (output : list string) :
  forall acc,
    strings_Contains acc m = true ->
    strings_Contains (fold_left (fun res t => (res +:+ t) +:+ sep) output acc) m = true.
Proof.
  induction output as [|t rest IH]; intros acc Hacc; [exact Hacc|].
  cbn [fold_left]. apply IH. now do 2 apply strings_Contains_before.
Qed.

Lemma printNodeInfo_res_holds (sep m : string) (output : list string) :
  In m output -> strings_Contains (printNodeInfo_res sep output) m = true.
Proof.
  unfold printNodeInfo_res. generalize EmptyString.
  induction output as [|t rest IH]; intros acc Hin; [destruct Hin|].
  destruct Hin as [<-|Hin]; cbn [fold_left].
  - apply printNodeInfo_res_grows, strings_Contains_before, strings_Contains_after.
    pose proof (strings_Contains_here t EmptyString) as Hhere.
    now rewrite append_empty in Hhere.
  - now apply IH.
Qed.

Lemma strings_Contains_length (s m : string) :
  strings_Contains s m = true -> m <> EmptyString -> (0 <? GoString.len s) = true.
Proof.
  intros Hs Hm. destruct s as [|c s]; [|reflexivity].
  cbn [strings_Contains] in Hs. rewrite orb_false_r in Hs. now destruct m.
Qed.

(** X25. The lines of [printNodeInfo].  It prints at most one line, or as
    many as the relay has OR or Exit addresses; it prints nothing when no
    field is selected; when the OR addresses are selected with
    [-ip-per-line] and the relay has two or more, it prints one line per
    OR address, the same text with that address put in; and when the Exit
    addresses are selected in the same way, that text holds their marker
    and not the addresses. *)
Theorem printNodeInfo_lines (ReplaceAllString : string -> string -> string -> string)
    (print : PrintConfig) (relay : TorRelayDetails) :
  (length (printNodeInfo ReplaceAllString print relay)
   <= Nat.max 1 (Nat.max (length (elems (Or_addresses relay)))
                         (length (elems (Exit_addresses relay)))))%nat /\
  (printNodeInfo_output print relay = [] ->
   printNodeInfo ReplaceAllString print relay = []) /\
  (Print_Or_addresses print = true ->
   IPperLine print = true ->
   (2 <= length (elems (Or_addresses relay)))%nat ->
   printNodeInfo ReplaceAllString print relay
   = map (fun o => ReplaceAllString EXPAND_OR
                     (printNodeInfo_res (Separator print) (printNodeInfo_output print relay))
                     o)
         (elems (Or_addresses relay))) /\
  (Print_Exit_addresses print = true ->
   IPperLine print = true ->
   (2 <= length (elems (Exit_addresses relay)))%nat ->
   strings_Contains
     (printNodeInfo_res (Separator print) (printNodeInfo_output print relay)) EXPAND_EX
   = true).
Proof.
  split; [|split; [|split]].
  - unfold printNodeInfo. cbv zeta.
    destruct (0 <? _); [|cbn; lia].
    destruct (strings_Contains _ EXPAND_OR); [rewrite length_map; lia|].
    destruct (strings_Contains _ EXPAND_EX); [rewrite length_map; lia|cbn; lia].
  - intros Hnone. unfold printNodeInfo. now rewrite Hnone.
  - intros Hor Hip Hlen. unfold printNodeInfo. cbv zeta.
    assert (Hin : In EXPAND_OR (printNodeInfo_output print relay)).
    { unfold printNodeInfo_output. rewrite Hor, Hip. unfold slice_len.
      rewrite (proj2 (Z.ltb_lt _ _)) by lia. cbn [andb].
      apply in_or_app. right. apply in_or_app. right. apply in_or_app. left. now left. }
    pose proof (printNodeInfo_res_holds (Separator print) _ _ Hin) as Hc.
    rewrite (strings_Contains_length _ _ Hc) by discriminate.
    now rewrite Hc.
  - intros Hex Hip Hlen.
    apply printNodeInfo_res_holds. unfold printNodeInfo_output.
    rewrite Hex, Hip. unfold slice_len.
    rewrite (proj2 (Z.ltb_lt 1 (Z.of_nat (length (elems (Exit_addresses relay)))))) by lia.
    cbn [andb].
    apply in_or_app. right. apply in_or_app. right. apply in_or_app. right.
    apply in_or_app. left. now left.
Qed.

(** * The theorems at concrete inputs *)



(** Two snapshots in which [current] adds a fingerprint to [previous]:
    the delta is the new record alone. *)
Lemma delta_extractor_exact_witness :
  let r1 := Sample.relay "n1" "AAAA" "us" "" None in
  let r2 := Sample.relay "n9" "BBBB" "de" "" None in
  extractNewAndUpdatedRelays [r1] [r1; r2] = Done [r2].
Proof.
  cbv zeta.
  refine (proj1 (proj2 (proj2 (delta_extractor_exact
                   [Sample.relay "n1" "AAAA" "us" "" None]
                   [Sample.relay "n1" "AAAA" "us" "" None;
                    Sample.relay "n9" "BBBB" "de" "" None])) _)).
  simpl. repeat constructor.
  - rewrite list_elem_of_In. simpl. intros [Heq|[]]. discriminate Heq.
  - rewrite list_elem_of_In. simpl. tauto.
Defined.

(** A fingerprint that occurs twice in [current]: the second occurrence is
    returned although it is deeply equal to its counterpart in [previous],
    so the result is not the delta of the specification. *)
Lemma repeated_fingerprint_counterexample :
  let r := Sample.relay "n1" "AAAA" "us" "" None in
  DeepEqual r r = true /\
  previous_counterpart [r] (Fingerprint r) = Some r /\
  List.filter (forwarded [r]) [r; r] = [] /\
  extractNewAndUpdatedRelays [r] [r; r] = Done [r].
Proof. cbv zeta. repeat split; vm_compute; reflexivity. Qed.




(** The first scenario of the specification: an empty cache. *)
Lemma new_on_absent_cache_entry_witness :
  let relay := Sample.relay "n1" "AAAA" "us" "" None in
  let w := Sample.world ∅ "20230101000000" in
  rows_created (db_calls (snd (@processRelay Sample.lib Sample.backend relay w))) = 1%nat.
Proof.
  cbv zeta.
  refine (proj2 (proj2 (proj2 (@new_on_absent_cache_entry Sample.lib Sample.backend)
                          _ _ (Sample.mkMemDB true ∅) _ _))).
  - repeat split.
  - reflexivity.
Defined.

(** File number 200 with the default interval of 100. *)
Lemma cache_refresh_schedule_witness :
  let w := Sample.world ∅ "20230101000000" in
  db_calls (snd (@refreshCaches Sample.backend 200 w))
  = [call_initCaches; call_initCountryNameCache;
     call_initializeLatestRelayDataCache "20230101000000"].
Proof.
  cbv zeta.
  pose proof (@cache_refresh_schedule Sample.backend 200
                (Sample.world ∅ "20230101000000") (Sample.mkMemDB true ∅)) as Hthm.
  cbv zeta in Hthm.
  destruct Hthm as (Hrun & _ & _); [lia|simpl; lia|reflexivity|reflexivity|].
  rewrite Hrun. reflexivity.
Defined.

(** An override that is no timestamp. *)
Lemma timestamp_parse_failure_is_fatal_witness :
  let tor := mkTorConfig EmptyString "relays.json" "yesterday" EmptyString false EmptyString in
  let w := {| g_config := Sample.config 100 tor;
              g_db := Some (Sample.mkMemDB true ∅ : @DB Sample.backend);
              g_consensusDLTS := EmptyString;
              db_calls := [] |} in
  @getConsensusDLTimestamp Sample.lib Sample.backend "relays.json" w
  = (Fatal "Unable to parse timestamp.", w).
Proof.
  cbv zeta.
  refine (proj1 (proj2 (@timestamp_parse_failure_is_fatal Sample.lib Sample.backend))
            "relays.json"%string _ ["yesterday"%string] _ _ _).
  - right. discriminate.
  - reflexivity.
  - intros ts f [<-|[]] _. unfold time_Parse. simpl. unfold Sample.parse.
    now rewrite andb_false_r.
Defined.


(** The insert of the first scenario. *)
Lemma insert_keeps_original_values_witness :
  let relay := Sample.relay "n1" "AAAA" "us" "" None in
  let w := Sample.world ∅ "20230101000000" in
  exists (row : TorRelaysRow) (post : list DBCall),
    db_calls (snd (@addNewTorRelayToDB Sample.lib Sample.backend relay w))
    = @dictionary_calls Sample.lib relay ++ call_stmtAddTorRelays_Exec row :: post /\
    row_nick row = "n1"%string /\
    row_RecordLastSeen row = "20230101000000"%string.
Proof.
  cbv zeta.
  destruct (@insert_keeps_original_values Sample.lib Sample.backend
              (Sample.relay "n1" "AAAA" "us" "" None)
              (Sample.world ∅ "20230101000000") (Sample.mkMemDB true ∅) eq_refl)
    as ((row & post & Hcalls & _ & Hnick & _ & _ & _ & Hrls & _) & _).
  exists row, post. repeat split; assumption.
Defined.

(** A relay without the [Exit] flag under the filter [Exit]. *)
Lemma skipped_records_make_no_call_witness :
  let relay := Sample.relay "n1" "AAAA" "us" "" None in
  let w := {| g_config := {| DBServer := DBServer (Sample.config 100 Sample.tor_defaults);
                             Tor := Sample.tor_defaults;
                             Filter := mkFilterConfig false false (Some ["Exit"%string]) |};
              g_db := Some (Sample.mkMemDB true ∅ : @DB Sample.backend);
              g_consensusDLTS := "20230101000000"%string;
              db_calls := [] |} in
  @processRelay Sample.lib Sample.backend relay w = (Done tt, w).
Proof.
  cbv zeta.
  refine (@skipped_records_make_no_call Sample.lib Sample.backend _ _ _).
  left. reflexivity.
Defined.


(** ** The further properties at concrete inputs *)

(** An interval of 0 at file number 3. *)
Lemma refresh_interval_zero_or_negative_witness :
  let w := {| g_config := Sample.config 0 Sample.tor_defaults;
              g_db := Some (Sample.mkMemDB true ∅ : @DB Sample.backend);
              g_consensusDLTS := "20230101000000";
              db_calls := [] |} in
  @refreshCaches Sample.backend 3 w = (Panic "integer divide by zero", w).
Proof.
  cbv zeta.
  refine (proj1 (@refresh_interval_zero_or_negative Sample.backend 3 _ _) _);
    [lia|reflexivity].
Defined.

(** The second file of an import without backend. *)
Lemma refresh_without_database_witness :
  let w := Scenario.print_only "2023*" in
  @refreshCaches Sample.backend 1 w = (Panic "nil pointer dereference", w).
Proof.
  cbv zeta.
  refine (proj1 (@refresh_without_database Sample.lib Sample.backend 1
                   (Scenario.print_only "2023*") _ _ _ _));
    [lia|cbn; lia|reflexivity|reflexivity].
Defined.

(** A snapshot of two relays against itself. *)
Lemma delta_at_the_edges_witness :
  let r1 := Sample.relay "n1" "AAAA" "us" "" None in
  let r2 := Sample.relay "n9" "BBBB" "de" "" None in
  extractNewAndUpdatedRelays [r1; r2] [r1; r2] = Done [].
Proof.
  cbv zeta.
  refine (proj2 (proj2 (delta_at_the_edges
                   [Sample.relay "n1" "AAAA" "us" "" None;
                    Sample.relay "n9" "BBBB" "de" "" None])) _ _).
  - simpl. repeat constructor.
    + rewrite list_elem_of_In. simpl. intros [Heq|[]]. discriminate Heq.
    + rewrite list_elem_of_In. simpl. tauto.
  - intros n [<-|[<-|[]]]; reflexivity.
Defined.

(** The first and the third of January 2023. *)
Lemma download_timestamp_order_witness :
  String.ltb (DLTS_of_time (mk_time 2023 1 1 0 0 0)) (DLTS_of_time (mk_time 2023 1 3 0 0 0))
  = true.
Proof.
  refine (proj2 (proj1 (proj2 (proj2 (download_timestamp_order
            (mk_time 2023 1 1 0 0 0) (mk_time 2023 1 3 0 0 0) _ _)))) _);
    [repeat split; cbn; lia|repeat split; cbn; lia|reflexivity].
Defined.

(** An override that parses under the third default format. *)
Lemma download_timestamp_found_witness :
  let tor := mkTorConfig EmptyString "relays.json" "20230101000000" EmptyString false
                         EmptyString in
  let w := {| g_config := Sample.config 100 tor;
              g_db := Some (Sample.mkMemDB true ∅ : @DB Sample.backend);
              g_consensusDLTS := EmptyString;
              db_calls := [] |} in
  @getConsensusDLTimestamp Sample.lib Sample.backend "relays.json" w
  = (Done "20230101000000"%string, w).
Proof.
  cbv zeta.
  refine (proj1 (proj2 (@download_timestamp_found Sample.lib Sample.backend
                          "relays.json"%string _))
            ["20230101000000"%string] (mk_time 2023 1 1 0 0 0) _ _ _).
  - right. discriminate.
  - reflexivity.
  - reflexivity.
Defined.

(** The insert of a relay with one OR address. *)
Lemma insert_then_addresses_witness :
  let relay := Sample.relay "n1" "AAAA" "us" "" (Some ["1.2.3.4:9001"%string]) in
  let w := Sample.world ∅ "20230101000000" in
  exists (row : TorRelaysRow) (db' : @DB Sample.backend) (post : list DBCall),
    snd (@addNewTorRelayToDB Sample.lib Sample.backend relay w)
    = after_calls w db'
        (@dictionary_calls Sample.lib relay ++ call_stmtAddTorRelays_Exec row :: post) /\
    ((fst (@addNewTorRelayToDB Sample.lib Sample.backend relay w) = Done tt /\
      post = map (fun t => call_addToIP (fst t) (row_fpid row) (g_consensusDLTS w)
                                        (g_consensusDLTS w) (snd t))
                 (address_targets relay)) \/
     (exists msg, fst (@addNewTorRelayToDB Sample.lib Sample.backend relay w) = Panic msg /\
                  post = [])).
Proof.
  cbv zeta.
  exact (@insert_then_addresses Sample.lib Sample.backend
           (Sample.relay "n1" "AAAA" "us" "" (Some ["1.2.3.4:9001"%string]))
           (Sample.world ∅ "20230101000000") (Sample.mkMemDB true ∅) eq_refl).
Defined.

(** A changed nickname makes one row. *)
Lemma row_created_iff_records_differ_witness :
  let relay := Sample.relay "n2" "AAAA" "us" "" None in
  let entry := Sample.entry "n1" "us" "" "20230101000000" in
  let w := Sample.world {["AAAA"%string := entry]} "20230103000000" in
  rows_created (db_calls (snd (@processRelay Sample.lib Sample.backend relay w))) = 1%nat.
Proof.
  cbv zeta.
  refine (eq_trans (@row_created_iff_records_differ Sample.lib Sample.backend _ _
            (Sample.mkMemDB true
               {["AAAA"%string := Sample.entry "n1" "us" "" "20230101000000"]}) _) _).
  - repeat split.
  - reflexivity.
Defined.

(** The same response under a configuration that asks for running relays
    only. *)
Lemma processing_reads_only_the_flag_filter_witness :
  let r1 := Sample.relay "n1" "AAAA" "us" "" None in
  let resp := mkTorResponse "8.0" EmptyString EmptyString EmptyString 0 [r1] 0
                            EmptyString 0 None 0 in
  let w := Sample.world ∅ "20230101000000" in
  let cfg := mkTorHistoryConfig (DBServer (g_config w)) (Tor (g_config w))
                                (mkFilterConfig true true None) in
  @processTorResponse Sample.lib Sample.backend resp (with_config cfg w)
  = (fst (@processTorResponse Sample.lib Sample.backend resp w),
     with_config cfg (snd (@processTorResponse Sample.lib Sample.backend resp w))).
Proof.
  cbv zeta.
  apply (@processing_reads_only_the_flag_filter Sample.lib Sample.backend).
  reflexivity.
Defined.

(** The second file of a bulk import holds the relay of the first. *)
Lemma repeated_file_writes_no_relay_witness :
  let r1 := Sample.relay "n1" "AAAA" "us" "" None in
  let resp := mkTorResponse "8.0" EmptyString EmptyString EmptyString 0 [r1] 0
                            EmptyString 0 None 0 in
  let w := Scenario.online "2023*" in
  exists calls,
    db_calls (snd (@main_loop_body Scenario.lib Sample.backend 1 "20230102000000"
                     resp resp w))
    = db_calls w ++ calls /\
    Forall (fun c => is_relay_write c = false) calls.
Proof.
  cbv zeta.
  refine (proj1 (@repeated_file_writes_no_relay Scenario.lib Sample.backend 1
                   "20230102000000"%string _ _ (Scenario.online "2023*") _ _ _ _)).
  - lia.
  - reflexivity.
  - simpl. repeat constructor. rewrite list_elem_of_In. simpl. tauto.
  - intros n [<-|[]]. reflexivity.
Defined.

(** The filter text [Exit,Guard]. *)
Lemma node_filter_option_witness :
  parseNodeFilters "Exit,Guard" = Some ["Exit"; "Guard"]%string.
Proof.
  refine (proj2 (proj2 (node_filter_option EmptyString None))
            ["Exit"; "Guard"]%string _ _).
  - repeat constructor; intros Hin; simpl in Hin; intuition discriminate.
  - discriminate.
Defined.

(** An import of one file with a filter. *)
Lemma command_line_decides_witness :
  exists cfg',
    @parseCmdlnArguments Scenario.os (Scenario.import_of "relays.json") ProgramConfig_zero
    = Done cfg' /\
    Filename (Tor (Engine cfg')) = "relays.json"%string /\
    ReInitCaches (DBServer (Engine cfg')) = 100 /\
    matchFlags (Filter (Engine cfg')) = Some ["Exit"; "Guard"]%string.
Proof.
  let c := eval vm_compute in
    (match @parseCmdlnArguments Scenario.os (Scenario.import_of "relays.json")
             ProgramConfig_zero with
     | Done c => c
     | _ => ProgramConfig_zero
     end) in
  exists c;
  assert (Hrun : @parseCmdlnArguments Scenario.os (Scenario.import_of "relays.json")
                   ProgramConfig_zero = Done c) by (vm_compute; reflexivity);
  pose proof (@command_line_decides Scenario.os _ _ c Hrun) as Hthm.
  cbv zeta in Hthm.
  destruct Hthm as (_ & _ & _ & _ & _ & _ & Hfile & HK & _ & _ & Hfilter).
  split; [exact Hrun|]. split; [apply Hfile; discriminate|]. split; [exact HK|].
  rewrite Hfilter. reflexivity.
Defined.

(** A configuration file that names a host and nothing else. *)
Lemma database_settings_all_or_nothing_witness :
  exists msg,
    @parseCmdlnArguments Scenario.os (Scenario.configured_by "host.yaml") ProgramConfig_zero
    = Fatal msg.
Proof.
  eexists.
  refine (proj1 (proj2 (@database_settings_all_or_nothing Scenario.os
                          (Scenario.configured_by "host.yaml") ProgramConfig_zero))
            _ eq_refl _ _ _); reflexivity.
Defined.

(** An override without import file. *)
Lemma import_options_test_never_fails_witness :
  exists cfg',
    @init Scenario.os (Scenario.downloaded_at "20230101000000") = Done cfg' /\
    Filename (Tor (Engine cfg')) = EmptyString /\
    ConsensusDLT (Tor (Engine cfg')) = "20230101000000"%string /\
    ConsensusDLT_fmt (Tor (Engine cfg')) = EmptyString /\
    ExtractDLTfromFilename (Tor (Engine cfg')) = false.
Proof.
  exact (proj2 (@import_options_test_never_fails Scenario.os
                  (Scenario.downloaded_at "20230101000000") ProgramConfig_zero)
           eq_refl eq_refl eq_refl eq_refl).
Defined.

(** A pattern that matches no file. *)
Lemma import_is_refused_witness :
  let w := Scenario.online "2024*" in
  @main Scenario.lib Sample.backend Scenario.os w
  = (Fatal "Bad filename pattern: 2024*", w).
Proof.
  cbv zeta.
  refine (proj1 (@import_is_refused Scenario.lib Sample.backend Scenario.os
                   (Scenario.online "2024*") _) _).
  - discriminate.
  - right. reflexivity.
Defined.

(** Two files, without the extraction flag. *)
Lemma bulk_import_extracts_timestamps_witness :
  let w := {| g_config :=
                mkTorHistoryConfig (DBServer (Scenario.config true "2023*"))
                  (mkTorConfig g_consensus_details_URL "2023*" EmptyString EmptyString false
                               EmptyString)
                  (mkFilterConfig false false None);
              g_db := Some (Sample.mkMemDB true ∅ : @DB Sample.backend);
              g_consensusDLTS := EmptyString;
              db_calls := [] |} in
  @main Scenario.lib Sample.backend Scenario.os w
  = @main Scenario.lib Sample.backend Scenario.os (Scenario.online "2023*").
Proof.
  cbv zeta.
  refine (proj1 (@bulk_import_extracts_timestamps Scenario.lib Sample.backend Scenario.os
                   _ "20230101000000"%string "20230102000000"%string [] _ _ _)).
  - discriminate.
  - reflexivity.
  - reflexivity.
Defined.

(** Two files, without backend. *)
Lemma bulk_import_without_database_fails_witness :
  @aborted Sample.backend unit
    (@main Scenario.lib Sample.backend Scenario.os (Scenario.print_only "2023*")).
Proof.
  apply (@bulk_import_without_database_fails Scenario.lib Sample.backend Scenario.os
           (Scenario.print_only "2023*") "20230101000000"%string "20230102000000"%string []).
  - discriminate.
  - reflexivity.
  - repeat split. cbn. lia.
Defined.

(** An import of one file on an enabled backend. *)
Lemma first_file_loads_caches_twice_witness :
  let w := Scenario.online "20230101000000" in
  let dlts := "20230101000000"%string in
  exists tail,
    db_calls (snd (@main Scenario.lib Sample.backend Scenario.os w))
    = db_calls w ++
      [call_initCaches; call_initCountryNameCache; call_initializeLatestRelayDataCache dlts;
       call_initCaches; call_initCountryNameCache; call_initializeLatestRelayDataCache dlts]
      ++ tail.
Proof.
  cbv zeta.
  refine (@first_file_loads_caches_twice Scenario.lib Sample.backend Scenario.os
            (Scenario.online "20230101000000") (Sample.mkMemDB true ∅)
            "20230101000000"%string [] "20230101000000"%string _ _ _ _ _ _ _ _).
  - discriminate.
  - reflexivity.
  - reflexivity.
  - reflexivity.
  - reflexivity.
  - reflexivity.
  - discriminate.
  - reflexivity.
Defined.


(** A relay with two OR addresses, printed with [-or -ip-per-line]. *)
Lemma printNodeInfo_lines_witness :
  let relay := Sample.relay "n1" "AAAA" "us" ""
                 (Some ["1.2.3.4:9001"; "1.2.3.5:9001"]%string) in
  let print := mkPrintConfig "," false false true false false false false false false true in
  printNodeInfo Scenario.replace print relay = ["1.2.3.4:9001,"; "1.2.3.5:9001,"]%string.
Proof.
  cbv zeta.
  refine (proj1 (proj2 (proj2 (printNodeInfo_lines Scenario.replace
            (mkPrintConfig "," false false true false false false false false false true)
            (Sample.relay "n1" "AAAA" "us" ""
               (Some ["1.2.3.4:9001"; "1.2.3.5:9001"]%string))))) _ _ _).
  - reflexivity.
  - reflexivity.
  - cbn. lia.
Defined.
